(** * Fritter: personas, handles, the active-persona session slot and the
    follow graph.

    A shallow embedding of the Express/Mongoose server code
    (persona collection, persona middleware, persona router, follow
    collection, follow middleware, follow router) together with the
    properties of the identity-and-follow-graph layer.

    Conventions of the embedding:
    - a MongoDB collection is the list of its documents in insertion
      (natural) order; [findOne] returns the first match, [find] without
      [sort] returns the matches in that order;
    - an ObjectId is a natural number handed out by a counter;
    - JavaScript strings are ASCII strings;
    - an Express middleware either answers the request or calls [next()];
      an async handler whose promise rejects answers nothing. *)

From Stdlib Require Import List String Ascii Bool Arith Lia.
From Stdlib Require Import Permutation.
Import ListNotations.
Open Scope string_scope.
Open Scope list_scope.
Open Scope nat_scope.

(* ------------------------------------------------------------------ *)
(** * Regular expressions                                               *)
(* ------------------------------------------------------------------ *)

(** The source uses two regular-expression literals ([/^\w+$/i] and
    [/^\w+(([ ]?\w+){1,5})$/i]) and builds a third one at run time from a
    handle ([new RegExp(`^${handle.trim()}$`)]).  None of them uses
    back-references or look-around, so [test] is membership in a regular
    language; it is decided here with derivatives. *)
Module RegExp.

Inductive regex : Type :=
| Void : regex                          (* matches nothing *)
| Eps : regex                           (* the empty string *)
| Class : (ascii -> bool) -> regex      (* one character of a class *)
| Seq : regex -> regex -> regex
| Alt : regex -> regex -> regex
| Star : regex -> regex.

(** Character classes. *)
Definition code (c : ascii) : nat := nat_of_ascii c.

Definition isDigit (c : ascii) : bool := (48 <=? code c) && (code c <=? 57).
Definition isUpper (c : ascii) : bool := (65 <=? code c) && (code c <=? 90).
Definition isLower (c : ascii) : bool := (97 <=? code c) && (code c <=? 122).

(** [\w] is [[A-Za-z0-9_]]. *)
Definition isWord (c : ascii) : bool :=
  isDigit c || isUpper c || isLower c || (code c =? 95).

(** [\s], and the characters [String.prototype.trim] strips:
    TAB, LF, VT, FF, CR and space. *)
Definition isSpace (c : ascii) : bool :=
  ((9 <=? code c) && (code c <=? 13)) || (code c =? 32).

(** [.] matches any character but a line terminator. *)
Definition isDot (c : ascii) : bool :=
  negb ((code c =? 10) || (code c =? 13)).

Definition toLower (c : ascii) : ascii :=
  if isUpper c then ascii_of_nat (code c + 32) else c.

(** A literal character, under the [i] flag when [ic] is set. *)
Definition Lit (ic : bool) (c : ascii) : regex :=
  Class (fun x => if ic then Ascii.eqb (toLower x) (toLower c)
                  else Ascii.eqb x c).

Definition Plus (r : regex) : regex := Seq r (Star r).
Definition Opt (r : regex) : regex := Alt Eps r.

(** [r{n}] and [r{0,n}], hence [r{lo,hi}]. *)
Fixpoint Exactly (n : nat) (r : regex) : regex :=
  match n with
  | O => Eps
  | S k => Seq r (Exactly k r)
  end.

Fixpoint UpTo (n : nat) (r : regex) : regex :=
  match n with
  | O => Eps
  | S k => Opt (Seq r (UpTo k r))
  end.

Definition Range (lo hi : nat) (r : regex) : regex :=
  Seq (Exactly lo r) (UpTo (hi - lo) r).

Fixpoint literal (ic : bool) (cs : list ascii) : regex :=
  match cs with
  | [] => Eps
  | c :: rest => Seq (Lit ic c) (literal ic rest)
  end.

(** Derivative-based matching. *)
Fixpoint nullable (r : regex) : bool :=
  match r with
  | Void => false
  | Eps => true
  | Class _ => false
  | Seq a b => nullable a && nullable b
  | Alt a b => nullable a || nullable b
  | Star _ => true
  end.

Fixpoint deriv (c : ascii) (r : regex) : regex :=
  match r with
  | Void => Void
  | Eps => Void
  | Class p => if p c then Eps else Void
  | Seq a b =>
      if nullable a then Alt (Seq (deriv c a) b) (deriv c b)
      else Seq (deriv c a) b
  | Alt a b => Alt (deriv c a) (deriv c b)
  | Star a => Seq (deriv c a) (Star a)
  end.

Fixpoint matches (r : regex) (s : list ascii) : bool :=
  match s with
  | [] => nullable r
  | c :: rest => matches (deriv c r) rest
  end.

(** A compiled pattern: the body between an optional leading [^] and an
    optional trailing [$]. *)
Record t : Type := mk {
  anchoredStart : bool;
  body : regex;
  anchoredEnd : bool
}.

Definition anyChar : regex := Class (fun _ => true).

(** [re.test(s)], and the [$regex] query operator: some substring of
    [s] matches, the anchors pinning it to the ends. *)
Definition test (re : t) (s : string) : bool :=
  matches
    (Seq (if anchoredStart re then Eps else Star anyChar)
         (Seq (body re)
              (if anchoredEnd re then Eps else Star anyChar)))
    (list_ascii_of_string s).

(** ** Patterns built from a string at run time

    [new RegExp(src)] is modelled on the fragment of the pattern
    syntax made of literal characters, [.], the escapes
    [\w \d \s] (and an escaped punctuation character), each optionally
    followed by one of the quantifiers [* + ?], with [^] allowed first
    and [$] allowed last.  A pattern outside of the fragment
    (groups, brackets, braces, alternation, other escapes) yields
    [None]. *)
Inductive token : Type :=
| TAtom : regex -> token
| TQuant : ascii -> token
| TCaret : token
| TDollar : token.

Definition isAlnum (c : ascii) : bool := isDigit c || isUpper c || isLower c.

Definition escape (c : ascii) : option regex :=
  if Ascii.eqb c "w" then Some (Class isWord)
  else if Ascii.eqb c "d" then Some (Class isDigit)
  else if Ascii.eqb c "s" then Some (Class isSpace)
  else if isAlnum c then None
  else Some (Lit false c).

Definition isBracket (c : ascii) : bool :=
  existsb (Ascii.eqb c) ["("; ")"; "["; "]"; "{"; "}"; "|"]%char.

Fixpoint tokens (cs : list ascii) : option (list token) :=
  match cs with
  | [] => Some []
  | c :: rest =>
      if Ascii.eqb c "\" then
        match rest with
        | [] => None
        | e :: rest' =>
            match escape e, tokens rest' with
            | Some r, Some ts => Some (TAtom r :: ts)
            | _, _ => None
            end
        end
      else
        match tokens rest with
        | None => None
        | Some ts =>
            if isBracket c then None
            else if Ascii.eqb c "." then Some (TAtom (Class isDot) :: ts)
            else if Ascii.eqb c "^" then Some (TCaret :: ts)
            else if Ascii.eqb c "$" then Some (TDollar :: ts)
            else if existsb (Ascii.eqb c) ["*"; "+"; "?"]%char
                 then Some (TQuant c :: ts)
            else Some (TAtom (Lit false c) :: ts)
        end
  end.

Definition quantify (q : ascii) (r : regex) : regex :=
  if Ascii.eqb q "*" then Star r
  else if Ascii.eqb q "+" then Plus r
  else Opt r.

(** The body and whether it ends in the [$] anchor. *)
Fixpoint build (ts : list token) : option (regex * bool) :=
  match ts with
  | [] => Some (Eps, false)
  | [TDollar] => Some (Eps, true)
  | TAtom r :: rest =>
      match rest with
      | TQuant q :: rest' =>
          match build rest' with
          | Some (k, e) => Some (Seq (quantify q r) k, e)
          | None => None
          end
      | _ =>
          match build rest with
          | Some (k, e) => Some (Seq r k, e)
          | None => None
          end
      end
  | _ => None
  end.

Definition compile (src : string) : option t :=
  match tokens (list_ascii_of_string src) with
  | None => None
  | Some (TCaret :: ts) =>
      match build ts with
      | Some (r, e) => Some (mk true r e)
      | None => None
      end
  | Some ts =>
      match build ts with
      | Some (r, e) => Some (mk false r e)
      | None => None
      end
  end.

(** ** The language of a regular expression *)
Inductive lang : regex -> list ascii -> Prop :=
| lang_eps : lang Eps []
| lang_class : forall p c, p c = true -> lang (Class p) [c]
| lang_seq : forall a b s u,
    lang a s -> lang b u -> lang (Seq a b) (s ++ u)
| lang_alt_l : forall a b s, lang a s -> lang (Alt a b) s
| lang_alt_r : forall a b s, lang b s -> lang (Alt a b) s
| lang_star_nil : forall a, lang (Star a) []
| lang_star_more : forall a s u,
    lang a s -> lang (Star a) u -> lang (Star a) (s ++ u).

End RegExp.

(* ------------------------------------------------------------------ *)
(** * Documents and the database                                        *)
(* ------------------------------------------------------------------ *)

Definition ObjectId : Type := nat.

(** Modelled from the spec: the account record of [../user/model], which
    the sources at hand only reference: a stable identifier and a
    username. *)
Record User : Type := mkUser {
  user_id : ObjectId;
  username : string
}.

(** [Persona] of persona/model.ts. *)
Record Persona : Type := mkPersona {
  persona_id : ObjectId;      (* _id *)
  user : string;              (* username of the owning user *)
  handle : string;
  name : string
}.

(** [Follow] of follow/model.ts; [dateFollowed] is a timestamp. *)
Record Follow : Type := mkFollow {
  follow_id : ObjectId;       (* _id *)
  followerId : ObjectId;
  followingId : ObjectId;
  dateFollowed : nat
}.

(** The [personaDetails] object [updateOne] reads: the [name] and
    [handle] of the request body. *)
Record PersonaDetails : Type := mkPersonaDetails {
  details_name : string;
  details_handle : string
}.

Record Db : Type := mkDb {
  users : list User;
  personas : list Persona;
  follows : list Follow;
  nextId : ObjectId           (* the next ObjectId MongoDB hands out *)
}.

Definition setPersonas (db : Db) (ps : list Persona) : Db :=
  mkDb (users db) ps (follows db) (nextId db).

Definition setFollows (db : Db) (fs : list Follow) : Db :=
  mkDb (users db) (personas db) fs (nextId db).

(** [deleteOne(filter)]: the first matching document goes. *)
Fixpoint removeFirst {A : Type} (f : A -> bool) (l : list A) : list A :=
  match l with
  | [] => []
  | x :: rest => if f x then rest else x :: removeFirst f rest
  end.

(** [doc.save()] on a fetched document: the first document the filter
    matches is replaced where it stands. *)
Fixpoint replaceFirst {A : Type} (f : A -> bool) (y : A) (l : list A)
  : list A :=
  match l with
  | [] => []
  | x :: rest => if f x then y :: rest else x :: replaceFirst f y rest
  end.

(** [String.prototype.trim]. *)
Fixpoint dropSpaces (cs : list ascii) : list ascii :=
  match cs with
  | [] => []
  | c :: rest => if RegExp.isSpace c then dropSpaces rest else cs
  end.

Definition trim (s : string) : string :=
  string_of_list_ascii
    (rev (dropSpaces (rev (dropSpaces (list_ascii_of_string s))))).

(** [new RegExp(`^${s.trim()}$`)]. *)
Definition anchored (s : string) : option RegExp.t :=
  RegExp.compile ("^" ++ trim s ++ "$").

(** Modelled from the spec: [UserCollection.findOneByUserId] of
    [../user/collection], absent from the sources at hand: the account
    with the given identifier, if any. *)
Module UserCollection.

Definition findOneByUserId (userId : ObjectId) (db : Db) : option User :=
  find (fun u => user_id u =? userId) (users db).

End UserCollection.

(** persona/collection.ts.  A lookup by pattern returns [None] when the
    pattern falls outside the modelled fragment of [RegExp.compile], and
    [Some r] with [r] the query's result otherwise. *)
Module PersonaCollection.

(** [addOne]: [save()] rejects when a [required] string of the schema is
    empty; otherwise the document is appended with a fresh [_id]. *)
Definition addOne (username handle name : string) (db : Db)
  : option (Persona * Db) :=
  if String.eqb username EmptyString
     || String.eqb handle EmptyString
     || String.eqb name EmptyString
  then None
  else
    let persona := mkPersona (nextId db) username handle name in
    Some (persona,
          mkDb (users db) (personas db ++ [persona]) (follows db)
               (S (nextId db))).

Definition findOneByPersonaId (personaId : ObjectId) (db : Db)
  : option Persona :=
  find (fun p => persona_id p =? personaId) (personas db).

Definition findOneByHandle (handle_ : string) (db : Db)
  : option (option Persona) :=
  match anchored handle_ with
  | None => None
  | Some re => Some (find (fun p => RegExp.test re (handle p)) (personas db))
  end.

Definition findOneByUserAndHandle (username handle_ : string) (db : Db)
  : option (option Persona) :=
  match anchored username, anchored handle_ with
  | Some ru, Some rh =>
      Some (find (fun p => RegExp.test ru (user p)
                           && RegExp.test rh (handle p))
                 (personas db))
  | _, _ => None
  end.

Definition findAllByUsername (username : string) (db : Db)
  : option (list Persona) :=
  match anchored username with
  | None => None
  | Some ru => Some (filter (fun p => RegExp.test ru (user p)) (personas db))
  end.

(** [deleteOne]: the write result is never [null], so [true] comes back
    whether or not a document went. *)
Definition deleteOne (personaId : ObjectId) (db : Db) : bool * Db :=
  (true,
   setPersonas db
     (removeFirst (fun p => persona_id p =? personaId) (personas db))).

Definition findOneByUserAndName (username name_ : string) (db : Db)
  : option (option Persona) :=
  match anchored username, anchored name_ with
  | Some ru, Some rn =>
      Some (find (fun p => RegExp.test ru (user p)
                           && RegExp.test rn (name p))
                 (personas db))
  | _, _ => None
  end.

(** [updateOne]: [None] when the promise rejects: no persona has the
    identifier ([persona.name] on [null]), or [save()] meets an empty
    [required] string.  An empty (falsy) detail leaves the field alone. *)
Definition updateOne (personaId : ObjectId) (personaDetails : PersonaDetails)
  (db : Db) : option (Persona * Db) :=
  match find (fun p => persona_id p =? personaId) (personas db) with
  | None => None
  | Some persona =>
      let name1 :=
        if String.eqb (details_name personaDetails) EmptyString
        then name persona else details_name personaDetails in
      let handle1 :=
        if String.eqb (details_handle personaDetails) EmptyString
        then handle persona else details_handle personaDetails in
      if String.eqb (user persona) EmptyString
         || String.eqb handle1 EmptyString
         || String.eqb name1 EmptyString
      then None
      else
        let persona1 :=
          mkPersona (persona_id persona) (user persona) handle1 name1 in
        Some (persona1,
              setPersonas db
                (replaceFirst (fun p => persona_id p =? personaId) persona1
                   (personas db)))
  end.

(** [deleteMany]: [None] when destructuring [{username}] out of [null]
    throws; the filter [{user: username}] is an equality. *)
Definition deleteMany (userId_ : ObjectId) (db : Db) : option (bool * Db) :=
  match UserCollection.findOneByUserId userId_ db with
  | None => None
  | Some u =>
      Some (true,
            setPersonas db
              (filter (fun p => negb (String.eqb (user p) (username u)))
                 (personas db)))
  end.

End PersonaCollection.

(** A follow with its two references resolved, as
    [populate(['followerId', 'followingId'])] returns it: a reference to
    a persona that is not stored becomes [null]. *)
Record PopulatedFollow : Type := mkPopulatedFollow {
  populated_id : ObjectId;
  populated_follower : option Persona;
  populated_following : option Persona;
  populated_date : nat
}.

(** follow/collection.ts.  [populate] selects nothing: each query below
    returns the stored documents it selects, and [populate] gives what
    the caller receives for one of them. *)
Module FollowCollection.

(** Every lookup of the source ends in
    [.populate(['followerId', 'followingId'])].  The lookups below
    select the stored documents; [populate] is what the caller is handed
    for each of them: the two references resolved against the personas
    of the store, [None] ([null]) for a persona that is no longer
    there. *)
Definition populate (db : Db) (f : Follow) : PopulatedFollow :=
  mkPopulatedFollow (follow_id f)
    (PersonaCollection.findOneByPersonaId (followerId f) db)
    (PersonaCollection.findOneByPersonaId (followingId f) db)
    (dateFollowed f).

(** [addOne]; [date] is what [new Date()] returns. *)
Definition addOne (followerId_ followingId_ : ObjectId) (date : nat)
  (db : Db) : Follow * Db :=
  let follow := mkFollow (nextId db) followerId_ followingId_ date in
  (follow,
   mkDb (users db) (personas db) (follows db ++ [follow]) (S (nextId db))).

Definition findOne (followId : ObjectId) (db : Db) : option Follow :=
  find (fun f => follow_id f =? followId) (follows db).

(** [sort({dateFollowed: -1})]: most recent first. *)
Fixpoint insertByDate (f : Follow) (l : list Follow) : list Follow :=
  match l with
  | [] => [f]
  | g :: rest =>
      if dateFollowed g <? dateFollowed f then f :: l
      else g :: insertByDate f rest
  end.

Definition sortByDateDesc (l : list Follow) : list Follow :=
  fold_right insertByDate [] l.

Definition findAll (db : Db) : list Follow :=
  sortByDateDesc (follows db).

Definition findOneByPartyIds (followerId_ followingId_ : ObjectId) (db : Db)
  : option Follow :=
  find (fun f => (followerId f =? followerId_)
                 && (followingId f =? followingId_))
       (follows db).

Definition findAllInitiatedById (personaId : ObjectId) (db : Db)
  : list Follow :=
  filter (fun f => followerId f =? personaId) (follows db).

Definition findAllReceivedById (personaId : ObjectId) (db : Db)
  : list Follow :=
  filter (fun f => followingId f =? personaId) (follows db).

Definition deleteOne (followId : ObjectId) (db : Db) : bool * Db :=
  (true,
   setFollows db
     (removeFirst (fun f => follow_id f =? followId) (follows db))).

(** [deleteMany({followerId: personaId})]. *)
Definition deleteMany (personaId : ObjectId) (db : Db) : Db :=
  setFollows db
    (filter (fun f => negb (followerId f =? personaId)) (follows db)).

(** The two listings by handle: [None] outside the modelled patterns,
    [Some None] when no persona matches ([personaAuthor._id] on [null]
    throws). *)
Definition findAllInitiatedByHandle (handle_ : string) (db : Db)
  : option (option (list Follow)) :=
  match PersonaCollection.findOneByHandle handle_ db with
  | None => None
  | Some None => Some None
  | Some (Some personaAuthor) =>
      Some (Some (filter (fun f => followerId f =? persona_id personaAuthor)
                    (follows db)))
  end.

Definition findAllReceiveddByHandle (handle_ : string) (db : Db)
  : option (option (list Follow)) :=
  match PersonaCollection.findOneByHandle handle_ db with
  | None => None
  | Some None => Some None
  | Some (Some personaAuthor) =>
      Some (Some (filter (fun f => followingId f =? persona_id personaAuthor)
                    (follows db)))
  end.

End FollowCollection.

(* ------------------------------------------------------------------ *)
(** * Requests, responses and middleware chains                         *)
(* ------------------------------------------------------------------ *)

(** [req.session]: the logged-in user, the active persona, and the
    [personId] field the persona-creation handler writes. *)
Record Session : Type := mkSession {
  userId : option ObjectId;
  personaId : option ObjectId;
  personId : option ObjectId
}.

(** [req.body], for the requests whose [username], [handle] and [name]
    are JSON strings: a request that lacks one of them, or sends another
    kind of value, is not among the modelled requests (see
    [PersonaValidator.coercedWhenAbsent] for what the format checks do
    with an absent field).  A route that never reads a field is given
    the empty string there.  An absent [personaId] is [None]. *)
Record Body : Type := mkBody {
  body_username : string;
  body_handle : string;
  body_name : string;
  body_personaId : option ObjectId
}.

(** A request: session, body, [req.query.personaId] (absent or empty is
    [None]) and the instant [new Date()] yields while it is served.

    [query_personaId] is the ObjectId the query string casts to, and the
    cast reads the 24 hexadecimal digits in either letter case;
    [query_asStored] tells whether the string is written exactly as
    [ObjectId.toString()] prints that identifier (lower-case digits),
    which is how [req.session.personaId] is written. *)
Record Request : Type := mkSpelledRequest {
  session : Session;
  body : Body;
  query_personaId : option ObjectId;
  now : nat;
  query_asStored : bool
}.

(** A request whose identifier, if it has one, is written as stored. *)
Definition mkRequest (s : Session) (b : Body) (q : option ObjectId)
  (time : nat) : Request :=
  mkSpelledRequest s b q time true.

Inductive Payload : Type :=
| ErrorPayload : Payload                       (* {error: ...} *)
| MessagePayload : Payload                     (* {message: ...} *)
| PersonaPayload : Persona -> Payload          (* {message, persona} *)
| FollowPayload : Follow -> Payload
| FollowsPayload : list Follow -> Payload.

Record Response : Type := mkResponse {
  status : nat;
  payload : Payload
}.

(** What the client observes: a response; nothing, because the promise
    of an async middleware or handler rejected ([Unhandled]); or a
    query the embedding does not interpret ([OutOfModel]: a pattern
    outside the modelled fragment, or a filter on an [undefined]
    value). *)
Inductive Outcome : Type :=
| Responded : Response -> Outcome
| Unhandled : Outcome
| OutOfModel : Outcome.

Inductive MwResult : Type :=
| Next : MwResult
| Stop : Outcome -> MwResult.

Record Result : Type := mkResult {
  outcome : Outcome;
  db_after : Db;
  session_after : Session
}.

Definition Middleware : Type := Request -> Db -> MwResult.
Definition Handler : Type := Request -> Db -> Result.

Definition reply (code_ : nat) (p : Payload) : Outcome :=
  Responded (mkResponse code_ p).

(** [router.METHOD(path, [middleware...], handler)]: the first
    middleware that does not call [next()] ends the request, with the
    database and the session as they were. *)
Fixpoint route (mws : list Middleware) (h : Handler) (req : Request)
  (db : Db) : Result :=
  match mws with
  | [] => h req db
  | m :: rest =>
      match m req db with
      | Next => route rest h req db
      | Stop o => mkResult o db (session req)
      end
  end.

(** Modelled from the spec: [isUserLoggedIn] of [../user/middleware],
    absent from the sources at hand; every route documents
    "403 - If the user is not logged in". *)
Module UserValidator.

Definition isUserLoggedIn : Middleware := fun req _ =>
  match userId (session req) with
  | None => Stop (reply 403 ErrorPayload)
  | Some _ => Next
  end.

End UserValidator.

(** persona/middleware.ts *)
Module PersonaValidator.

(** [/^\w+(([ ]?\w+){1,5})$/i] *)
Definition nameRegex : RegExp.t :=
  RegExp.mk true
    (RegExp.Seq
       (RegExp.Plus (RegExp.Class RegExp.isWord))
       (RegExp.Range 1 5
          (RegExp.Seq (RegExp.Opt (RegExp.Lit true " "))
                      (RegExp.Plus (RegExp.Class RegExp.isWord)))))
    true.

(** [/^\w+$/i] *)
Definition handleRegex : RegExp.t :=
  RegExp.mk true (RegExp.Plus (RegExp.Class RegExp.isWord)) true.

(** What [req.body.name] or [req.body.handle] can be: nothing, a JSON
    string, or another JSON value, kept with the text [ToString] gives
    it ([null], [true], [12], ...). *)
Inductive Field : Type :=
| Absent
| Text (s : string)
| Other (shown : string).

(** [RegExp.prototype.test] turns its argument into a string first: a
    field the body lacks is tested as this text. *)
Definition coercedWhenAbsent : string := "undefined".

(** The string [RegExp.prototype.test] matches against. *)
Definition tested (v : Field) : string :=
  match v with
  | Absent => coercedWhenAbsent
  | Text s => s
  | Other shown => shown
  end.

(** The body of [isValidName], on what it finds in [req.body.name]. *)
Definition nameCheck (v : Field) : MwResult :=
  if negb (RegExp.test nameRegex (tested v))
  then Stop (reply 400 ErrorPayload)
  else Next.

(** The body of [isValidHandle], on what it finds in [req.body.handle]. *)
Definition handleCheck (v : Field) : MwResult :=
  if negb (RegExp.test handleRegex (tested v))
  then Stop (reply 400 ErrorPayload)
  else Next.

Definition isValidName : Middleware := fun req _ =>
  nameCheck (Text (body_name (body req))).

Definition isValidHandle : Middleware := fun req _ =>
  handleCheck (Text (body_handle (body req))).

Definition isHandleNotAlreadyInUse : Middleware := fun req db =>
  match PersonaCollection.findOneByHandle (body_handle (body req)) db with
  | None => Stop OutOfModel
  | Some (Some _) => Stop (reply 409 ErrorPayload)
  | Some None => Next
  end.

(** Destructuring [{username}] out of [null] throws when the session's
    user is gone. *)
Definition isPersonaHandleExistWithUser : Middleware := fun req db =>
  match userId (session req) with
  | None => Stop OutOfModel
  | Some uid =>
      match UserCollection.findOneByUserId uid db with
      | None => Stop Unhandled
      | Some u =>
          match PersonaCollection.findOneByUserAndHandle
                  (username u) (body_handle (body req)) db with
          | None => Stop OutOfModel
          | Some None => Stop (reply 404 ErrorPayload)
          | Some (Some _) => Next
          end
      end
  end.

(** An absent [personaId] is not a valid ObjectId: [persona] is [''],
    which is falsy. *)
Definition isPersonaExists : Middleware := fun req db =>
  match body_personaId (body req) with
  | None => Stop (reply 404 ErrorPayload)
  | Some pid =>
      match PersonaCollection.findOneByPersonaId pid db with
      | None => Stop (reply 404 ErrorPayload)
      | Some _ => Next
      end
  end.

Definition isPersonaQueryExists : Middleware := fun req db =>
  match query_personaId req with
  | None => Stop (reply 400 ErrorPayload)
  | Some pid =>
      match PersonaCollection.findOneByPersonaId pid db with
      | None => Stop (reply 404 ErrorPayload)
      | Some _ => Next
      end
  end.

Definition isPersonaSignedIn : Middleware := fun req _ =>
  match personaId (session req) with
  | None => Stop (reply 403 ErrorPayload)
  | Some _ => Next
  end.

(** The two checks of the update route read [req.params.personaId],
    passed here as [param] ([None]: the optional segment is absent). *)
Definition isNewHandleNotAlreadyInUse (param : option ObjectId)
  : Middleware := fun req db =>
  match param with
  | None => Stop OutOfModel
  | Some pid =>
      match PersonaCollection.findOneByPersonaId pid db with
      | None => Stop Unhandled                 (* null.handle *)
      | Some personaOriginal =>
          if negb (String.eqb (handle personaOriginal)
                     (body_handle (body req)))
          then
            match PersonaCollection.findOneByHandle
                    (body_handle (body req)) db with
            | None => Stop OutOfModel
            | Some (Some _) => Stop (reply 409 ErrorPayload)
            | Some None => Next
            end
          else Next
      end
  end.

Definition isPersonaExistWithUser (param : option ObjectId)
  : Middleware := fun req db =>
  match param with
  | None => Stop (reply 400 ErrorPayload)
  | Some pid =>
      match PersonaCollection.findOneByPersonaId pid db with
      | None => Stop (reply 400 ErrorPayload)
      | Some persona =>
          if negb (String.eqb (user persona) (body_username (body req)))
          then Stop (reply 400 ErrorPayload)
          else Next
      end
  end.

End PersonaValidator.

(** follow/middleware.ts.  Both checks read the followee from
    [req.body.personaId]; when the body has none the query finds no
    document. *)
(** Both checks look the edge up by [req.session.personaId] and
    [req.body.personaId].  Without the latter the filter asks for
    [followingId: undefined], which no stored edge satisfies: the lookup
    returns [null]. *)
Module FollowValidator.

Definition isFollowNotExistUnderSignedInPersona : Middleware := fun req db =>
  match personaId (session req), body_personaId (body req) with
  | Some a, Some b =>
      match FollowCollection.findOneByPartyIds a b db with
      | Some _ => Stop (reply 409 ErrorPayload)
      | None => Next
      end
  | Some _, None => Next
  | None, _ => Stop OutOfModel
  end.

Definition isFollowExistUnderSignedInPersona : Middleware := fun req db =>
  match personaId (session req), body_personaId (body req) with
  | Some a, Some b =>
      match FollowCollection.findOneByPartyIds a b db with
      | None => Stop (reply 404 ErrorPayload)
      | Some _ => Next
      end
  | Some _, None => Stop (reply 404 ErrorPayload)
  | None, _ => Stop OutOfModel
  end.

End FollowValidator.

(* ------------------------------------------------------------------ *)
(** * Routers                                                           *)
(* ------------------------------------------------------------------ *)

Definition setPersonaId (s : Session) (pid : ObjectId) : Session :=
  mkSession (userId s) (Some pid) (personId s).

Definition setPersonId (s : Session) (pid : ObjectId) : Session :=
  mkSession (userId s) (personaId s) (Some pid).

(** persona/router.ts *)
Module PersonaRouter.

(** POST /api/persona/session *)
Definition signInHandler : Handler := fun req db =>
  match PersonaCollection.findOneByHandle (body_handle (body req)) db with
  | None => mkResult OutOfModel db (session req)
  | Some None => mkResult Unhandled db (session req)   (* null._id *)
  | Some (Some persona) =>
      mkResult (reply 200 (PersonaPayload persona)) db
               (setPersonaId (session req) (persona_id persona))
  end.

Definition signIn : Handler :=
  route [UserValidator.isUserLoggedIn;
         PersonaValidator.isValidHandle;
         PersonaValidator.isPersonaHandleExistWithUser]
        signInHandler.

(** POST /api/persona *)
Definition createHandler : Handler := fun req db =>
  match PersonaCollection.addOne (body_username (body req))
          (body_handle (body req)) (body_name (body req)) db with
  | None => mkResult Unhandled db (session req)
  | Some (persona, db1) =>
      mkResult (reply 201 (PersonaPayload persona)) db1
               (setPersonId (session req) (persona_id persona))
  end.

Definition create : Handler :=
  route [UserValidator.isUserLoggedIn;
         PersonaValidator.isValidName;
         PersonaValidator.isValidHandle;
         PersonaValidator.isHandleNotAlreadyInUse]
        createHandler.

(** DELETE /api/persona?personaId=id.  The guard
    [req.query.personaId.toString() === req.session.personaId] compares
    the two strings: it holds when the query casts to the active
    identifier and is written as the session wrote it. *)
Definition deleteHandler : Handler := fun req db =>
  match query_personaId req with
  | None => mkResult Unhandled db (session req)  (* undefined.toString() *)
  | Some pid =>
      if match personaId (session req) with
         | Some active => query_asStored req && (pid =? active)
         | None => false
         end
      then mkResult (reply 401 ErrorPayload) db (session req)
      else
        let '(_, db1) := PersonaCollection.deleteOne pid db in
        mkResult (reply 200 MessagePayload) db1 (session req)
  end.

Definition delete : Handler :=
  route [UserValidator.isUserLoggedIn;
         PersonaValidator.isPersonaQueryExists]
        deleteHandler.

(** PUT /api/persona/:personaId? *)
Definition updateHandler (param : option ObjectId) : Handler := fun req db =>
  match param with
  | None => mkResult OutOfModel db (session req)
  | Some pid =>
      match PersonaCollection.updateOne pid
              (mkPersonaDetails (body_name (body req))
                                (body_handle (body req))) db with
      | None => mkResult Unhandled db (session req)
      | Some (persona, db1) =>
          mkResult (reply 200 (PersonaPayload persona)) db1 (session req)
      end
  end.

Definition update (param : option ObjectId) : Handler :=
  route [UserValidator.isUserLoggedIn;
         PersonaValidator.isPersonaExistWithUser param;
         PersonaValidator.isValidName;
         PersonaValidator.isValidHandle;
         PersonaValidator.isNewHandleNotAlreadyInUse param]
        (updateHandler param).

End PersonaRouter.

(** follow/router.ts *)
Module FollowRouter.

(** GET /api/follows/following *)
Definition followingHandler : Handler := fun req db =>
  match personaId (session req) with
  | None => mkResult OutOfModel db (session req)
  | Some followerId_ =>
      mkResult
        (reply 200
           (FollowsPayload
              (FollowCollection.findAllInitiatedById followerId_ db)))
        db (session req)
  end.

Definition following : Handler :=
  route [UserValidator.isUserLoggedIn;
         PersonaValidator.isPersonaSignedIn]
        followingHandler.

(** GET /api/follows/followers *)
Definition followersHandler : Handler := fun req db =>
  match personaId (session req) with
  | None => mkResult OutOfModel db (session req)
  | Some followingId_ =>
      mkResult
        (reply 200
           (FollowsPayload
              (FollowCollection.findAllReceivedById followingId_ db)))
        db (session req)
  end.

Definition followers : Handler :=
  route [UserValidator.isUserLoggedIn;
         PersonaValidator.isPersonaSignedIn]
        followersHandler.

(** POST /api/follows.  Without a follower or a followee [save()]
    rejects (cast of [''], missing required path). *)
Definition followHandler : Handler := fun req db =>
  match personaId (session req), body_personaId (body req) with
  | Some followerId_, Some followingId_ =>
      let '(follow, db1) :=
        FollowCollection.addOne followerId_ followingId_ (now req) db in
      mkResult (reply 201 (FollowPayload follow)) db1 (session req)
  | _, _ => mkResult Unhandled db (session req)
  end.

Definition follow : Handler :=
  route [UserValidator.isUserLoggedIn;
         PersonaValidator.isPersonaSignedIn;
         PersonaValidator.isPersonaExists;
         FollowValidator.isFollowNotExistUnderSignedInPersona]
        followHandler.

(** DELETE /api/follows?personaId=id.  The handler looks the edge up by
    [req.query.personaId]; [follow._id] throws when there is none. *)
Definition unfollowHandler : Handler := fun req db =>
  match personaId (session req), query_personaId req with
  | Some followerId_, Some followingId_ =>
      match FollowCollection.findOneByPartyIds followerId_ followingId_ db
      with
      | None => mkResult Unhandled db (session req)
      | Some follow =>
          let '(_, db1) := FollowCollection.deleteOne (follow_id follow) db in
          mkResult (reply 200 MessagePayload) db1 (session req)
      end
  | None, Some _ => mkResult OutOfModel db (session req)
  | _, None => mkResult Unhandled db (session req)
  end.

Definition unfollow : Handler :=
  route [UserValidator.isUserLoggedIn;
         PersonaValidator.isPersonaSignedIn;
         PersonaValidator.isPersonaQueryExists;
         FollowValidator.isFollowExistUnderSignedInPersona]
        unfollowHandler.

End FollowRouter.

(** The status a request was answered with, if it was answered. *)
Definition statusOf (r : Result) : option nat :=
  match outcome r with
  | Responded resp => Some (status resp)
  | _ => None
  end.

(* ------------------------------------------------------------------ *)
(** * Predicates the statements use                                     *)
(* ------------------------------------------------------------------ *)

(** A nonempty string of letters, digits and underscores. *)
Definition wordToken (s : string) : bool :=
  negb (String.eqb s EmptyString)
  && forallb RegExp.isWord (list_ascii_of_string s).

(** Every stored handle is a word token: what [isValidHandle] lets
    through on creation. *)
Definition handlesValid (db : Db) : bool :=
  forallb (fun p => wordToken (handle p)) (personas db).

Fixpoint distinct (l : list nat) : bool :=
  match l with
  | [] => true
  | x :: rest => negb (existsb (Nat.eqb x) rest) && distinct rest
  end.

(** MongoDB keeps [_id] unique within a collection. *)
Definition personaIdsUnique (db : Db) : bool :=
  distinct (map persona_id (personas db)).

(** Dates, most recent first. *)
Fixpoint newestFirst (l : list Follow) : bool :=
  match l with
  | [] => true
  | f :: rest =>
      forallb (fun g => dateFollowed g <=? dateFollowed f) rest
      && newestFirst rest
  end.

(** [r] was answered with the status [code_]. *)
Definition answered (r : Result) (code_ : nat) : bool :=
  match statusOf r with
  | Some n => n =? code_
  | None => false
  end.

(** A body for the routes that read [personaId] only. *)
Definition personaIdBody (target : option ObjectId) : Body :=
  mkBody EmptyString EmptyString EmptyString target.

(** The request [POST /api/follows] with [{personaId: target}] sent at
    [time] from the session [s]. *)
Definition followRequest (s : Session) (target : ObjectId) (time : nat)
  : Request :=
  mkRequest s (personaIdBody (Some target)) None time.

(** The request [DELETE /api/follows?personaId=target] carrying
    [{personaId: inBody}] in its body. *)
Definition unfollowRequest (s : Session) (target : ObjectId)
  (inBody : option ObjectId) : Request :=
  mkRequest s (personaIdBody inBody) (Some target) 0.

(** The request [DELETE /api/persona?personaId=target]. *)
Definition deletePersonaRequest (s : Session) (target : ObjectId) : Request :=
  mkRequest s (personaIdBody None) (Some target) 0.

(** The same request with the identifier written as stored
    ([asStored]) or in another spelling that casts to the same ObjectId,
    upper-case digits for one. *)
Definition deletePersonaRequestWritten (s : Session) (target : ObjectId)
  (asStored : bool) : Request :=
  mkSpelledRequest s (personaIdBody None) (Some target) 0 asStored.

(** The request [POST /api/persona] with [{username, handle, name}]. *)
Definition createRequest (s : Session) (username_ handle_ name_ : string)
  : Request :=
  mkRequest s (mkBody username_ handle_ name_ None) None 0.

(** The request [POST /api/persona/session] with [{handle}]. *)
Definition signInRequest (s : Session) (handle_ : string) : Request :=
  mkRequest s (mkBody EmptyString handle_ EmptyString None) None 0.

(* ------------------------------------------------------------------ *)
(** * A small store to run the routes on                                *)
(* ------------------------------------------------------------------ *)

Module Sample.

Definition amy : User := mkUser 100 "amy".
Definition ben : User := mkUser 101 "ben".

Definition alice : Persona := mkPersona 1 "amy" "alice" "Alice A".
Definition bob : Persona := mkPersona 2 "ben" "bob" "Bob B".
Definition carol : Persona := mkPersona 3 "amy" "carol" "Carol C".

(** Three personas and no edge. *)
Definition db0 : Db := mkDb [amy; ben] [alice; bob; carol] [] 4.

(** amy logged in with no active persona, then active as alice and as
    carol; ben active as bob. *)
Definition amyOnly : Session := mkSession (Some 100) None None.
Definition asAlice : Session := mkSession (Some 100) (Some 1) None.
Definition asCarol : Session := mkSession (Some 100) (Some 3) None.
Definition asBob : Session := mkSession (Some 101) (Some 2) None.

(** alice follows bob at time 10, then carol at time 20. *)
Definition db1 : Db :=
  db_after (FollowRouter.follow (followRequest asAlice 2 10) db0).
Definition db2 : Db :=
  db_after (FollowRouter.follow (followRequest asAlice 3 20) db1).

End Sample.

(* ------------------------------------------------------------------ *)
(** * Freets                                                            *)
(* ------------------------------------------------------------------ *)

(** Modelled from the spec: the [Freet] document of [freet/model], absent
    from the sources at hand; a freet refers to a persona by identifier,
    and the fields are the ones [FreetCollection.addOne] writes. *)
Record Freet : Type := mkFreet {
  freet_id : ObjectId;        (* _id *)
  freet_personaId : ObjectId;
  dateCreated : nat;
  content : string;
  dateModified : nat
}.

(** The freet collection, in insertion order, and its next identifier. *)
Record FreetDb : Type := mkFreetDb {
  freets : list Freet;
  nextFreetId : ObjectId
}.

(** Sorting on a date, most recent first, as [sort({key: -1})] does. *)
Fixpoint insertDesc {A : Type} (key : A -> nat) (x : A) (l : list A)
  : list A :=
  match l with
  | [] => [x]
  | y :: rest =>
      if key y <? key x then x :: l else y :: insertDesc key x rest
  end.

Definition sortDesc {A : Type} (key : A -> nat) (l : list A) : list A :=
  fold_right (insertDesc key) [] l.

Fixpoint sortedDesc {A : Type} (key : A -> nat) (l : list A) : bool :=
  match l with
  | [] => true
  | x :: rest => forallb (fun y => key y <=? key x) rest && sortedDesc key rest
  end.

(** freet/collection.ts.  The schema of [FreetModel] is not among the
    sources: [valid] stands for its validators, and [save()] rejects the
    documents they refuse. *)
Module FreetCollection.

Section Schema.

Variable valid : Freet -> bool.

Definition addOne (personaId_ : ObjectId) (content_ : string) (date : nat)
  (fdb : FreetDb) : option (Freet * FreetDb) :=
  let freet := mkFreet (nextFreetId fdb) personaId_ date content_ date in
  if valid freet
  then Some (freet,
             mkFreetDb (freets fdb ++ [freet]) (S (nextFreetId fdb)))
  else None.

(** [updateOne]: [None] when no freet has the identifier
    ([freet.content] on [null]) or the changed document is refused. *)
Definition updateOne (freetId : ObjectId) (content_ : string) (date : nat)
  (fdb : FreetDb) : option (Freet * FreetDb) :=
  match find (fun f => freet_id f =? freetId) (freets fdb) with
  | None => None
  | Some freet =>
      let freet1 :=
        mkFreet (freet_id freet) (freet_personaId freet) (dateCreated freet)
                content_ date in
      if valid freet1
      then Some (freet1,
                 mkFreetDb
                   (replaceFirst (fun f => freet_id f =? freetId) freet1
                      (freets fdb))
                   (nextFreetId fdb))
      else None
  end.

End Schema.

Definition findOne (freetId : ObjectId) (fdb : FreetDb) : option Freet :=
  find (fun f => freet_id f =? freetId) (freets fdb).

Definition findAll (fdb : FreetDb) : list Freet :=
  sortDesc dateModified (freets fdb).

Definition findAllByPersonaId (personaId_ : ObjectId) (fdb : FreetDb)
  : list Freet :=
  filter (fun f => freet_personaId f =? personaId_) (freets fdb).

(** [None] outside the modelled patterns, [Some None] when no persona
    matches ([persona._id] on [null] throws). *)
Definition findAllByOwnerHandle (handle_ : string) (db : Db) (fdb : FreetDb)
  : option (option (list Freet)) :=
  match PersonaCollection.findOneByHandle handle_ db with
  | None => None
  | Some None => Some None
  | Some (Some persona) =>
      Some (Some (findAllByPersonaId (persona_id persona) fdb))
  end.

Definition deleteOne (freetId : ObjectId) (fdb : FreetDb) : bool * FreetDb :=
  (true,
   mkFreetDb (removeFirst (fun f => freet_id f =? freetId) (freets fdb))
             (nextFreetId fdb)).

Definition deleteMany (personaId_ : ObjectId) (fdb : FreetDb) : FreetDb :=
  mkFreetDb
    (filter (fun f => negb (freet_personaId f =? personaId_)) (freets fdb))
    (nextFreetId fdb).

End FreetCollection.

(* ------------------------------------------------------------------ *)
(** * Invariants of the stores and the shape of names                   *)
(* ------------------------------------------------------------------ *)

Fixpoint distinctBy {A : Type} (eqb : A -> A -> bool) (l : list A) : bool :=
  match l with
  | [] => true
  | x :: rest => negb (existsb (eqb x) rest) && distinctBy eqb rest
  end.

(** No two stored personas share a handle. *)
Definition handlesDistinct (db : Db) : bool :=
  distinctBy String.eqb (map handle (personas db)).

Definition edgeOf (f : Follow) : ObjectId * ObjectId :=
  (followerId f, followingId f).

Definition pairEqb (x y : ObjectId * ObjectId) : bool :=
  (fst x =? fst y) && (snd x =? snd y).

(** No two stored edges join the same ordered pair. *)
Definition edgesDistinct (db : Db) : bool :=
  distinctBy pairEqb (map edgeOf (follows db)).

Definition followIdsUnique (db : Db) : bool :=
  distinct (map follow_id (follows db)).

(** Every identifier in use is below the counter. *)
Definition idsFresh (db : Db) : bool :=
  forallb (fun p => persona_id p <? nextId db) (personas db)
  && forallb (fun f => follow_id f <? nextId db) (follows db).

(** Identifiers are unique and below the counter. *)
Definition idsOk (db : Db) : bool :=
  personaIdsUnique db && followIdsUnique db && idsFresh db.

Definition freetIdsOk (fdb : FreetDb) : bool :=
  distinct (map freet_id (freets fdb))
  && forallb (fun f => freet_id f <? nextFreetId fdb) (freets fdb).

(** Words joined by single spaces. *)
Fixpoint joinWords (ws : list (list ascii)) : list ascii :=
  match ws with
  | [] => []
  | w :: rest =>
      match rest with
      | [] => w
      | _ :: _ => w ++ " "%char :: joinWords rest
      end
  end.

(** A nonempty run of word characters. *)
Definition isWordRun (w : list ascii) : bool :=
  match w with
  | [] => false
  | _ :: _ => forallb RegExp.isWord w
  end.

Definition isBlank (s : string) : bool :=
  forallb RegExp.isSpace (list_ascii_of_string s).

(* ------------------------------------------------------------------ *)
(** * More requests and stores to run the routes on                     *)
(* ------------------------------------------------------------------ *)

Module Fixture.

(** The request [PUT /api/persona/:personaId] with
    [{username, handle, name}]. *)
Definition updateRequest (s : Session) (username_ handle_ name_ : string)
  : Request :=
  mkRequest s (mkBody username_ handle_ name_ None) None 0.

Definition hello : Freet := mkFreet 1 1 5 "hello" 5.
Definition again : Freet := mkFreet 2 3 6 "again" 9.
Definition world : Freet := mkFreet 3 1 7 "world" 7.

Definition fdb0 : FreetDb := mkFreetDb [hello; again; world] 4.

(** A schema that wants some content. *)
Definition someContent (f : Freet) : bool :=
  negb (String.eqb (content f) EmptyString).

End Fixture.

(* ------------------------------------------------------------------ *)
(** * Facts about regular expressions                                   *)
(* ------------------------------------------------------------------ *)

Module RegExpFacts.
Import RegExp.

Lemma lang_void_inv (w : list ascii) : ~ lang Void w.
Proof. intro H. inversion H. Qed.

Lemma lang_eps_inv (w : list ascii) : lang Eps w -> w = [].
Proof. intro H. now inversion H. Qed.

Lemma lang_class_inv (p : ascii -> bool) (w : list ascii) :
  lang (Class p) w -> exists c, w = [c] /\ p c = true.
Proof. intro H. inversion H; subst. eauto. Qed.

Lemma lang_seq_inv (a b : regex) (w : list ascii) :
  lang (Seq a b) w -> exists s u, w = s ++ u /\ lang a s /\ lang b u.
Proof. intro H. inversion H; subst. eauto. Qed.

Lemma lang_alt_inv (a b : regex) (w : list ascii) :
  lang (Alt a b) w -> lang a w \/ lang b w.
Proof. intro H. inversion H; subst; auto. Qed.

Lemma lang_seq_cons (a b : regex) (c : ascii) (s u : list ascii) :
  lang a (c :: s) -> lang b u -> lang (Seq a b) (c :: s ++ u).
Proof.
  intros Ha Hb. change (c :: s ++ u) with ((c :: s) ++ u). now constructor.
Qed.

Lemma nullable_lang (r : regex) : nullable r = true <-> lang r [].
Proof.
  induction r as [| | p | a IHa b IHb | a IHa b IHb | a IHa]; simpl.
  - split; [discriminate | intro H; now apply lang_void_inv in H].
  - split; [constructor | reflexivity].
  - split; [discriminate |].
    intro H. apply lang_class_inv in H as (c & Hc & _). discriminate.
  - rewrite andb_true_iff, IHa, IHb. split.
    + intros [Ha Hb]. change (@nil ascii) with (@nil ascii ++ []).
      now constructor.
    + intro H. apply lang_seq_inv in H as (s & u & Heq & Ha & Hb).
      symmetry in Heq. apply app_eq_nil in Heq as [-> ->]. now split.
  - rewrite orb_true_iff, IHa, IHb. split.
    + intros [H | H]; [now apply lang_alt_l | now apply lang_alt_r].
    + apply lang_alt_inv.
  - split; [constructor | reflexivity].
Qed.

Lemma lang_star_cons (a : regex) (c : ascii) (w : list ascii) :
  lang (Star a) w ->
  forall t, w = c :: t ->
  (forall s', lang a (c :: s') -> lang (deriv c a) s') ->
  lang (Seq (deriv c a) (Star a)) t.
Proof.
  intro H. remember (Star a) as r eqn:Hr. revert Hr.
  induction H as [| | | | | a0 | a0 s1 u H1 _ H2 IH2]; intros Hr t Hw Hd;
    try discriminate.
  injection Hr as ->.
  destruct s1 as [| c1 s1'].
  - simpl in Hw. now apply IH2.
  - simpl in Hw. injection Hw as -> <-.
    constructor; [now apply Hd | assumption].
Qed.

Lemma deriv_lang (r : regex) (c : ascii) :
  forall s, lang (deriv c r) s <-> lang r (c :: s).
Proof.
  induction r as [| | p | a IHa b IHb | a IHa b IHb | a IHa]; intro s; simpl.
  - split; intro H; now apply lang_void_inv in H.
  - split; intro H; [now apply lang_void_inv in H |].
    apply lang_eps_inv in H. discriminate.
  - destruct (p c) eqn:Hp; split; intro H.
    + apply lang_eps_inv in H as ->. now constructor.
    + apply lang_class_inv in H as (c' & Heq & _).
      injection Heq as _ ->. constructor.
    + now apply lang_void_inv in H.
    + apply lang_class_inv in H as (c' & Heq & Hc').
      injection Heq as <- _. congruence.
  - destruct (nullable a) eqn:Hn.
    + split; intro H.
      * apply lang_alt_inv in H as [H | H].
        -- apply lang_seq_inv in H as (s1 & u & -> & H1 & H2).
           apply lang_seq_cons; [now apply IHa | assumption].
        -- change (c :: s) with ([] ++ c :: s).
           constructor; [now apply nullable_lang | now apply IHb].
      * apply lang_seq_inv in H as (s1 & u & Heq & H1 & H2).
        destruct s1 as [| c1 s1'].
        -- simpl in Heq. subst u. apply lang_alt_r. now apply IHb.
        -- simpl in Heq. injection Heq as <- ->.
           apply lang_alt_l. constructor; [now apply IHa | assumption].
    + split; intro H.
      * apply lang_seq_inv in H as (s1 & u & -> & H1 & H2).
        apply lang_seq_cons; [now apply IHa | assumption].
      * apply lang_seq_inv in H as (s1 & u & Heq & H1 & H2).
        destruct s1 as [| c1 s1'].
        -- apply nullable_lang in H1. congruence.
        -- simpl in Heq. injection Heq as <- ->.
           constructor; [now apply IHa | assumption].
  - split; intro H; apply lang_alt_inv in H as [H | H].
    + apply lang_alt_l. now apply IHa.
    + apply lang_alt_r. now apply IHb.
    + apply lang_alt_l. now apply IHa.
    + apply lang_alt_r. now apply IHb.
  - split; intro H.
    + apply lang_seq_inv in H as (s1 & u & -> & H1 & H2).
      change (c :: s1 ++ u) with ((c :: s1) ++ u).
      constructor; [now apply IHa | assumption].
    + apply (lang_star_cons a c (c :: s) H s eq_refl).
      intros s' Hs'. now apply IHa.
Qed.

Lemma matches_lang (s : list ascii) :
  forall r, matches r s = true <-> lang r s.
Proof.
  induction s as [| c s IH]; intro r; simpl.
  - apply nullable_lang.
  - rewrite IH. apply deriv_lang.
Qed.

Lemma lang_star_class (p : ascii -> bool) (s : list ascii) :
  lang (Star (Class p)) s <-> forallb p s = true.
Proof.
  split.
  - intro H. remember (Star (Class p)) as r eqn:Hr. revert Hr.
    induction H as [| | | | | a | a s1 u H1 _ H2 IH2]; intro Hr;
      try discriminate.
    + reflexivity.
    + injection Hr as ->.
      apply lang_class_inv in H1 as (c & -> & Hc).
      simpl. now rewrite Hc, IH2.
  - induction s as [| c s IH]; simpl; intro H.
    + constructor.
    + apply andb_true_iff in H as [Hc Hs].
      change (c :: s) with ([c] ++ s).
      constructor; [now constructor | now apply IH].
Qed.

Lemma lang_plus_class (p : ascii -> bool) (s : list ascii) :
  lang (Plus (Class p)) s <-> s <> [] /\ forallb p s = true.
Proof.
  unfold Plus. split.
  - intro H. apply lang_seq_inv in H as (s1 & u & -> & H1 & H2).
    apply lang_class_inv in H1 as (c & -> & Hc).
    apply lang_star_class in H2. simpl. rewrite Hc, H2.
    split; [discriminate | reflexivity].
  - intros [Hne H]. destruct s as [| c s]; [contradiction |].
    simpl in H. apply andb_true_iff in H as [Hc Hs].
    change (c :: s) with ([c] ++ s).
    constructor; [now constructor | now apply lang_star_class].
Qed.

Lemma lang_literal (l : list ascii) :
  forall s, lang (literal false l) s <-> s = l.
Proof.
  induction l as [| c l IH]; intro s; simpl.
  - split; [apply lang_eps_inv | intros ->; constructor].
  - split.
    + intro H. apply lang_seq_inv in H as (s1 & u & -> & H1 & H2).
      apply lang_class_inv in H1 as (c' & -> & Hc').
      apply Ascii.eqb_eq in Hc' as ->. apply IH in H2 as ->. reflexivity.
    + intros ->. change (c :: l) with ([c] ++ l).
      constructor; [| now apply IH].
      constructor. apply Ascii.eqb_refl.
Qed.

Lemma lang_anchored (r : regex) (w : list ascii) :
  lang (Seq Eps (Seq r Eps)) w <-> lang r w.
Proof.
  split.
  - intro H. apply lang_seq_inv in H as (s1 & u & -> & H1 & H2).
    apply lang_eps_inv in H1 as ->.
    apply lang_seq_inv in H2 as (s2 & u2 & -> & H2 & H3).
    apply lang_eps_inv in H3 as ->. simpl. now rewrite app_nil_r.
  - intro H. change w with ([] ++ w). constructor; [constructor |].
    rewrite <- (app_nil_r w). constructor; [assumption | constructor].
Qed.

Lemma test_anchored (r : regex) (s : string) :
  test (mk true r true) s = true <-> lang r (list_ascii_of_string s).
Proof.
  unfold test. simpl. rewrite matches_lang. apply lang_anchored.
Qed.

End RegExpFacts.

(* ------------------------------------------------------------------ *)
(** * Handles, trimming and the patterns built from word tokens        *)
(* ------------------------------------------------------------------ *)

Module HandleFacts.
Import RegExp RegExpFacts.

Lemma list_ascii_of_append (s u : string) :
  list_ascii_of_string (s ++ u)
  = list_ascii_of_string s ++ list_ascii_of_string u.
Proof.
  induction s as [| c s IH]; simpl; [reflexivity | now rewrite IH].
Qed.

Lemma list_ascii_inj (s u : string) :
  list_ascii_of_string s = list_ascii_of_string u -> s = u.
Proof.
  intro H. rewrite <- (string_of_list_ascii_of_string s),
    <- (string_of_list_ascii_of_string u). now rewrite H.
Qed.

Lemma find_pred_ext {A : Type} (f g : A -> bool) (l : list A) :
  (forall x, f x = g x) -> find f l = find g l.
Proof.
  intro H. induction l as [| x l IH]; simpl; [reflexivity |].
  now rewrite H, IH.
Qed.

(** [/^\w+$/i] accepts exactly the word tokens. *)
Lemma test_handleRegex (s : string) :
  test PersonaValidator.handleRegex s = wordToken s.
Proof.
  apply eq_iff_eq_true. unfold PersonaValidator.handleRegex, wordToken.
  rewrite test_anchored, lang_plus_class, andb_true_iff, negb_true_iff.
  destruct s; simpl; split; intros [H1 H2]; split;
    try assumption; try reflexivity; try discriminate.
  now contradiction H1.
Qed.

(** A word character is no space and has no meaning in a pattern. *)
Lemma word_char_plain (c : ascii) :
  isWord c = true ->
  isSpace c = false
  /\ Ascii.eqb c "\" = false
  /\ isBracket c = false
  /\ Ascii.eqb c "." = false
  /\ Ascii.eqb c "^" = false
  /\ Ascii.eqb c "$" = false
  /\ existsb (Ascii.eqb c) ["*"; "+"; "?"]%char = false.
Proof.
  destruct c as [[] [] [] [] [] [] [] []]; vm_compute; intro H;
    try discriminate H; repeat split.
Qed.

Lemma tokens_word (l rest : list ascii) :
  forallb isWord l = true ->
  tokens (l ++ rest)
  = match tokens rest with
    | Some ts => Some (map (fun c => TAtom (Lit false c)) l ++ ts)
    | None => None
    end.
Proof.
  induction l as [| c l IH]; intro H.
  - simpl. now destruct (tokens rest).
  - simpl in H. apply andb_true_iff in H as [Hc Hl].
    destruct (word_char_plain c Hc) as (_ & H1 & H2 & H3 & H4 & H5 & H6).
    change ((c :: l) ++ rest) with (c :: (l ++ rest)).
    cbn [tokens]. rewrite H1, (IH Hl).
    destruct (tokens rest) as [ts |]; [| reflexivity].
    now rewrite H2, H3, H4, H5, H6.
Qed.

Lemma build_word (l : list ascii) :
  build (map (fun c => TAtom (Lit false c)) l ++ [TDollar])
  = Some (literal false l, true).
Proof.
  induction l as [| c l IH]; [reflexivity |].
  destruct l as [| c' l'].
  - reflexivity.
  - change (build (TAtom (Lit false c)
                     :: TAtom (Lit false c')
                     :: map (fun c => TAtom (Lit false c)) l' ++ [TDollar])
            = Some (literal false (c :: c' :: l'), true)).
    cbn [build]. cbn [build map app] in IH. rewrite IH. reflexivity.
Qed.

Lemma dropSpaces_word (l : list ascii) :
  forallb isWord l = true -> dropSpaces l = l.
Proof.
  destruct l as [| c l]; [reflexivity |]. simpl. intro H.
  apply andb_true_iff in H as [Hc _].
  destruct (word_char_plain c Hc) as (-> & _). reflexivity.
Qed.

Lemma forallb_rev {A : Type} (f : A -> bool) (l : list A) :
  forallb f l = true -> forallb f (rev l) = true.
Proof.
  rewrite !forallb_forall. intros H x Hx. apply H. now apply in_rev.
Qed.

Lemma wordToken_chars (h : string) :
  wordToken h = true -> forallb isWord (list_ascii_of_string h) = true.
Proof. unfold wordToken. intro H. now apply andb_true_iff in H. Qed.

(** [trim] leaves a word token alone. *)
Lemma trim_word (h : string) : wordToken h = true -> trim h = h.
Proof.
  intro H. apply wordToken_chars in H. unfold trim.
  rewrite (dropSpaces_word _ H).
  rewrite (dropSpaces_word _ (forallb_rev _ _ H)).
  rewrite rev_involutive. apply string_of_list_ascii_of_string.
Qed.

(** The pattern built from a word token is that token, spelled out
    between the two anchors. *)
Lemma anchored_word (h : string) :
  wordToken h = true ->
  anchored h = Some (mk true (literal false (list_ascii_of_string h)) true).
Proof.
  intro H. unfold anchored, compile. rewrite (trim_word h H).
  apply wordToken_chars in H.
  change (list_ascii_of_string ("^" ++ h ++ "$"))
    with ("^"%char :: list_ascii_of_string (h ++ "$")).
  rewrite list_ascii_of_append.
  change (list_ascii_of_string "$") with ["$"%char].
  cbn [tokens]. change (Ascii.eqb "^" "\") with false. cbv iota.
  rewrite (tokens_word _ _ H).
  change (tokens ["$"%char]) with (Some [TDollar]). cbv iota.
  change (isBracket "^") with false. cbv iota.
  change (Ascii.eqb "^" ".") with false. cbv iota.
  change (Ascii.eqb "^" "^") with true. cbv iota.
  now rewrite build_word.
Qed.

Lemma test_literal (h s : string) :
  test (mk true (literal false (list_ascii_of_string h)) true) s
  = String.eqb s h.
Proof.
  apply eq_iff_eq_true. rewrite test_anchored, lang_literal, String.eqb_eq.
  split; [apply list_ascii_inj | now intros ->].
Qed.

Lemma findOneByHandle_word (h : string) (db : Db) :
  wordToken h = true ->
  PersonaCollection.findOneByHandle h db
  = Some (find (fun p => String.eqb (handle p) h) (personas db)).
Proof.
  intro H. unfold PersonaCollection.findOneByHandle.
  rewrite (anchored_word h H). f_equal.
  apply find_pred_ext. intro p. apply test_literal.
Qed.

Lemma findOneByUserAndHandle_word (u h : string) (db : Db) :
  wordToken u = true -> wordToken h = true ->
  PersonaCollection.findOneByUserAndHandle u h db
  = Some (find (fun p => String.eqb (user p) u && String.eqb (handle p) h)
               (personas db)).
Proof.
  intros Hu Hh. unfold PersonaCollection.findOneByUserAndHandle.
  rewrite (anchored_word u Hu), (anchored_word h Hh). f_equal.
  apply find_pred_ext. intro p. now rewrite !test_literal.
Qed.

End HandleFacts.

(* ------------------------------------------------------------------ *)
(** * Chains and validators                                             *)
(* ------------------------------------------------------------------ *)

Module ChainFacts.
Import HandleFacts.

Lemma route_next (m : Middleware) (rest : list Middleware) (h : Handler)
  (req : Request) (db : Db) :
  m req db = Next -> route (m :: rest) h req db = route rest h req db.
Proof. intro H. simpl. now rewrite H. Qed.

Lemma route_stop (m : Middleware) (rest : list Middleware) (h : Handler)
  (req : Request) (db : Db) (o : Outcome) :
  m req db = Stop o ->
  route (m :: rest) h req db = mkResult o db (session req).
Proof. intro H. simpl. now rewrite H. Qed.

Lemma isUserLoggedIn_next (req : Request) (db : Db) :
  userId (session req) <> None -> UserValidator.isUserLoggedIn req db = Next.
Proof.
  unfold UserValidator.isUserLoggedIn.
  destruct (userId (session req)); [reflexivity | intro H; now contradiction H].
Qed.

Lemma isPersonaSignedIn_next (req : Request) (db : Db) (a : ObjectId) :
  personaId (session req) = Some a ->
  PersonaValidator.isPersonaSignedIn req db = Next.
Proof. unfold PersonaValidator.isPersonaSignedIn. now intros ->. Qed.

Lemma isValidName_next (req : Request) (db : Db) :
  RegExp.test PersonaValidator.nameRegex (body_name (body req)) = true ->
  PersonaValidator.isValidName req db = Next.
Proof. unfold PersonaValidator.isValidName, PersonaValidator.nameCheck,
    PersonaValidator.tested. now intros ->. Qed.

Lemma isValidHandle_eq (req : Request) (db : Db) :
  PersonaValidator.isValidHandle req db
  = if wordToken (body_handle (body req)) then Next
    else Stop (reply 400 ErrorPayload).
Proof.
  unfold PersonaValidator.isValidHandle, PersonaValidator.handleCheck,
    PersonaValidator.tested. rewrite test_handleRegex.
  now destruct (wordToken (body_handle (body req))).
Qed.

Lemma isHandleNotAlreadyInUse_eq (req : Request) (db : Db) :
  wordToken (body_handle (body req)) = true ->
  PersonaValidator.isHandleNotAlreadyInUse req db
  = match find (fun p => String.eqb (handle p) (body_handle (body req)))
                (personas db) with
    | Some _ => Stop (reply 409 ErrorPayload)
    | None => Next
    end.
Proof.
  intro H. unfold PersonaValidator.isHandleNotAlreadyInUse.
  now rewrite (findOneByHandle_word _ _ H).
Qed.

(** Looking a handle up by equality. *)
Lemma find_handle_some (h : string) (ps : list Persona) (p : Persona) :
  find (fun p => String.eqb (handle p) h) ps = Some p ->
  In p ps /\ handle p = h.
Proof.
  intro H. apply find_some in H as [Hin Heq].
  apply String.eqb_eq in Heq. now split.
Qed.

Lemma find_handle_none (h : string) (ps : list Persona) :
  find (fun p => String.eqb (handle p) h) ps = None ->
  forall p, In p ps -> handle p <> h.
Proof.
  intros H p Hin Heq. apply (find_none _ _ H) in Hin.
  apply String.eqb_neq in Hin. contradiction.
Qed.

Lemma handlesValid_in (db : Db) (p : Persona) :
  handlesValid db = true -> In p (personas db) -> wordToken (handle p) = true.
Proof.
  unfold handlesValid. rewrite forallb_forall. intros H Hin. now apply H.
Qed.

End ChainFacts.

(* ------------------------------------------------------------------ *)
(** * Persona registry                                                  *)
(* ------------------------------------------------------------------ *)

Import HandleFacts ChainFacts.

(** C2.  A creation request of a logged-in user with a well-formed name,
    against a store whose handles all passed validation, is answered 409
    (Conflict) exactly when some stored persona has the very same handle,
    compared character by character; when the handle is a word token no
    stored persona carries and the owner name is nonempty it is answered
    201 and the persona is appended.  So [Alice] next to [alice] is no
    conflict, and the same handle a second time is one. *)
Theorem create_conflict_iff_handle_taken (req : Request) (db : Db) :
  userId (session req) <> None ->
  RegExp.test PersonaValidator.nameRegex (body_name (body req)) = true ->
  handlesValid db = true ->
  let h := body_handle (body req) in
  let r := PersonaRouter.create req db in
  (statusOf r = Some 409 <-> exists p, In p (personas db) /\ handle p = h)
  /\ (wordToken h = true ->
      (forall p, In p (personas db) -> handle p <> h) ->
      body_username (body req) <> EmptyString ->
      statusOf r = Some 201
      /\ personas (db_after r)
         = personas db
           ++ [mkPersona (nextId db) (body_username (body req)) h
                 (body_name (body req))]
      /\ handlesValid (db_after r) = true).
Proof.
  intros Hlog Hname Hvalid h r. subst r. unfold PersonaRouter.create.
  rewrite (route_next _ _ _ _ _ (isUserLoggedIn_next req db Hlog)).
  rewrite (route_next _ _ _ _ _ (isValidName_next req db Hname)).
  destruct (wordToken h) eqn:Hh.
  - rewrite (route_next PersonaValidator.isValidHandle)
      by (rewrite isValidHandle_eq; fold h; now rewrite Hh).
    destruct (find (fun p => String.eqb (handle p) h) (personas db))
      as [p |] eqn:Hfind.
    + rewrite (route_stop PersonaValidator.isHandleNotAlreadyInUse)
        with (o := reply 409 ErrorPayload)
        by (rewrite isHandleNotAlreadyInUse_eq by exact Hh;
            fold h; now rewrite Hfind).
      apply find_handle_some in Hfind as [Hin Heq]. split.
      * split; [intros _; now exists p | reflexivity].
      * intros _ Hfree. now contradiction (Hfree p Hin).
    + rewrite (route_next PersonaValidator.isHandleNotAlreadyInUse)
        by (rewrite isHandleNotAlreadyInUse_eq by exact Hh;
            fold h; now rewrite Hfind).
      pose proof (find_handle_none _ _ Hfind) as Hnone.
      cbn [route]. unfold PersonaRouter.createHandler,
        PersonaCollection.addOne. fold h.
      assert (Hhne : String.eqb h EmptyString = false).
      { unfold wordToken in Hh. apply andb_true_iff in Hh as [Hh _].
        now apply negb_true_iff in Hh. }
      rewrite Hhne.
      assert (Hnne :
        String.eqb (body_name (body req)) EmptyString = false).
      { destruct (body_name (body req)); [discriminate Hname | reflexivity]. }
      rewrite Hnne. split.
      * split.
        -- destruct (String.eqb (body_username (body req)) EmptyString);
             cbn; discriminate.
        -- intros (p & Hin & Heq). now contradiction (Hnone p Hin).
      * intros _ _ Huser. apply String.eqb_neq in Huser. rewrite Huser.
        cbn. split; [reflexivity | split; [reflexivity |]].
        unfold handlesValid in *. cbn. rewrite forallb_app, Hvalid.
        cbn. now rewrite Hh.
  - rewrite (route_stop PersonaValidator.isValidHandle)
      with (o := reply 400 ErrorPayload)
      by (rewrite isValidHandle_eq; fold h; now rewrite Hh).
    split; [| discriminate]. split; [discriminate |].
    intros (p & Hin & Heq).
    pose proof (handlesValid_in db p Hvalid Hin) as Hp.
    rewrite Heq in Hp. congruence.
Qed.

Lemma create_conflict_iff_handle_taken_witness :
  let req := createRequest Sample.amyOnly "amy" "Alice" "Alice Two" in
  userId (session req) <> None
  /\ RegExp.test PersonaValidator.nameRegex (body_name (body req)) = true
  /\ handlesValid Sample.db0 = true
  /\ (let h := body_handle (body req) in
      let r := PersonaRouter.create req Sample.db0 in
      (statusOf r = Some 409
       <-> exists p, In p (personas Sample.db0) /\ handle p = h)
      /\ (wordToken h = true ->
          (forall p, In p (personas Sample.db0) -> handle p <> h) ->
          body_username (body req) <> EmptyString ->
          statusOf r = Some 201
          /\ personas (db_after r)
             = personas Sample.db0
               ++ [mkPersona (nextId Sample.db0) (body_username (body req)) h
                     (body_name (body req))]
          /\ handlesValid (db_after r) = true)).
Proof.
  intro req.
  split; [discriminate |]. split; [reflexivity |]. split; [reflexivity |].
  apply (create_conflict_iff_handle_taken req Sample.db0);
    [discriminate | reflexivity | reflexivity].
Defined.

(** The scenario of the registry: with [alice] stored, [Alice] is
    created (201), and then neither [Alice] nor [alice] can be created
    again (409). *)
Example create_handles_differing_in_case :
  let r1 := PersonaRouter.create
              (createRequest Sample.amyOnly "amy" "Alice" "Alice Two")
              Sample.db0 in
  let r2 := PersonaRouter.create
              (createRequest Sample.amyOnly "amy" "alice" "Alice Three")
              (db_after r1) in
  let r3 := PersonaRouter.create
              (createRequest Sample.amyOnly "ben" "Alice" "Alice Four")
              (db_after r1) in
  statusOf r1 = Some 201 /\ statusOf r2 = Some 409 /\ statusOf r3 = Some 409.
Proof. vm_compute. repeat split. Qed.

(** The creation route never leaves the modelled fragment: the handle
    reaches the lookup only after the format check. *)
Lemma create_in_model (req : Request) (db : Db) :
  outcome (PersonaRouter.create req db) <> OutOfModel.
Proof.
  unfold PersonaRouter.create, route.
  destruct (UserValidator.isUserLoggedIn req db) as [| o] eqn:E1.
  - destruct (PersonaValidator.isValidName req db) as [| o] eqn:E2.
    + rewrite isValidHandle_eq.
      destruct (wordToken (body_handle (body req))) eqn:Hh; [| discriminate].
      rewrite (isHandleNotAlreadyInUse_eq req db Hh).
      destruct (find _ (personas db)); [discriminate |].
      unfold PersonaRouter.createHandler.
      now destruct (PersonaCollection.addOne _ _ _ db) as [[p db1] |].
    + unfold PersonaValidator.isValidName, PersonaValidator.nameCheck,
        PersonaValidator.tested in E2.
      destruct (negb _) in E2; [| discriminate].
      injection E2 as <-. discriminate.
  - unfold UserValidator.isUserLoggedIn in E1.
    destruct (userId (session req)); [discriminate |].
    injection E1 as <-. discriminate.
Qed.

(** C10.  Whatever the request and the store, creating a persona leaves
    [session.personaId] as it was: the handler stores the identifier of
    the new persona in the field [personId], and only when the request
    is answered 201; any other outcome leaves the whole session alone. *)
Theorem create_leaves_active_persona (req : Request) (db : Db) :
  let r := PersonaRouter.create req db in
  personaId (session_after r) = personaId (session req)
  /\ session_after r
     = (if answered r 201 then setPersonId (session req) (nextId db)
        else session req)
  /\ (if answered r 201
      then exists p, outcome r = reply 201 (PersonaPayload p)
                     /\ persona_id p = nextId db
                     /\ personas (db_after r) = personas db ++ [p]
      else db_after r = db).
Proof.
  unfold PersonaRouter.create, route.
  unfold UserValidator.isUserLoggedIn.
  destruct (userId (session req)); [| cbn; auto].
  unfold PersonaValidator.isValidName, PersonaValidator.nameCheck,
    PersonaValidator.tested.
  destruct (RegExp.test PersonaValidator.nameRegex (body_name (body req)));
    [| cbn; auto].
  unfold PersonaValidator.isValidHandle, PersonaValidator.handleCheck,
    PersonaValidator.tested.
  destruct (RegExp.test PersonaValidator.handleRegex (body_handle (body req)));
    [| cbn; auto].
  unfold PersonaValidator.isHandleNotAlreadyInUse.
  destruct (PersonaCollection.findOneByHandle (body_handle (body req)) db)
    as [[p |] |]; cbn [negb]; cbv iota; [cbn; auto | | cbn; auto].
  unfold PersonaRouter.createHandler, PersonaCollection.addOne.
  destruct (String.eqb (body_username (body req)) EmptyString
            || String.eqb (body_handle (body req)) EmptyString
            || String.eqb (body_name (body req)) EmptyString); [cbn; auto |].
  cbn. split; [reflexivity | split; [reflexivity |]].
  eexists. split; [reflexivity | split; reflexivity].
Qed.

(* ------------------------------------------------------------------ *)
(** * Deleting a persona                                                *)
(* ------------------------------------------------------------------ *)

Module DeleteFacts.

Lemma existsb_id_false (x : ObjectId) (ps : list Persona) :
  existsb (Nat.eqb x) (map persona_id ps) = false ->
  find (fun p => persona_id p =? x) ps = None.
Proof.
  induction ps as [| y ps IH]; simpl; [reflexivity |].
  intro H. apply orb_false_iff in H as [Hy Hps].
  rewrite Nat.eqb_sym, Hy. now apply IH.
Qed.

Lemma find_removeFirst_same (x : ObjectId) (ps : list Persona) :
  distinct (map persona_id ps) = true ->
  find (fun p => persona_id p =? x)
       (removeFirst (fun p => persona_id p =? x) ps) = None.
Proof.
  induction ps as [| y ps IH]; simpl; [reflexivity |].
  intro H. apply andb_true_iff in H as [Hy Hps].
  apply negb_true_iff in Hy.
  destruct (persona_id y =? x) eqn:Hyx.
  - apply Nat.eqb_eq in Hyx. subst x. now apply existsb_id_false.
  - simpl. rewrite Hyx. now apply IH.
Qed.

Lemma find_removeFirst_other (x z : ObjectId) (ps : list Persona) :
  z <> x ->
  find (fun p => persona_id p =? z)
       (removeFirst (fun p => persona_id p =? x) ps)
  = find (fun p => persona_id p =? z) ps.
Proof.
  intro Hzx. induction ps as [| y ps IH]; simpl; [reflexivity |].
  destruct (persona_id y =? x) eqn:Hyx.
  - apply Nat.eqb_eq in Hyx.
    destruct (persona_id y =? z) eqn:Hyz; [| reflexivity].
    apply Nat.eqb_eq in Hyz. congruence.
  - simpl. now rewrite IH.
Qed.

Lemma isPersonaQueryExists_next (req : Request) (db : Db) (x : ObjectId) :
  query_personaId req = Some x ->
  PersonaCollection.findOneByPersonaId x db <> None ->
  PersonaValidator.isPersonaQueryExists req db = Next.
Proof.
  unfold PersonaValidator.isPersonaQueryExists. intros -> H.
  destruct (PersonaCollection.findOneByPersonaId x db);
    [reflexivity | now contradiction H].
Qed.

(** Asking for the deletion of the active persona, the identifier
    written as the session holds it, changes nothing, whatever the
    answer is. *)
Lemma delete_active_no_mutation (req : Request) (db : Db) (a : ObjectId) :
  personaId (session req) = Some a ->
  query_personaId req = Some a ->
  query_asStored req = true ->
  db_after (PersonaRouter.delete req db) = db
  /\ session_after (PersonaRouter.delete req db) = session req.
Proof.
  intros Ha Hq Hw. unfold PersonaRouter.delete, route.
  destruct (UserValidator.isUserLoggedIn req db); [| now split].
  destruct (PersonaValidator.isPersonaQueryExists req db); [| now split].
  unfold PersonaRouter.deleteHandler. rewrite Hq, Ha, Hw, Nat.eqb_refl.
  now split.
Qed.

(** For a logged-in session whose active persona [a] is a stored
    persona, the request to delete [a], the identifier written as the
    session holds it, is answered 401 and changes nothing. *)
Lemma delete_active_as_stored_forbidden
  (req : Request) (db : Db) (a : ObjectId) :
  userId (session req) <> None ->
  personaId (session req) = Some a ->
  query_personaId req = Some a ->
  query_asStored req = true ->
  PersonaCollection.findOneByPersonaId a db <> None ->
  statusOf (PersonaRouter.delete req db) = Some 401
  /\ db_after (PersonaRouter.delete req db) = db
  /\ session_after (PersonaRouter.delete req db) = session req.
Proof.
  intros Hlog Ha Hq Hw Hex.
  destruct (delete_active_no_mutation req db a Ha Hq Hw) as [Hdb Hs].
  split; [| now split].
  unfold PersonaRouter.delete.
  rewrite (route_next _ _ _ _ _ (isUserLoggedIn_next req db Hlog)).
  rewrite (route_next _ _ _ _ _ (isPersonaQueryExists_next req db a Hq Hex)).
  cbn [route]. unfold PersonaRouter.deleteHandler.
  now rewrite Hq, Ha, Hw, Nat.eqb_refl.
Qed.

End DeleteFacts.

Import DeleteFacts.

(** C4.  Alice, persona 1, is the active persona of a logged-in session.
    The request to delete persona 1 with the identifier written as the
    session holds it is answered 401 and changes nothing.  The same
    request with the identifier written in another letter case, which
    casts to the same persona, passes the guard: it is answered 200,
    persona 1 is no longer found, and the session stays bound to it. *)
Theorem delete_active_persona_other_spelling :
  let asStored := deletePersonaRequestWritten Sample.asAlice 1 true in
  let otherwise := deletePersonaRequestWritten Sample.asAlice 1 false in
  personaId (session otherwise) = Some 1
  /\ query_personaId otherwise = Some 1
  /\ PersonaCollection.findOneByPersonaId 1 Sample.db2 = Some Sample.alice
  /\ statusOf (PersonaRouter.delete asStored Sample.db2) = Some 401
  /\ db_after (PersonaRouter.delete asStored Sample.db2) = Sample.db2
  /\ statusOf (PersonaRouter.delete otherwise Sample.db2) = Some 200
  /\ PersonaCollection.findOneByPersonaId 1
       (db_after (PersonaRouter.delete otherwise Sample.db2)) = None
  /\ personaId (session_after (PersonaRouter.delete otherwise Sample.db2))
     = Some 1.
Proof. vm_compute. repeat split. Qed.

(** C1, as it is worded, does not hold: deleting persona 1 while
    persona 3 is the active one is answered 200, and the edges 1 -> 2 and
    1 -> 3 are still found afterwards. *)
Lemma delete_persona_keeps_edges :
  ~ (forall (req : Request) (db : Db) (p q : ObjectId),
        userId (session req) <> None ->
        query_personaId req = Some p ->
        personaId (session req) <> Some p ->
        PersonaCollection.findOneByPersonaId p db <> None ->
        let db' := db_after (PersonaRouter.delete req db) in
        FollowCollection.findOneByPartyIds p q db' = None
        /\ FollowCollection.findOneByPartyIds q p db' = None
        /\ PersonaCollection.findOneByPersonaId p db' = None).
Proof.
  intro H.
  pose proof (H (deletePersonaRequest Sample.asCarol 1) Sample.db2 1 2
                ltac:(discriminate) ltac:(reflexivity)
                ltac:(discriminate) ltac:(discriminate)) as [Hedge _].
  discriminate Hedge.
Qed.

(** C1, amended.  For a logged-in session whose active persona is not
    [p], deleting the stored persona [p] is answered 200 and removes the
    record of [p] (identifiers being unique, no lookup finds [p] any
    more, and every other persona is found as before); the follow
    collection is left exactly as it was, so every edge of [p] is still
    there: looking an ordered pair up selects the edge it selected
    before, returned with its references to [p] resolved to [null] and
    its other references resolved as before. *)
Theorem delete_persona_removes_record_only
  (req : Request) (db : Db) (p : ObjectId) :
  userId (session req) <> None ->
  query_personaId req = Some p ->
  personaId (session req) <> Some p ->
  PersonaCollection.findOneByPersonaId p db <> None ->
  personaIdsUnique db = true ->
  let r := PersonaRouter.delete req db in
  statusOf r = Some 200
  /\ PersonaCollection.findOneByPersonaId p (db_after r) = None
  /\ (forall q, q <> p ->
        PersonaCollection.findOneByPersonaId q (db_after r)
        = PersonaCollection.findOneByPersonaId q db)
  /\ follows (db_after r) = follows db
  /\ (forall a b,
        (FollowCollection.findOneByPartyIds a b (db_after r) = None
         <-> FollowCollection.findOneByPartyIds a b db = None)
        /\ option_map (FollowCollection.populate (db_after r))
             (FollowCollection.findOneByPartyIds a b (db_after r))
           = option_map
               (fun f =>
                  mkPopulatedFollow (follow_id f)
                    (if followerId f =? p then None
                     else PersonaCollection.findOneByPersonaId
                            (followerId f) db)
                    (if followingId f =? p then None
                     else PersonaCollection.findOneByPersonaId
                            (followingId f) db)
                    (dateFollowed f))
               (FollowCollection.findOneByPartyIds a b db))
  /\ session_after r = session req.
Proof.
  intros Hlog Hq Hact Hex Huniq r. subst r.
  unfold PersonaRouter.delete.
  rewrite (route_next _ _ _ _ _ (isUserLoggedIn_next req db Hlog)).
  rewrite (route_next _ _ _ _ _ (isPersonaQueryExists_next req db p Hq Hex)).
  cbn [route]. unfold PersonaRouter.deleteHandler. rewrite Hq.
  assert (Hne : match personaId (session req) with
                | Some active => query_asStored req && (p =? active)
                | None => false
                end = false).
  { destruct (personaId (session req)) as [active |]; [| reflexivity].
    apply andb_false_iff. right.
    apply Nat.eqb_neq. intros ->. now contradiction Hact. }
  rewrite Hne. cbn [PersonaCollection.deleteOne].
  change (setPersonas db
            (removeFirst (fun q => persona_id q =? p) (personas db)))
    with (snd (PersonaCollection.deleteOne p db)).
  cbn [statusOf db_after session_after outcome reply].
  assert (Hgone : forall q,
             PersonaCollection.findOneByPersonaId q
               (snd (PersonaCollection.deleteOne p db))
             = if q =? p then None
               else PersonaCollection.findOneByPersonaId q db).
  { intros q. unfold PersonaCollection.findOneByPersonaId. cbn.
    destruct (q =? p) eqn:E.
    - apply Nat.eqb_eq in E. rewrite E. now apply find_removeFirst_same.
    - apply Nat.eqb_neq in E. now apply find_removeFirst_other. }
  split; [reflexivity |].
  split; [now rewrite Hgone, Nat.eqb_refl |].
  split.
  { intros q Hqp. rewrite Hgone.
    now destruct (Nat.eqb_spec q p) as [E | _]; [contradiction Hqp |]. }
  split; [reflexivity |]. split; [| reflexivity].
  intros a b.
  change (FollowCollection.findOneByPartyIds a b
            (snd (PersonaCollection.deleteOne p db)))
    with (FollowCollection.findOneByPartyIds a b db).
  split; [tauto |].
  destruct (FollowCollection.findOneByPartyIds a b db) as [f |];
    [| reflexivity].
  cbn [option_map]. unfold FollowCollection.populate.
  now rewrite !Hgone.
Qed.

Lemma delete_persona_removes_record_only_witness :
  let req := deletePersonaRequest Sample.asCarol 1 in
  userId (session req) <> None
  /\ query_personaId req = Some 1
  /\ personaId (session req) <> Some 1
  /\ PersonaCollection.findOneByPersonaId 1 Sample.db2 <> None
  /\ personaIdsUnique Sample.db2 = true
  /\ (let r := PersonaRouter.delete req Sample.db2 in
      statusOf r = Some 200
      /\ PersonaCollection.findOneByPersonaId 1 (db_after r) = None
      /\ (forall q, q <> 1 ->
            PersonaCollection.findOneByPersonaId q (db_after r)
            = PersonaCollection.findOneByPersonaId q Sample.db2)
      /\ follows (db_after r) = follows Sample.db2
      /\ (forall a b,
            (FollowCollection.findOneByPartyIds a b (db_after r) = None
             <-> FollowCollection.findOneByPartyIds a b Sample.db2 = None)
            /\ option_map (FollowCollection.populate (db_after r))
                 (FollowCollection.findOneByPartyIds a b (db_after r))
               = option_map
                   (fun f =>
                      mkPopulatedFollow (follow_id f)
                        (if followerId f =? 1 then None
                         else PersonaCollection.findOneByPersonaId
                                (followerId f) Sample.db2)
                        (if followingId f =? 1 then None
                         else PersonaCollection.findOneByPersonaId
                                (followingId f) Sample.db2)
                        (dateFollowed f))
                   (FollowCollection.findOneByPartyIds a b Sample.db2))
      /\ session_after r = session req).
Proof.
  intro req.
  split; [discriminate |]. split; [reflexivity |]. split; [discriminate |].
  split; [discriminate |]. split; [reflexivity |].
  apply (delete_persona_removes_record_only req Sample.db2 1);
    [discriminate | reflexivity | discriminate | discriminate | reflexivity].
Defined.

(* ------------------------------------------------------------------ *)
(** * The follow graph                                                  *)
(* ------------------------------------------------------------------ *)

Module FollowFacts.

Lemma find_snoc {A : Type} (f : A -> bool) (l : list A) (x : A) :
  find f (l ++ [x])
  = match find f l with
    | Some y => Some y
    | None => if f x then Some x else None
    end.
Proof.
  induction l as [| y l IH]; simpl; [reflexivity |].
  now destruct (f y).
Qed.

(** The answer of [POST /api/follows], check by check. *)
Lemma follow_status (req : Request) (db : Db) :
  statusOf (FollowRouter.follow req db)
  = match userId (session req) with
    | None => Some 403
    | Some _ =>
        match personaId (session req) with
        | None => Some 403
        | Some c =>
            match body_personaId (body req) with
            | None => Some 404
            | Some d =>
                match PersonaCollection.findOneByPersonaId d db with
                | None => Some 404
                | Some _ =>
                    match FollowCollection.findOneByPartyIds c d db with
                    | Some _ => Some 409
                    | None => Some 201
                    end
                end
            end
        end
    end.
Proof.
  unfold FollowRouter.follow, route, UserValidator.isUserLoggedIn,
    PersonaValidator.isPersonaSignedIn, PersonaValidator.isPersonaExists,
    FollowValidator.isFollowNotExistUnderSignedInPersona,
    FollowRouter.followHandler.
  destruct (userId (session req)); [| reflexivity].
  destruct (personaId (session req)) as [c |]; [| reflexivity].
  destruct (body_personaId (body req)) as [d |]; [| reflexivity].
  destruct (PersonaCollection.findOneByPersonaId d db); [| reflexivity].
  destruct (FollowCollection.findOneByPartyIds c d db); reflexivity.
Qed.

(** The store a request to follow leaves behind: one more edge when it
    is answered 201, the same store otherwise. *)
Lemma follow_db_after (req : Request) (db : Db) :
  db_after (FollowRouter.follow req db)
  = match answered (FollowRouter.follow req db) 201,
          personaId (session req), body_personaId (body req) with
    | true, Some a, Some b =>
        mkDb (users db) (personas db)
             (follows db ++ [mkFollow (nextId db) a b (now req)])
             (S (nextId db))
    | _, _, _ => db
    end.
Proof.
  unfold FollowRouter.follow, route, UserValidator.isUserLoggedIn,
    PersonaValidator.isPersonaSignedIn, PersonaValidator.isPersonaExists,
    FollowValidator.isFollowNotExistUnderSignedInPersona,
    FollowRouter.followHandler, answered, statusOf.
  destruct (userId (session req)); [| reflexivity].
  destruct (personaId (session req)) as [c |]; [| reflexivity].
  destruct (body_personaId (body req)) as [d |]; [| reflexivity].
  destruct (PersonaCollection.findOneByPersonaId d db); [| reflexivity].
  destruct (FollowCollection.findOneByPartyIds c d db); reflexivity.
Qed.

Lemma follow_201_inv (req : Request) (db : Db) (a b : ObjectId) :
  personaId (session req) = Some a ->
  body_personaId (body req) = Some b ->
  statusOf (FollowRouter.follow req db) = Some 201 ->
  userId (session req) <> None
  /\ PersonaCollection.findOneByPersonaId b db <> None
  /\ FollowCollection.findOneByPartyIds a b db = None
  /\ db_after (FollowRouter.follow req db)
     = mkDb (users db) (personas db)
            (follows db ++ [mkFollow (nextId db) a b (now req)])
            (S (nextId db)).
Proof.
  intros Ha Hb H. rewrite follow_db_after. unfold answered.
  rewrite H, Ha, Hb. cbn [Nat.eqb].
  rewrite follow_status, Ha, Hb in H.
  destruct (userId (session req)); [| discriminate].
  destruct (PersonaCollection.findOneByPersonaId b db); [| discriminate].
  destruct (FollowCollection.findOneByPartyIds a b db); [discriminate |].
  repeat split; discriminate.
Qed.

(** Looking an ordered pair up after an edge was appended. *)
Lemma findOneByPartyIds_snoc (c d : ObjectId) (db : Db) (f : Follow) :
  FollowCollection.findOneByPartyIds c d
    (mkDb (users db) (personas db) (follows db ++ [f]) (S (nextId db)))
  = match FollowCollection.findOneByPartyIds c d db with
    | Some g => Some g
    | None =>
        if (followerId f =? c) && (followingId f =? d) then Some f else None
    end.
Proof.
  exact (find_snoc
           (fun g => (followerId g =? c) && (followingId g =? d))
           (follows db) f).
Qed.

(** [FollowCollection.deleteMany], which no route calls, removes the
    edges a persona initiated and keeps those it received. *)
Lemma deleteMany_follower_side_only (p : ObjectId) (db : Db) :
  (forall q,
     FollowCollection.findOneByPartyIds p q (FollowCollection.deleteMany p db)
     = None)
  /\ (forall a b, a <> p ->
        FollowCollection.findOneByPartyIds a b
          (FollowCollection.deleteMany p db)
        = FollowCollection.findOneByPartyIds a b db).
Proof.
  unfold FollowCollection.findOneByPartyIds, FollowCollection.deleteMany.
  cbn. split.
  - intro q. induction (follows db) as [| f l IH]; [reflexivity |].
    cbn. destruct (followerId f =? p) eqn:E; cbn; [exact IH |].
    now rewrite E.
  - intros a b Hap. induction (follows db) as [| f l IH]; [reflexivity |].
    cbn. destruct (followerId f =? p) eqn:E; cbn.
    + apply Nat.eqb_eq in E.
      destruct (followerId f =? a) eqn:Ea; [| exact IH].
      apply Nat.eqb_eq in Ea. congruence.
    + now rewrite IH.
Qed.

End FollowFacts.

Import FollowFacts.

(** C3, as it is worded, does not hold: a persona may follow itself, and
    then the reverse orientation is the same ordered pair.  Persona 1
    follows persona 1 (201); following "back" is answered 409. *)
Lemma self_follow_reverse_is_duplicate :
  ~ (forall (s back : Session) (a b : ObjectId) (t t' : nat) (db : Db),
        userId s <> None -> personaId s = Some a ->
        userId back <> None -> personaId back = Some b ->
        PersonaCollection.findOneByPersonaId a db <> None ->
        FollowCollection.findOneByPartyIds b a db = None ->
        statusOf (FollowRouter.follow (followRequest s b t) db) = Some 201 ->
        let db1 := db_after (FollowRouter.follow (followRequest s b t) db) in
        statusOf (FollowRouter.follow (followRequest s b t') db1) = Some 409
        /\ statusOf (FollowRouter.follow (followRequest back a t') db1)
           = Some 201).
Proof.
  intro H.
  pose proof (H Sample.asAlice Sample.asAlice 1 1 10 20 Sample.db0
                ltac:(discriminate) ltac:(reflexivity)
                ltac:(discriminate) ltac:(reflexivity)
                ltac:(discriminate) ltac:(reflexivity)
                ltac:(reflexivity)) as [_ Hback].
  discriminate Hback.
Qed.

(** C3, amended.  Once a request of persona [a] to follow [b] has been
    answered 201, the edge is stored with the time of the request; any
    further request of [a] to follow [b] is answered 409 and changes
    nothing; and, for [a <> b], a logged-in request of [b] to follow [a]
    is answered 201 as long as [a] is a stored persona and [b] does not
    follow [a] yet.  More generally the new edge changes the answer to
    no request for another ordered pair. *)
Theorem follow_duplicate_keyed_on_ordered_pair
  (req : Request) (db : Db) (a b : ObjectId) :
  personaId (session req) = Some a ->
  body_personaId (body req) = Some b ->
  statusOf (FollowRouter.follow req db) = Some 201 ->
  let db1 := db_after (FollowRouter.follow req db) in
  FollowCollection.findOneByPartyIds a b db1
  = Some (mkFollow (nextId db) a b (now req))
  /\ (forall again,
        userId (session again) <> None ->
        personaId (session again) = Some a ->
        body_personaId (body again) = Some b ->
        statusOf (FollowRouter.follow again db1) = Some 409
        /\ db_after (FollowRouter.follow again db1) = db1)
  /\ (a <> b ->
      forall back,
        userId (session back) <> None ->
        personaId (session back) = Some b ->
        body_personaId (body back) = Some a ->
        PersonaCollection.findOneByPersonaId a db <> None ->
        FollowCollection.findOneByPartyIds b a db = None ->
        statusOf (FollowRouter.follow back db1) = Some 201)
  /\ (forall other c d,
        personaId (session other) = Some c ->
        body_personaId (body other) = Some d ->
        (c, d) <> (a, b) ->
        statusOf (FollowRouter.follow other db1)
        = statusOf (FollowRouter.follow other db)).
Proof.
  intros Ha Hb H201 db1.
  destruct (follow_201_inv req db a b Ha Hb H201) as (Hlog & Hex & Hfree & Hdb).
  subst db1. rewrite Hdb.
  assert (Hedge :
    FollowCollection.findOneByPartyIds a b
      (mkDb (users db) (personas db)
            (follows db ++ [mkFollow (nextId db) a b (now req)])
            (S (nextId db)))
    = Some (mkFollow (nextId db) a b (now req))).
  { rewrite findOneByPartyIds_snoc, Hfree. cbn. now rewrite !Nat.eqb_refl. }
  split; [exact Hedge |].
  split; [| split].
  - intros again Hl Hsa Hsb.
    assert (Hst : statusOf (FollowRouter.follow again
                    (mkDb (users db) (personas db)
                       (follows db ++ [mkFollow (nextId db) a b (now req)])
                       (S (nextId db)))) = Some 409).
    { rewrite follow_status, Hsa, Hsb, Hedge.
      destruct (userId (session again)); [| now contradiction Hl].
      unfold PersonaCollection.findOneByPersonaId in *. cbn.
      destruct (find (fun p => persona_id p =? b) (personas db));
        [reflexivity | now contradiction Hex]. }
    split; [exact Hst |].
    rewrite follow_db_after. unfold answered. now rewrite Hst.
  - intros Hab back Hl Hsb Hsa Hexa Hfreeba.
    rewrite follow_status, Hsb, Hsa, findOneByPartyIds_snoc, Hfreeba.
    destruct (userId (session back)); [| now contradiction Hl].
    unfold PersonaCollection.findOneByPersonaId in *. cbn.
    destruct (find (fun p => persona_id p =? a) (personas db));
      [| now contradiction Hexa].
    destruct (a =? b) eqn:E; [apply Nat.eqb_eq in E; contradiction |].
    reflexivity.
  - intros other c d Hc Hd Hne.
    rewrite !follow_status, Hc, Hd, findOneByPartyIds_snoc.
    destruct (userId (session other)); [| reflexivity].
    unfold PersonaCollection.findOneByPersonaId. cbn.
    destruct (find (fun p => persona_id p =? d) (personas db));
      [| reflexivity].
    destruct (FollowCollection.findOneByPartyIds c d db); [reflexivity |].
    destruct (a =? c) eqn:Eac; [| reflexivity].
    destruct (b =? d) eqn:Ebd; [| reflexivity].
    apply Nat.eqb_eq in Eac, Ebd. subst. now contradiction Hne.
Qed.

Lemma follow_duplicate_keyed_on_ordered_pair_witness :
  let req := followRequest Sample.asAlice 2 10 in
  personaId (session req) = Some 1
  /\ body_personaId (body req) = Some 2
  /\ statusOf (FollowRouter.follow req Sample.db0) = Some 201
  /\ (let db1 := db_after (FollowRouter.follow req Sample.db0) in
      FollowCollection.findOneByPartyIds 1 2 db1
      = Some (mkFollow (nextId Sample.db0) 1 2 (now req))
      /\ (forall again,
            userId (session again) <> None ->
            personaId (session again) = Some 1 ->
            body_personaId (body again) = Some 2 ->
            statusOf (FollowRouter.follow again db1) = Some 409
            /\ db_after (FollowRouter.follow again db1) = db1)
      /\ (1 <> 2 ->
          forall back,
            userId (session back) <> None ->
            personaId (session back) = Some 2 ->
            body_personaId (body back) = Some 1 ->
            PersonaCollection.findOneByPersonaId 1 Sample.db0 <> None ->
            FollowCollection.findOneByPartyIds 2 1 Sample.db0 = None ->
            statusOf (FollowRouter.follow back db1) = Some 201)
      /\ (forall other c d,
            personaId (session other) = Some c ->
            body_personaId (body other) = Some d ->
            (c, d) <> (1, 2) ->
            statusOf (FollowRouter.follow other db1)
            = statusOf (FollowRouter.follow other Sample.db0))).
Proof.
  intro req.
  split; [reflexivity |]. split; [reflexivity |]. split; [reflexivity |].
  apply (follow_duplicate_keyed_on_ordered_pair req Sample.db0 1 2);
    reflexivity.
Defined.

(** The scenario of the graph: alice follows bob (201), follows bob
    again (409), bob follows alice back (201); bob then has one follower
    edge, and none once alice has unfollowed him with a request naming
    him in the query and in the body. *)
Example follow_scenario :
  let r1 := FollowRouter.follow (followRequest Sample.asAlice 2 10)
              Sample.db0 in
  let r2 := FollowRouter.follow (followRequest Sample.asAlice 2 11)
              (db_after r1) in
  let r3 := FollowRouter.follow (followRequest Sample.asBob 1 12)
              (db_after r2) in
  let r4 := FollowRouter.unfollow (unfollowRequest Sample.asAlice 2 (Some 2))
              (db_after r3) in
  statusOf r1 = Some 201 /\ statusOf r2 = Some 409 /\ statusOf r3 = Some 201
  /\ FollowCollection.findAllReceivedById 2 (db_after r3)
     = [mkFollow 4 1 2 10]
  /\ statusOf r4 = Some 200
  /\ FollowCollection.findAllReceivedById 2 (db_after r4) = []
  /\ FollowCollection.findOneByPartyIds 1 2 (db_after r4) = None.
Proof. vm_compute. repeat split. Qed.

(** C5.  Alice followed bob at time 10 and carol at time 20.  Her
    following list comes back in insertion order, the older edge first,
    and bob's and carol's follower lists are built the same way, with no
    sort; [findAll], which sorts, returns the newer edge first. *)
Theorem following_lists_oldest_first :
  let req := mkRequest Sample.asAlice (personaIdBody None) None 30 in
  outcome (FollowRouter.following req Sample.db2)
  = reply 200 (FollowsPayload [mkFollow 4 1 2 10; mkFollow 5 1 3 20])
  /\ FollowCollection.findAllInitiatedById 1 Sample.db2
     = [mkFollow 4 1 2 10; mkFollow 5 1 3 20]
  /\ newestFirst (FollowCollection.findAllInitiatedById 1 Sample.db2) = false
  /\ FollowCollection.findAll Sample.db2
     = [mkFollow 5 1 3 20; mkFollow 4 1 2 10]
  /\ newestFirst (FollowCollection.findAll Sample.db2) = true.
Proof. vm_compute. repeat split. Qed.

(** The follower list of a persona followed twice, at times 10 and 20,
    has the same shape. *)
Example followers_list_oldest_first :
  let db := db_after (FollowRouter.follow (followRequest Sample.asBob 3 20)
                        Sample.db1) in
  FollowCollection.findAllReceivedById 3
    (db_after (FollowRouter.follow (followRequest Sample.asAlice 3 30) db))
  = [mkFollow 5 2 3 20; mkFollow 6 1 3 30]
  /\ newestFirst
       (FollowCollection.findAllReceivedById 3
          (db_after (FollowRouter.follow (followRequest Sample.asAlice 3 30)
                       db))) = false.
Proof. vm_compute. repeat split. Qed.

(** Both listings are the stored edges of the persona in insertion
    order. *)
Lemma listings_in_insertion_order (p : ObjectId) (db : Db) (f : Follow) :
  let db' := mkDb (users db) (personas db) (follows db ++ [f])
                  (S (nextId db)) in
  FollowCollection.findAllInitiatedById p db'
  = FollowCollection.findAllInitiatedById p db
    ++ (if followerId f =? p then [f] else [])
  /\ FollowCollection.findAllReceivedById p db'
     = FollowCollection.findAllReceivedById p db
       ++ (if followingId f =? p then [f] else []).
Proof.
  unfold FollowCollection.findAllInitiatedById,
    FollowCollection.findAllReceivedById. cbn.
  rewrite !filter_app. cbn.
  now destruct (followerId f =? p), (followingId f =? p).
Qed.

(** C6.  With the single edge 1 -> 3 stored, alice's request
    [DELETE /api/follows?personaId=2] whose body names persona 3 passes
    the existence check (made on the body), finds no edge 1 -> 2 in the
    handler and is not answered at all; with the single edge 1 -> 2
    stored, her request to unfollow 2 whose body names 3 is answered
    404 and the edge stays. *)
Theorem unfollow_checks_body_deletes_query :
  let dbCarol :=
    db_after (FollowRouter.follow (followRequest Sample.asAlice 3 10)
                Sample.db0) in
  let req := unfollowRequest Sample.asAlice 2 (Some 3) in
  FollowCollection.findOneByPartyIds 1 2 dbCarol = None
  /\ outcome (FollowRouter.unfollow req dbCarol) = Unhandled
  /\ statusOf (FollowRouter.unfollow req dbCarol) <> Some 404
  /\ FollowCollection.findOneByPartyIds 1 2 Sample.db1
     = Some (mkFollow 4 1 2 10)
  /\ statusOf (FollowRouter.unfollow req Sample.db1) = Some 404
  /\ FollowCollection.findOneByPartyIds 1 2
       (db_after (FollowRouter.unfollow req Sample.db1))
     = Some (mkFollow 4 1 2 10).
Proof. vm_compute. repeat split. discriminate. Qed.

(** Without [personaId] in the body, unfollowing a stored persona is
    answered 404 and changes nothing, whether or not the edge is
    stored. *)
Lemma unfollow_without_body (req : Request) (db : Db) (a b : ObjectId) :
  userId (session req) <> None ->
  personaId (session req) = Some a ->
  query_personaId req = Some b ->
  body_personaId (body req) = None ->
  PersonaCollection.findOneByPersonaId b db <> None ->
  FollowRouter.unfollow req db
  = mkResult (reply 404 ErrorPayload) db (session req).
Proof.
  intros Hlog Ha Hq Hb Hex. unfold FollowRouter.unfollow.
  rewrite (route_next _ _ _ _ _ (isUserLoggedIn_next req db Hlog)).
  rewrite (route_next _ _ _ _ _ (isPersonaSignedIn_next req db a Ha)).
  rewrite (route_next _ _ _ _ _ (isPersonaQueryExists_next req db b Hq Hex)).
  cbn [route].
  unfold FollowValidator.isFollowExistUnderSignedInPersona.
  now rewrite Ha, Hb.
Qed.

(** When the body names the persona of the query, unfollowing does what
    the route documents: 404 and no change without an edge, 200 and the
    found edge removed with one. *)
Lemma unfollow_body_matches_query (req : Request) (db : Db) (a b : ObjectId) :
  userId (session req) <> None ->
  personaId (session req) = Some a ->
  query_personaId req = Some b ->
  body_personaId (body req) = Some b ->
  PersonaCollection.findOneByPersonaId b db <> None ->
  FollowRouter.unfollow req db
  = match FollowCollection.findOneByPartyIds a b db with
    | None => mkResult (reply 404 ErrorPayload) db (session req)
    | Some f =>
        mkResult (reply 200 MessagePayload)
          (setFollows db
             (removeFirst (fun g => follow_id g =? follow_id f) (follows db)))
          (session req)
    end.
Proof.
  intros Hlog Ha Hq Hb Hex. unfold FollowRouter.unfollow.
  rewrite (route_next _ _ _ _ _ (isUserLoggedIn_next req db Hlog)).
  rewrite (route_next _ _ _ _ _ (isPersonaSignedIn_next req db a Ha)).
  rewrite (route_next _ _ _ _ _ (isPersonaQueryExists_next req db b Hq Hex)).
  cbn [route].
  unfold FollowValidator.isFollowExistUnderSignedInPersona,
    FollowRouter.unfollowHandler.
  rewrite Ha, Hb, Hq.
  now destruct (FollowCollection.findOneByPartyIds a b db).
Qed.

(* ------------------------------------------------------------------ *)
(** * Looking personas up by handle; formats; signing in                *)
(* ------------------------------------------------------------------ *)

(** C7.  The lookup interprets the handle as a pattern: [al.ce] and [.*]
    both return the persona whose handle is [alice], and so does
    [ alice ] with blanks around it; a prefix and another letter case do
    not.  (For a word token the lookup is the equality lookup, see
    [findOneByHandle_word].) *)
Theorem findOneByHandle_pattern_not_exact :
  PersonaCollection.findOneByHandle "al.ce" Sample.db0
  = Some (Some Sample.alice)
  /\ handle Sample.alice <> "al.ce"
  /\ PersonaCollection.findOneByHandle ".*" Sample.db0
     = Some (Some Sample.alice)
  /\ PersonaCollection.findOneByHandle "b+ob?" Sample.db0
     = Some (Some Sample.bob)
  /\ PersonaCollection.findOneByHandle " alice " Sample.db0
     = Some (Some Sample.alice)
  /\ PersonaCollection.findOneByHandle "alic" Sample.db0 = Some None
  /\ PersonaCollection.findOneByHandle "Alice" Sample.db0 = Some None
  /\ PersonaCollection.findOneByHandle "alice" Sample.db0
     = Some (Some Sample.alice).
Proof. vm_compute. repeat split. discriminate. Qed.

(** Every name of one character fails the name pattern, which asks for
    one word character and then one to five further groups. *)
Lemma one_character_name_rejected (c : ascii) :
  RegExp.test PersonaValidator.nameRegex (String c EmptyString) = false.
Proof. destruct c as [[] [] [] [] [] [] [] []]; vm_compute; reflexivity. Qed.

(** C8.  A creation request with the free handle [ann] and the name [A],
    a single group of word characters, is answered 400; the name [Al]
    is accepted, and so is a name of six words, while a seventh word, two
    spaces in a row or a handle with a space are refused. *)
Theorem create_rejects_single_letter_name :
  let go := fun handle_ name_ =>
    statusOf (PersonaRouter.create
                (createRequest Sample.amyOnly "amy" handle_ name_)
                Sample.db0) in
  wordToken "ann" = true
  /\ PersonaCollection.findOneByHandle "ann" Sample.db0 = Some None
  /\ go "ann" "A" = Some 400
  /\ go "ann" "Al" = Some 201
  /\ go "ann" "a b c d e f" = Some 201
  /\ go "ann" "a b c d e f g" = Some 400
  /\ go "ann" "a  b" = Some 400
  /\ go "bad handle" "Al" = Some 400
  /\ go EmptyString "Al" = Some 400.
Proof. vm_compute. repeat split. Qed.

Module SignInFacts.

Lemma find_user_handle_some (u h : string) (ps : list Persona) (p : Persona) :
  find (fun p => String.eqb (user p) u && String.eqb (handle p) h) ps
  = Some p ->
  In p ps /\ user p = u /\ handle p = h.
Proof.
  intro H. apply find_some in H as [Hin Heq].
  apply andb_true_iff in Heq as [Hu Hh].
  apply String.eqb_eq in Hu, Hh. now repeat split.
Qed.

Lemma find_user_handle_none (u h : string) (ps : list Persona) :
  find (fun p => String.eqb (user p) u && String.eqb (handle p) h) ps = None ->
  forall p, In p ps -> ~ (user p = u /\ handle p = h).
Proof.
  intros H p Hin [Hu Hh]. apply (find_none _ _ H) in Hin.
  rewrite Hu, Hh, !String.eqb_refl in Hin. discriminate.
Qed.

Lemma find_handle_exists (h : string) (ps : list Persona) (p : Persona) :
  In p ps -> handle p = h ->
  exists q, find (fun x => String.eqb (handle x) h) ps = Some q.
Proof.
  intros Hin Hh.
  destruct (find (fun x => String.eqb (handle x) h) ps) as [q |] eqn:E.
  - now exists q.
  - now contradiction (find_handle_none h ps E p Hin).
Qed.

End SignInFacts.

Import SignInFacts.

(** C9.  Take a session logged in as a stored user whose username is a
    word token, and a handle that passes the format check.  Signing in
    never touches the store.  If no stored persona has both this owner
    and this handle the request is answered 404 and the session keeps
    its binding.  If one has, the request is answered 200 with the
    persona [q] the handler resolves by handle (the first stored persona
    with the handle), and [session.personaId] becomes the identifier of
    [q]; when handles are unique, [q] is the persona of the account. *)
Theorem signIn_ownership_and_binding
  (req : Request) (db : Db) (uid : ObjectId) (u : User) :
  userId (session req) = Some uid ->
  UserCollection.findOneByUserId uid db = Some u ->
  wordToken (username u) = true ->
  wordToken (body_handle (body req)) = true ->
  let h := body_handle (body req) in
  let r := PersonaRouter.signIn req db in
  db_after r = db
  /\ ((forall p, In p (personas db) -> ~ (user p = username u /\ handle p = h))
      -> statusOf r = Some 404 /\ session_after r = session req)
  /\ (forall p, In p (personas db) -> user p = username u -> handle p = h ->
        exists q,
          find (fun x => String.eqb (handle x) h) (personas db) = Some q
          /\ In q (personas db) /\ handle q = h
          /\ outcome r = reply 200 (PersonaPayload q)
          /\ session_after r = setPersonaId (session req) (persona_id q)
          /\ personaId (session_after r) = Some (persona_id q)
          /\ ((forall x y, In x (personas db) -> In y (personas db) ->
                 handle x = handle y -> x = y) -> q = p)).
Proof.
  intros Huid Hu Hname Hh h r. subst r. unfold PersonaRouter.signIn.
  rewrite (route_next UserValidator.isUserLoggedIn)
    by (apply isUserLoggedIn_next; rewrite Huid; discriminate).
  rewrite (route_next PersonaValidator.isValidHandle)
    by (rewrite isValidHandle_eq; now rewrite Hh).
  assert (Hmw : PersonaValidator.isPersonaHandleExistWithUser req db
                = match find (fun p => String.eqb (user p) (username u)
                                       && String.eqb (handle p) h)
                             (personas db) with
                  | Some _ => Next
                  | None => Stop (reply 404 ErrorPayload)
                  end).
  { unfold PersonaValidator.isPersonaHandleExistWithUser.
    rewrite Huid, Hu, (findOneByUserAndHandle_word _ _ db Hname Hh).
    fold h.
    now destruct (find (fun p => String.eqb (user p) (username u)
                                 && String.eqb (handle p) h) (personas db)). }
  destruct (find (fun p => String.eqb (user p) (username u)
                           && String.eqb (handle p) h) (personas db))
    as [owned |] eqn:Hfind.
  - rewrite (route_next _ _ _ _ _ Hmw). cbn [route].
    apply find_user_handle_some in Hfind as (Hin & Huser & Hhandle).
    destruct (find_handle_exists h (personas db) owned Hin Hhandle)
      as [q Hq].
    unfold PersonaRouter.signInHandler.
    rewrite (findOneByHandle_word _ db Hh). fold h. rewrite Hq. cbn.
    split; [reflexivity |]. split.
    + intro Hnone. now contradiction (Hnone owned Hin).
    + intros p Hp Hpu Hph. exists q.
      destruct (find_handle_some h _ q Hq) as [Hqin Hqh].
      repeat split; try assumption.
      intro Huniq. apply Huniq; [assumption | assumption | congruence].
  - rewrite (route_stop _ _ _ _ _ _ Hmw). cbn.
    split; [reflexivity |]. split.
    + intros _. now split.
    + intros p Hp Hpu Hph.
      now contradiction (find_user_handle_none _ _ _ Hfind p Hp).
Qed.

Lemma signIn_ownership_and_binding_witness :
  let req := signInRequest Sample.amyOnly "carol" in
  userId (session req) = Some 100
  /\ UserCollection.findOneByUserId 100 Sample.db0 = Some Sample.amy
  /\ wordToken (username Sample.amy) = true
  /\ wordToken (body_handle (body req)) = true
  /\ (let h := body_handle (body req) in
      let r := PersonaRouter.signIn req Sample.db0 in
      db_after r = Sample.db0
      /\ ((forall p, In p (personas Sample.db0) ->
             ~ (user p = username Sample.amy /\ handle p = h))
          -> statusOf r = Some 404 /\ session_after r = session req)
      /\ (forall p, In p (personas Sample.db0) ->
            user p = username Sample.amy -> handle p = h ->
            exists q,
              find (fun x => String.eqb (handle x) h) (personas Sample.db0)
              = Some q
              /\ In q (personas Sample.db0) /\ handle q = h
              /\ outcome r = reply 200 (PersonaPayload q)
              /\ session_after r = setPersonaId (session req) (persona_id q)
              /\ personaId (session_after r) = Some (persona_id q)
              /\ ((forall x y, In x (personas Sample.db0) ->
                     In y (personas Sample.db0) ->
                     handle x = handle y -> x = y) -> q = p))).
Proof.
  intro req.
  split; [reflexivity |]. split; [reflexivity |]. split; [reflexivity |].
  split; [reflexivity |].
  apply (signIn_ownership_and_binding req Sample.db0 100 Sample.amy);
    reflexivity.
Defined.

(** Signing in on the sample store: amy becomes carol (200); bob's
    persona is not hers (404); a malformed handle is refused before any
    lookup (400). *)
Example signIn_scenario :
  let go := fun handle_ =>
    PersonaRouter.signIn (signInRequest Sample.amyOnly handle_) Sample.db0 in
  outcome (go "carol") = reply 200 (PersonaPayload Sample.carol)
  /\ personaId (session_after (go "carol")) = Some 3
  /\ statusOf (go "bob") = Some 404
  /\ personaId (session_after (go "bob")) = None
  /\ statusOf (go "no such") = Some 400.
Proof. vm_compute. repeat split. Qed.

(* ------------------------------------------------------------------ *)
(** * The formats the validators accept                                 *)
(* ------------------------------------------------------------------ *)

Module FormatFacts.
Import RegExp RegExpFacts.

Lemma lang_exactly (r : regex) (n : nat) :
  forall s, lang (Exactly n r) s
            <-> exists l, List.length l = n /\ Forall (lang r) l
                          /\ s = List.concat l.
Proof.
  induction n as [| n IH]; intro s; simpl.
  - split.
    + intro H. apply lang_eps_inv in H as ->. now exists [].
    + intros (l & Hl & _ & ->). destruct l; [constructor | discriminate].
  - split.
    + intro H. apply lang_seq_inv in H as (s1 & u & -> & H1 & H2).
      apply IH in H2 as (l & Hl & Hall & ->).
      exists (s1 :: l). simpl. now repeat split; [f_equal | constructor].
    + intros (l & Hl & Hall & ->). destruct l as [| s1 l]; [discriminate |].
      inversion Hall; subst. simpl. constructor; [assumption |].
      apply IH. exists l. injection Hl as Hl. now repeat split.
Qed.

Lemma lang_upto (r : regex) (n : nat) :
  forall s, lang (UpTo n r) s
            <-> exists l, List.length l <= n /\ Forall (lang r) l
                          /\ s = List.concat l.
Proof.
  induction n as [| n IH]; intro s; simpl.
  - split.
    + intro H. apply lang_eps_inv in H as ->. exists []. now repeat split.
    + intros (l & Hl & _ & ->).
      destruct l; [constructor | simpl in Hl; lia].
  - unfold Opt. split.
    + intro H. apply lang_alt_inv in H as [H | H].
      * apply lang_eps_inv in H as ->. exists []. simpl.
        repeat split; [lia | constructor].
      * apply lang_seq_inv in H as (s1 & u & -> & H1 & H2).
        apply IH in H2 as (l & Hl & Hall & ->).
        exists (s1 :: l). simpl. repeat split; [lia | now constructor].
    + intros (l & Hl & Hall & ->). destruct l as [| s1 l].
      * apply lang_alt_l. constructor.
      * inversion Hall; subst. apply lang_alt_r. simpl.
        constructor; [assumption |]. apply IH. exists l.
        simpl in Hl. repeat split; [lia | assumption].
Qed.

Lemma lang_range (r : regex) (lo hi : nat) (s : list ascii) :
  lo <= hi ->
  lang (Range lo hi r) s
  <-> exists l, lo <= List.length l <= hi /\ Forall (lang r) l
                /\ s = List.concat l.
Proof.
  intro Hle. unfold Range. split.
  - intro H. apply lang_seq_inv in H as (s1 & u & -> & H1 & H2).
    apply lang_exactly in H1 as (l1 & Hl1 & Hall1 & ->).
    apply lang_upto in H2 as (l2 & Hl2 & Hall2 & ->).
    exists (l1 ++ l2). rewrite length_app, concat_app.
    split; [lia |]. split; [now apply Forall_app | reflexivity].
  - intros (l & [Hlo Hhi] & Hall & ->).
    rewrite <- (firstn_skipn lo l), concat_app.
    rewrite <- (firstn_skipn lo l) in Hall. apply Forall_app in Hall as [Ha Hb].
    constructor.
    + apply lang_exactly. exists (firstn lo l).
      split; [rewrite length_firstn; lia | now split].
    + apply lang_upto. exists (skipn lo l).
      split; [rewrite length_skipn; lia | now split].
Qed.

Lemma isWordRun_spec (w : list ascii) :
  isWordRun w = true <-> w <> [] /\ forallb isWord w = true.
Proof.
  destruct w as [| c w]; simpl.
  - split; [discriminate | intros [H _]; now contradiction H].
  - split; [intro H; split; [discriminate | assumption] | now intros [_ H]].
Qed.

Lemma lang_word_run (w : list ascii) :
  lang (Plus (Class isWord)) w <-> isWordRun w = true.
Proof. now rewrite lang_plus_class, isWordRun_spec. Qed.

Lemma space_literal (x : ascii) :
  Ascii.eqb (toLower x) (toLower " ") = Ascii.eqb x " ".
Proof. destruct x as [[] [] [] [] [] [] [] []]; reflexivity. Qed.

(** One group [[ ]?\w+] of the name pattern: a word run, with or without
    a space in front. *)
Lemma lang_name_group (s : list ascii) :
  lang (Seq (Opt (Lit true " ")) (Plus (Class isWord))) s
  <-> exists w, isWordRun w = true /\ (s = w \/ s = " "%char :: w).
Proof.
  split.
  - intro H. apply lang_seq_inv in H as (s1 & u & -> & H1 & H2).
    apply lang_word_run in H2. exists u. split; [assumption |].
    apply lang_alt_inv in H1 as [H1 | H1].
    + apply lang_eps_inv in H1 as ->. now left.
    + apply lang_class_inv in H1 as (c & -> & Hc).
      rewrite space_literal in Hc. apply Ascii.eqb_eq in Hc as ->. now right.
  - intros (w & Hw & [-> | ->]).
    + change w with ([] ++ w). constructor.
      * apply lang_alt_l. constructor.
      * now apply lang_word_run.
    + change (" "%char :: w) with ([" "%char] ++ w). constructor.
      * apply lang_alt_r. constructor. now rewrite space_literal.
      * now apply lang_word_run.
Qed.

Lemma isWordRun_app (w u : list ascii) :
  isWordRun w = true -> isWordRun u = true -> isWordRun (w ++ u) = true.
Proof.
  rewrite !isWordRun_spec, forallb_app. intros [Hw1 Hw2] [Hu1 Hu2]. split.
  - destruct w; [now contradiction Hw1 | discriminate].
  - now rewrite Hw2, Hu2.
Qed.

Lemma isWordRun_length (w : list ascii) :
  isWordRun w = true -> 1 <= List.length w.
Proof. destruct w; [discriminate | simpl; lia]. Qed.

Lemma joinWords_cons (w : list ascii) (ws : list (list ascii)) :
  ws <> [] -> joinWords (w :: ws) = w ++ " "%char :: joinWords ws.
Proof. destruct ws; [intro H; now contradiction H | reflexivity]. Qed.

(** Groups glued to the word before them unless a space separates
    them. *)
Lemma groups_to_words (gs : list (list ascii)) :
  Forall (lang (Seq (Opt (Lit true " ")) (Plus (Class isWord)))) gs ->
  forall w0, isWordRun w0 = true ->
  exists ws,
    ws <> [] /\ List.length ws <= 1 + List.length gs
    /\ forallb isWordRun ws = true
    /\ List.length w0 + List.length gs <= List.length (List.concat ws)
    /\ joinWords ws = w0 ++ List.concat gs.
Proof.
  induction 1 as [| g gs Hg _ IH]; intros w0 Hw0.
  - exists [w0]. simpl. rewrite Hw0, !app_nil_r.
    repeat split; [discriminate | lia | lia].
  - apply lang_name_group in Hg as (w & Hw & [-> | ->]).
    + destruct (IH (w0 ++ w) (isWordRun_app _ _ Hw0 Hw))
        as (ws & Hne & Hlen & Hall & Hsize & Hjoin).
      exists ws. apply isWordRun_length in Hw.
      rewrite length_app in Hsize. simpl.
      repeat split; try assumption; [lia | lia |].
      now rewrite Hjoin, <- app_assoc.
    + destruct (IH w Hw) as (ws & Hne & Hlen & Hall & Hsize & Hjoin).
      exists (w0 :: ws). rewrite (joinWords_cons _ _ Hne), Hjoin.
      apply isWordRun_length in Hw.
      simpl. rewrite Hw0, Hall, length_app.
      repeat split; [discriminate | lia | lia].
Qed.

Lemma spaced_groups (ws : list (list ascii)) :
  forallb isWordRun ws = true ->
  Forall (lang (Seq (Opt (Lit true " ")) (Plus (Class isWord))))
         (map (cons " "%char) ws)
  /\ (ws <> [] ->
      List.concat (map (cons " "%char) ws) = " "%char :: joinWords ws).
Proof.
  induction ws as [| w ws IH]; simpl; intro H.
  - split; [constructor | intro Hne; now contradiction Hne].
  - apply andb_true_iff in H as [Hw Hws]. destruct (IH Hws) as [Hall Hcat].
    split.
    + constructor; [| assumption]. apply lang_name_group. exists w. auto.
    + intros _. destruct ws as [| w2 ws]; [simpl; now rewrite app_nil_r |].
      rewrite Hcat by discriminate. reflexivity.
Qed.

(** The language of [/^\w+(([ ]?\w+){1,5})$/i]. *)
Lemma test_nameRegex (s : string) :
  test PersonaValidator.nameRegex s = true
  <-> exists ws,
        1 <= List.length ws <= 6
        /\ forallb isWordRun ws = true
        /\ 2 <= List.length (List.concat ws)
        /\ list_ascii_of_string s = joinWords ws.
Proof.
  unfold PersonaValidator.nameRegex. rewrite test_anchored.
  set (cs := list_ascii_of_string s). clearbody cs. split.
  - intro H. apply lang_seq_inv in H as (w0 & u & -> & H0 & H1).
    apply lang_word_run in H0.
    apply lang_range in H1 as (gs & [Hlo Hhi] & Hall & ->); [| lia].
    destruct (groups_to_words gs Hall w0 H0)
      as (ws & Hne & Hlen & Hruns & Hsize & Hjoin).
    exists ws. apply isWordRun_length in H0.
    repeat split; try assumption; try lia; [| now symmetry].
    destruct ws; [now contradiction Hne | simpl; lia].
  - intros (ws & [Hlo Hhi] & Hruns & Hsize & ->).
    destruct ws as [| w ws]; [simpl in Hlo; lia |].
    simpl in Hruns. apply andb_true_iff in Hruns as [Hw Hws].
    destruct ws as [| w2 ws].
    + simpl in Hsize. rewrite app_nil_r in Hsize. simpl.
      destruct w as [| c [| c2 w]]; try (simpl in Hsize; lia).
      simpl in Hw. apply andb_true_iff in Hw as [Hc Hrest].
      change (c :: c2 :: w) with ([c] ++ c2 :: w). constructor.
      * apply lang_word_run. simpl. now rewrite Hc.
      * apply lang_range; [lia |]. exists [c2 :: w]. simpl.
        rewrite app_nil_r. repeat split; [lia | lia |].
        constructor; [| constructor]. apply lang_name_group.
        exists (c2 :: w). split; [exact Hrest | now left].
    + destruct (spaced_groups (w2 :: ws) Hws) as [Hall Hcat].
      rewrite joinWords_cons by discriminate.
      rewrite <- Hcat by discriminate. constructor.
      * now apply lang_word_run.
      * apply lang_range; [lia |]. exists (map (cons " "%char) (w2 :: ws)).
        rewrite length_map. simpl in Hhi. simpl.
        repeat split; [lia | lia | exact Hall].
Qed.

End FormatFacts.

Import FormatFacts.

(** X1.  The handle check tests the text that [RegExp.test] makes of
    [req.body.handle], and lets the request through exactly when that
    text is a nonempty run of letters, digits and underscores; it
    answers 400 otherwise.  A handle sent as a string is tested as it
    is; a body without handle is tested as [undefined] and let
    through. *)
Theorem isValidHandle_accepts_word_runs :
  (forall v : PersonaValidator.Field,
      PersonaValidator.handleCheck v
      = if isWordRun (list_ascii_of_string (PersonaValidator.tested v))
        then Next
        else Stop (reply 400 ErrorPayload))
  /\ (forall (req : Request) (db : Db),
        PersonaValidator.isValidHandle req db
        = if isWordRun (list_ascii_of_string (body_handle (body req)))
          then Next
          else Stop (reply 400 ErrorPayload))
  /\ PersonaValidator.handleCheck PersonaValidator.Absent = Next
  /\ PersonaValidator.handleCheck (PersonaValidator.Text EmptyString)
     = Stop (reply 400 ErrorPayload).
Proof.
  assert (H : forall v,
             PersonaValidator.handleCheck v
             = if isWordRun
                    (list_ascii_of_string (PersonaValidator.tested v))
               then Next
               else Stop (reply 400 ErrorPayload)).
  { intro v. unfold PersonaValidator.handleCheck.
    rewrite test_handleRegex. unfold wordToken.
    destruct (PersonaValidator.tested v) as [| c s]; [reflexivity |].
    cbn.
    now destruct (RegExp.isWord c
                  && forallb RegExp.isWord (list_ascii_of_string s)). }
  split; [exact H |].
  split; [intros req db; exact (H (PersonaValidator.Text _)) |].
  split; reflexivity.
Qed.

(** X2.  The name check tests the text that [RegExp.test] makes of
    [req.body.name], and lets the request through exactly when that text
    is made of one to six nonempty runs of word characters separated by
    single spaces and holds at least two word characters in all; it
    answers 400 otherwise.  A name sent as a string is tested as it is;
    a body without name is tested as [undefined] and let through. *)
Theorem isValidName_accepts_spaced_words :
  (forall v : PersonaValidator.Field,
      (PersonaValidator.nameCheck v = Next
       <-> exists ws,
             1 <= List.length ws <= 6
             /\ forallb isWordRun ws = true
             /\ 2 <= List.length (List.concat ws)
             /\ list_ascii_of_string (PersonaValidator.tested v)
                = joinWords ws)
      /\ (PersonaValidator.nameCheck v = Next
          \/ PersonaValidator.nameCheck v = Stop (reply 400 ErrorPayload)))
  /\ (forall (req : Request) (db : Db),
        (PersonaValidator.isValidName req db = Next
         <-> exists ws,
               1 <= List.length ws <= 6
               /\ forallb isWordRun ws = true
               /\ 2 <= List.length (List.concat ws)
               /\ list_ascii_of_string (body_name (body req))
                  = joinWords ws)
        /\ (PersonaValidator.isValidName req db = Next
            \/ PersonaValidator.isValidName req db
               = Stop (reply 400 ErrorPayload)))
  /\ PersonaValidator.nameCheck PersonaValidator.Absent = Next
  /\ PersonaValidator.nameCheck (PersonaValidator.Text EmptyString)
     = Stop (reply 400 ErrorPayload).
Proof.
  assert (H : forall v,
             (PersonaValidator.nameCheck v = Next
              <-> exists ws,
                    1 <= List.length ws <= 6
                    /\ forallb isWordRun ws = true
                    /\ 2 <= List.length (List.concat ws)
                    /\ list_ascii_of_string (PersonaValidator.tested v)
                       = joinWords ws)
             /\ (PersonaValidator.nameCheck v = Next
                 \/ PersonaValidator.nameCheck v
                    = Stop (reply 400 ErrorPayload))).
  { intro v. rewrite <- test_nameRegex. unfold PersonaValidator.nameCheck.
    destruct (RegExp.test PersonaValidator.nameRegex
                (PersonaValidator.tested v)); cbn [negb].
    - split; [split; intros _; reflexivity | now left].
    - split; [split; intro E; discriminate E | now right]. }
  split; [exact H |].
  split; [intros req db; exact (H (PersonaValidator.Text _)) |].
  split; reflexivity.
Qed.

(* ------------------------------------------------------------------ *)
(** * Lookups by pattern on padded word tokens                          *)
(* ------------------------------------------------------------------ *)

Module TrimFacts.
Import RegExp.

Lemma dropSpaces_blank_app (ws l : list ascii) :
  forallb isSpace ws = true -> dropSpaces (ws ++ l) = dropSpaces l.
Proof.
  induction ws as [| c ws IH]; simpl; [reflexivity |].
  intro H. apply andb_true_iff in H as [Hc Hws]. now rewrite Hc, IH.
Qed.

Lemma dropSpaces_word_app (w l : list ascii) :
  isWordRun w = true -> dropSpaces (w ++ l) = w ++ l.
Proof.
  destruct w as [| c w]; [discriminate |]. simpl. intro H.
  apply andb_true_iff in H as [Hc _].
  destruct (word_char_plain c Hc) as (-> & _). reflexivity.
Qed.

Lemma isWordRun_rev (w : list ascii) :
  isWordRun w = true -> isWordRun (rev w) = true.
Proof.
  rewrite !FormatFacts.isWordRun_spec. intros [Hne Hall]. split.
  - intro H. apply Hne. rewrite <- (rev_involutive w), H. reflexivity.
  - now apply forallb_rev.
Qed.

Lemma wordToken_run (h : string) :
  wordToken h = true -> isWordRun (list_ascii_of_string h) = true.
Proof. unfold wordToken. now destruct h. Qed.

(** [trim] strips the blanks around a word token and nothing else. *)
Lemma trim_padded (pre h post : string) :
  isBlank pre = true -> isBlank post = true -> wordToken h = true ->
  trim (pre ++ h ++ post) = h.
Proof.
  unfold isBlank, trim. intros Hpre Hpost Hh. apply wordToken_run in Hh.
  rewrite !list_ascii_of_append.
  rewrite (dropSpaces_blank_app _ _ Hpre), (dropSpaces_word_app _ _ Hh).
  rewrite rev_app_distr.
  rewrite (dropSpaces_blank_app _ _ (forallb_rev _ _ Hpost)).
  rewrite <- (app_nil_r (rev (list_ascii_of_string h))).
  rewrite (dropSpaces_word_app _ _ (isWordRun_rev _ Hh)).
  rewrite app_nil_r, rev_involutive. apply string_of_list_ascii_of_string.
Qed.

Lemma anchored_padded (pre h post : string) :
  isBlank pre = true -> isBlank post = true -> wordToken h = true ->
  anchored (pre ++ h ++ post)
  = Some (mk true (literal false (list_ascii_of_string h)) true).
Proof.
  intros Hpre Hpost Hh. rewrite <- (anchored_word h Hh). unfold anchored.
  now rewrite (trim_padded _ _ _ Hpre Hpost Hh), (trim_word h Hh).
Qed.

End TrimFacts.

Import TrimFacts.

(** X3.  Looking a persona up by a word token with blanks around it
    returns the first stored persona whose handle is the token itself,
    compared character by character, or nothing when there is none. *)
Theorem findOneByHandle_ignores_blanks (pre h post : string) (db : Db) :
  isBlank pre = true -> isBlank post = true -> wordToken h = true ->
  PersonaCollection.findOneByHandle (pre ++ h ++ post) db
  = Some (find (fun p => String.eqb (handle p) h) (personas db)).
Proof.
  intros Hpre Hpost Hh. unfold PersonaCollection.findOneByHandle.
  rewrite (anchored_padded _ _ _ Hpre Hpost Hh). f_equal.
  apply find_pred_ext. intro p. apply test_literal.
Qed.

Lemma findOneByHandle_ignores_blanks_witness :
  isBlank "  " = true /\ isBlank " " = true /\ wordToken "bob" = true
  /\ PersonaCollection.findOneByHandle ("  " ++ "bob" ++ " ") Sample.db0
     = Some (find (fun p => String.eqb (handle p) "bob")
                  (personas Sample.db0)).
Proof.
  split; [reflexivity |]. split; [reflexivity |]. split; [reflexivity |].
  apply (findOneByHandle_ignores_blanks "  " "bob" " " Sample.db0);
    reflexivity.
Defined.

(** X4.  Listing the personas of a username that is a word token, blanks
    around it or not, returns exactly the stored personas whose owner is
    that username, in stored order. *)
Theorem findAllByUsername_lists_owner (pre u post : string) (db : Db) :
  isBlank pre = true -> isBlank post = true -> wordToken u = true ->
  PersonaCollection.findAllByUsername (pre ++ u ++ post) db
  = Some (filter (fun p => String.eqb (user p) u) (personas db)).
Proof.
  intros Hpre Hpost Hu. unfold PersonaCollection.findAllByUsername.
  rewrite (anchored_padded _ _ _ Hpre Hpost Hu). f_equal.
  apply filter_ext. intro p. apply test_literal.
Qed.

Lemma findAllByUsername_lists_owner_witness :
  isBlank EmptyString = true /\ isBlank " " = true /\ wordToken "amy" = true
  /\ PersonaCollection.findAllByUsername (EmptyString ++ "amy" ++ " ")
       Sample.db0
     = Some (filter (fun p => String.eqb (user p) "amy")
                    (personas Sample.db0)).
Proof.
  split; [reflexivity |]. split; [reflexivity |]. split; [reflexivity |].
  apply (findAllByUsername_lists_owner EmptyString "amy" " " Sample.db0);
    reflexivity.
Defined.

(* ------------------------------------------------------------------ *)
(** * Invariants of the persona registry                                *)
(* ------------------------------------------------------------------ *)

Module ListFacts.

Lemma existsb_in {A : Type} (eqb : A -> A -> bool)
  (Heqb : forall a b, eqb a b = true <-> a = b) (x : A) (l : list A) :
  existsb (eqb x) l = true <-> In x l.
Proof.
  rewrite existsb_exists. split.
  - intros (y & Hy & E). apply Heqb in E. now subst.
  - intro H. exists x. split; [assumption | now apply Heqb].
Qed.

Lemma distinctBy_NoDup {A : Type} (eqb : A -> A -> bool)
  (Heqb : forall a b, eqb a b = true <-> a = b) (l : list A) :
  distinctBy eqb l = true <-> NoDup l.
Proof.
  induction l as [| x l IH]; simpl.
  - split; [constructor | reflexivity].
  - rewrite andb_true_iff, negb_true_iff, IH, NoDup_cons_iff.
    rewrite <- not_true_iff_false, (existsb_in eqb Heqb). reflexivity.
Qed.

Lemma distinct_NoDup (l : list nat) : distinct l = true <-> NoDup l.
Proof.
  rewrite <- (distinctBy_NoDup Nat.eqb Nat.eqb_eq).
  induction l as [| x l IH]; simpl; [reflexivity |].
  now rewrite !andb_true_iff, IH.
Qed.

Lemma pairEqb_eq (x y : ObjectId * ObjectId) : pairEqb x y = true <-> x = y.
Proof.
  destruct x as [a b], y as [c d]. unfold pairEqb. simpl.
  rewrite andb_true_iff, !Nat.eqb_eq. split.
  - now intros [-> ->].
  - intro H. injection H as -> ->. now split.
Qed.

Lemma find_split {A : Type} (f : A -> bool) (l : list A) (x : A) :
  find f l = Some x ->
  exists l1 l2, l = l1 ++ x :: l2 /\ f x = true
                /\ forallb (fun y => negb (f y)) l1 = true.
Proof.
  induction l as [| y l IH]; simpl; [discriminate |].
  destruct (f y) eqn:Hy.
  - intro H. injection H as ->. exists [], l. now repeat split.
  - intro H. destruct (IH H) as (l1 & l2 & -> & Hx & Hl1).
    exists (y :: l1), l2. simpl. rewrite Hy. now repeat split.
Qed.

Lemma find_app_skip {A : Type} (f : A -> bool) (l1 l2 : list A) :
  forallb (fun y => negb (f y)) l1 = true -> find f (l1 ++ l2) = find f l2.
Proof.
  induction l1 as [| y l1 IH]; simpl; [reflexivity |].
  intro H. apply andb_true_iff in H as [Hy Hl1].
  apply negb_true_iff in Hy. now rewrite Hy, IH.
Qed.

Lemma replaceFirst_split {A : Type} (f : A -> bool) (l1 l2 : list A)
  (x y : A) :
  f x = true -> forallb (fun z => negb (f z)) l1 = true ->
  replaceFirst f y (l1 ++ x :: l2) = l1 ++ y :: l2.
Proof.
  intros Hx. induction l1 as [| z l1 IH]; simpl.
  - now rewrite Hx.
  - intro H. apply andb_true_iff in H as [Hz Hl1].
    apply negb_true_iff in Hz. now rewrite Hz, IH.
Qed.

Lemma removeFirst_split {A : Type} (f : A -> bool) (l1 l2 : list A) (x : A) :
  f x = true -> forallb (fun z => negb (f z)) l1 = true ->
  removeFirst f (l1 ++ x :: l2) = l1 ++ l2.
Proof.
  intros Hx. induction l1 as [| z l1 IH]; simpl.
  - now rewrite Hx.
  - intro H. apply andb_true_iff in H as [Hz Hl1].
    apply negb_true_iff in Hz. now rewrite Hz, IH.
Qed.

Lemma removeFirst_none {A : Type} (f : A -> bool) (l : list A) :
  find f l = None -> removeFirst f l = l.
Proof.
  induction l as [| y l IH]; simpl; [reflexivity |].
  destruct (f y); [discriminate |]. intro H. now rewrite IH.
Qed.

(** What [removeFirst] leaves: the list, or the list without the first
    match. *)
Lemma removeFirst_cases {A : Type} (f : A -> bool) (l : list A) :
  removeFirst f l = l
  \/ exists l1 x l2, l = l1 ++ x :: l2 /\ f x = true
                     /\ forallb (fun z => negb (f z)) l1 = true
                     /\ removeFirst f l = l1 ++ l2.
Proof.
  destruct (find f l) as [x |] eqn:E.
  - right. destruct (find_split f l x E) as (l1 & l2 & -> & Hx & Hl1).
    exists l1, x, l2. repeat split; try assumption.
    now apply removeFirst_split.
  - left. now apply removeFirst_none.
Qed.

Lemma NoDup_map_removeFirst {A B : Type} (g : A -> B) (f : A -> bool)
  (l : list A) :
  NoDup (map g l) -> NoDup (map g (removeFirst f l)).
Proof.
  destruct (removeFirst_cases f l) as [-> | (l1 & x & l2 & -> & _ & _ & ->)];
    [trivial |].
  rewrite !map_app. simpl. apply NoDup_remove_1.
Qed.

Lemma In_removeFirst {A : Type} (f : A -> bool) (l : list A) (x : A) :
  In x (removeFirst f l) -> In x l.
Proof.
  destruct (removeFirst_cases f l) as [-> | (l1 & y & l2 & -> & _ & _ & ->)];
    [trivial |].
  rewrite !in_app_iff. simpl. tauto.
Qed.

Lemma NoDup_snoc {A : Type} (l : list A) (x : A) :
  NoDup l -> ~ In x l -> NoDup (l ++ [x]).
Proof.
  intros Hl Hx. apply NoDup_app; [assumption | |].
  - constructor; [intros [] | constructor].
  - intros a Ha [<- | []]. contradiction.
Qed.

Lemma NoDup_replace_middle {A : Type} (l1 l2 : list A) (x y : A) :
  NoDup (l1 ++ x :: l2) -> (y = x \/ ~ In y (l1 ++ x :: l2)) ->
  NoDup (l1 ++ y :: l2).
Proof.
  intros H [-> | Hy]; [assumption |].
  apply NoDup_remove in H as [H _].
  apply (Permutation_NoDup (Permutation_middle l1 l2 y)).
  constructor; [| assumption].
  intro Hin. apply Hy. rewrite in_app_iff in *. simpl. tauto.
Qed.

End ListFacts.

Module RegistryFacts.
Import ListFacts.

Lemma handlesDistinct_NoDup (db : Db) :
  handlesDistinct db = true <-> NoDup (map handle (personas db)).
Proof. apply (distinctBy_NoDup String.eqb String.eqb_eq). Qed.

Lemma idsOk_spec (db : Db) :
  idsOk db = true
  <-> NoDup (map persona_id (personas db))
      /\ NoDup (map follow_id (follows db))
      /\ (forall p, In p (personas db) -> persona_id p < nextId db)
      /\ (forall f, In f (follows db) -> follow_id f < nextId db).
Proof.
  unfold idsOk, idsFresh, personaIdsUnique, followIdsUnique.
  rewrite !andb_true_iff, !distinct_NoDup, !forallb_forall.
  split.
  - intros [[H1 H2] [H3 H4]]. repeat split; try assumption.
    + intros p Hp. now apply Nat.ltb_lt, H3.
    + intros f Hf. now apply Nat.ltb_lt, H4.
  - intros (H1 & H2 & H3 & H4). repeat split; try assumption.
    + intros p Hp. now apply Nat.ltb_lt, H3.
    + intros f Hf. now apply Nat.ltb_lt, H4.
Qed.

Lemma find_handle_none_notin (h : string) (ps : list Persona) :
  find (fun p => String.eqb (handle p) h) ps = None ->
  ~ In h (map handle ps).
Proof.
  intros H Hin. apply in_map_iff in Hin as (p & Hp & Hin).
  now apply (find_handle_none h ps H p Hin).
Qed.

Lemma fresh_id_notin (n : nat) (ps : list Persona) :
  (forall p, In p ps -> persona_id p < n) -> ~ In n (map persona_id ps).
Proof.
  intros H Hin. apply in_map_iff in Hin as (p & Hp & Hin).
  apply H in Hin. lia.
Qed.

(** The store a creation request leaves behind: the same store, or the
    store with one more persona whose handle is a word token no stored
    persona had. *)
Lemma create_db_after (req : Request) (db : Db) :
  let h := body_handle (body req) in
  db_after (PersonaRouter.create req db) = db
  \/ (wordToken h = true
      /\ find (fun p => String.eqb (handle p) h) (personas db) = None
      /\ db_after (PersonaRouter.create req db)
         = mkDb (users db)
                (personas db
                 ++ [mkPersona (nextId db) (body_username (body req)) h
                       (body_name (body req))])
                (follows db) (S (nextId db))).
Proof.
  intro h. unfold PersonaRouter.create, route.
  destruct (UserValidator.isUserLoggedIn req db); [| now left].
  destruct (PersonaValidator.isValidName req db); [| now left].
  rewrite isValidHandle_eq. fold h.
  destruct (wordToken h) eqn:Hh; [| now left].
  rewrite (isHandleNotAlreadyInUse_eq req db Hh). fold h.
  destruct (find (fun p => String.eqb (handle p) h) (personas db)) eqn:Hf;
    [now left |].
  unfold PersonaRouter.createHandler, PersonaCollection.addOne. fold h.
  destruct (String.eqb (body_username (body req)) EmptyString
            || String.eqb h EmptyString
            || String.eqb (body_name (body req)) EmptyString);
    [now left |].
  right. now repeat split.
Qed.

End RegistryFacts.

Import ListFacts RegistryFacts.

(** X5.  Whatever the request, the creation route keeps the registry
    sound: if the stored handles are word tokens and pairwise different
    and the identifiers are unique and below the counter, the same
    holds afterwards, and the follow collection is untouched. *)
Theorem create_keeps_registry_sound (req : Request) (db : Db) :
  handlesValid db = true ->
  handlesDistinct db = true ->
  idsOk db = true ->
  let db' := db_after (PersonaRouter.create req db) in
  handlesValid db' = true
  /\ handlesDistinct db' = true
  /\ idsOk db' = true
  /\ follows db' = follows db.
Proof.
  intros Hvalid Hdist Hids db'. subst db'.
  destruct (create_db_after req db) as [-> | (Hh & Hfree & ->)];
    [now repeat split |].
  apply handlesDistinct_NoDup in Hdist.
  apply idsOk_spec in Hids as (Hp & Hf & Hpl & Hfl).
  split; [| split; [| split; [| reflexivity]]].
  - unfold handlesValid in *. cbn. rewrite forallb_app, Hvalid. cbn.
    now rewrite Hh.
  - apply handlesDistinct_NoDup. cbn. rewrite map_app. cbn.
    apply NoDup_snoc; [assumption | now apply find_handle_none_notin].
  - apply idsOk_spec. cbn. rewrite map_app. cbn.
    split; [apply NoDup_snoc; [assumption | now apply fresh_id_notin] |].
    split; [assumption |]. split.
    + intros p Hin. apply in_app_iff in Hin as [Hin | [<- | []]];
        [apply Hpl in Hin; lia | cbn; lia].
    + intros f Hin. apply Hfl in Hin. lia.
Qed.

Lemma create_keeps_registry_sound_witness :
  let req := createRequest Sample.amyOnly "amy" "dora" "Dora D" in
  handlesValid Sample.db2 = true
  /\ handlesDistinct Sample.db2 = true
  /\ idsOk Sample.db2 = true
  /\ (let db' := db_after (PersonaRouter.create req Sample.db2) in
      handlesValid db' = true
      /\ handlesDistinct db' = true
      /\ idsOk db' = true
      /\ follows db' = follows Sample.db2).
Proof.
  intro req.
  split; [reflexivity |]. split; [reflexivity |]. split; [reflexivity |].
  apply (create_keeps_registry_sound req Sample.db2); reflexivity.
Defined.

(* ------------------------------------------------------------------ *)
(** * Updating a persona                                                *)
(* ------------------------------------------------------------------ *)

Module UpdateFacts.

Lemma forallb_map_pred {A B : Type} (g : A -> B) (f : B -> bool)
  (l : list A) :
  forallb (fun x => f (g x)) l = forallb f (map g l).
Proof.
  induction l as [| x l IH]; simpl; [reflexivity | now rewrite IH].
Qed.

(** [idsOk] reads the identifiers and the counter only. *)
Lemma idsOk_ext (db db' : Db) :
  map persona_id (personas db') = map persona_id (personas db) ->
  map follow_id (follows db') = map follow_id (follows db) ->
  nextId db' = nextId db ->
  idsOk db' = idsOk db.
Proof.
  intros Hp Hf Hn.
  unfold idsOk, idsFresh, personaIdsUnique, followIdsUnique.
  rewrite (forallb_map_pred persona_id (fun i => i <? nextId db')).
  rewrite (forallb_map_pred persona_id (fun i => i <? nextId db)).
  rewrite (forallb_map_pred follow_id (fun i => i <? nextId db')).
  rewrite (forallb_map_pred follow_id (fun i => i <? nextId db)).
  now rewrite Hp, Hf, Hn.
Qed.

Lemma find_middle_skip {A : Type} (f : A -> bool) (l1 l2 : list A) (x : A) :
  f x = false -> find f (l1 ++ x :: l2) = find f (l1 ++ l2).
Proof.
  intro Hx. induction l1 as [| y l1 IH]; simpl; [now rewrite Hx |].
  now rewrite IH.
Qed.

Lemma valid_name_nonempty (s : string) :
  RegExp.test PersonaValidator.nameRegex s = true ->
  String.eqb s EmptyString = false.
Proof. destruct s; [discriminate | reflexivity]. Qed.

Lemma wordToken_nonempty (s : string) :
  wordToken s = true -> String.eqb s EmptyString = false.
Proof. destruct s; [discriminate | reflexivity]. Qed.

(** What an update request does: nothing to the store, or, answered
    200, the replacement of the persona of the route parameter by the
    same persona with the name and the handle of the body. *)
Lemma update_cases (param : option ObjectId) (req : Request) (db : Db) :
  let h := body_handle (body req) in
  let r := PersonaRouter.update param req db in
  (db_after r = db /\ session_after r = session req /\ statusOf r <> Some 200)
  \/ exists pid p,
       param = Some pid
       /\ find (fun q => persona_id q =? pid) (personas db) = Some p
       /\ user p = body_username (body req)
       /\ wordToken h = true
       /\ (handle p = h
           \/ find (fun q => String.eqb (handle q) h) (personas db) = None)
       /\ r = mkResult
                (reply 200
                   (PersonaPayload
                      (mkPersona (persona_id p) (user p) h
                         (body_name (body req)))))
                (setPersonas db
                   (replaceFirst (fun q => persona_id q =? pid)
                      (mkPersona (persona_id p) (user p) h
                         (body_name (body req)))
                      (personas db)))
                (session req).
Proof.
  intros h r. subst r. unfold PersonaRouter.update, route.
  unfold UserValidator.isUserLoggedIn.
  destruct (userId (session req));
    [| left; repeat split; discriminate].
  unfold PersonaValidator.isPersonaExistWithUser,
    PersonaCollection.findOneByPersonaId.
  destruct param as [pid |]; [| left; repeat split; discriminate].
  destruct (find (fun q => persona_id q =? pid) (personas db))
    as [p |] eqn:Hfind; [| left; repeat split; discriminate].
  destruct (String.eqb (user p) (body_username (body req))) eqn:Huser;
    cbn [negb]; [| left; repeat split; discriminate].
  apply String.eqb_eq in Huser.
  unfold PersonaValidator.isValidName, PersonaValidator.nameCheck,
    PersonaValidator.tested.
  destruct (RegExp.test PersonaValidator.nameRegex (body_name (body req)))
    eqn:Hname; cbn [negb]; [| left; repeat split; discriminate].
  rewrite isValidHandle_eq. fold h.
  destruct (wordToken h) eqn:Hh; [| left; repeat split; discriminate].
  unfold PersonaValidator.isNewHandleNotAlreadyInUse,
    PersonaCollection.findOneByPersonaId.
  rewrite Hfind. fold h.
  assert (Hdone :
    (handle p = h
     \/ find (fun q => String.eqb (handle q) h) (personas db) = None) ->
    (let r := PersonaRouter.updateHandler (Some pid) req db in
     (db_after r = db /\ session_after r = session req
      /\ statusOf r <> Some 200)
     \/ r = mkResult
              (reply 200
                 (PersonaPayload
                    (mkPersona (persona_id p) (user p) h
                       (body_name (body req)))))
              (setPersonas db
                 (replaceFirst (fun q => persona_id q =? pid)
                    (mkPersona (persona_id p) (user p) h
                       (body_name (body req)))
                    (personas db)))
              (session req))).
  { intros _. unfold PersonaRouter.updateHandler, PersonaCollection.updateOne.
    rewrite Hfind. cbn [details_name details_handle]. fold h.
    rewrite !(valid_name_nonempty _ Hname), !(wordToken_nonempty _ Hh).
    cbv zeta iota.
    rewrite ?(valid_name_nonempty _ Hname), ?(wordToken_nonempty _ Hh).
    destruct (String.eqb (user p) EmptyString); cbn [orb].
    - left. repeat split. discriminate.
    - now right. }
  destruct (String.eqb (handle p) h) eqn:Hsame; cbn [negb].
  - apply String.eqb_eq in Hsame.
    destruct (Hdone (or_introl Hsame)) as [Hl | Hr]; [now left |].
    right. exists pid, p. repeat split; try assumption. now left.
  - rewrite (findOneByHandle_word h db Hh).
    destruct (find (fun q => String.eqb (handle q) h) (personas db))
      eqn:Htaken; [left; repeat split; discriminate |].
    destruct (Hdone (or_intror eq_refl)) as [Hl | Hr]; [now left |].
    right. exists pid, p. repeat split; try assumption. now right.
Qed.

End UpdateFacts.

Import UpdateFacts.

(** X6.  Whatever the request and its route parameter, an update changes
    no identifier, no owner, no position and no number of personas, and
    leaves the follow collection, the users, the counter and the session
    as they were: only names and handles can change. *)
Theorem update_changes_names_and_handles_only
  (param : option ObjectId) (req : Request) (db : Db) :
  let r := PersonaRouter.update param req db in
  map persona_id (personas (db_after r)) = map persona_id (personas db)
  /\ map user (personas (db_after r)) = map user (personas db)
  /\ follows (db_after r) = follows db
  /\ users (db_after r) = users db
  /\ nextId (db_after r) = nextId db
  /\ session_after r = session req.
Proof.
  intro r. subst r.
  destruct (update_cases param req db)
    as [(-> & -> & _) | (pid & p & _ & Hfind & _ & _ & _ & ->)];
    [now repeat split |].
  destruct (find_split _ _ _ Hfind) as (l1 & l2 & Hl & Hp & Hl1).
  cbn. rewrite Hl.
  rewrite (replaceFirst_split (fun q => persona_id q =? pid) _ _ p _ Hp Hl1).
  rewrite !map_app.
  now repeat split.
Qed.

(** X7.  Take a logged-in request to update the stored persona [p] whose
    owner is the username of the body, with a well-formed name and
    handle.  It is answered 409 exactly when the handle differs from
    the current handle of [p] and some stored persona carries it; the
    store is then unchanged.  Otherwise it is answered 200, the persona
    found under the identifier has the new name and handle, with its
    owner and identifier kept, and every other identifier resolves as
    before. *)
Theorem update_conflict_iff_other_handle_taken
  (pid : ObjectId) (p : Persona) (req : Request) (db : Db) :
  userId (session req) <> None ->
  PersonaCollection.findOneByPersonaId pid db = Some p ->
  user p = body_username (body req) ->
  user p <> EmptyString ->
  RegExp.test PersonaValidator.nameRegex (body_name (body req)) = true ->
  wordToken (body_handle (body req)) = true ->
  let h := body_handle (body req) in
  let r := PersonaRouter.update (Some pid) req db in
  (statusOf r = Some 409
   <-> handle p <> h /\ exists q, In q (personas db) /\ handle q = h)
  /\ (statusOf r = Some 409 -> db_after r = db)
  /\ (statusOf r <> Some 409 ->
      statusOf r = Some 200
      /\ PersonaCollection.findOneByPersonaId pid (db_after r)
         = Some (mkPersona pid (user p) h (body_name (body req)))
      /\ forall q, q <> pid ->
           PersonaCollection.findOneByPersonaId q (db_after r)
           = PersonaCollection.findOneByPersonaId q db).
Proof.
  intros Hlog Hfind Huser Hune Hname Hh h r. subst r.
  unfold PersonaCollection.findOneByPersonaId in *.
  assert (Hpid : persona_id p = pid).
  { apply find_some in Hfind as [_ E]. now apply Nat.eqb_eq in E. }
  unfold PersonaRouter.update.
  rewrite (route_next _ _ _ _ _ (isUserLoggedIn_next req db Hlog)).
  rewrite (route_next (PersonaValidator.isPersonaExistWithUser (Some pid)))
    by (unfold PersonaValidator.isPersonaExistWithUser,
          PersonaCollection.findOneByPersonaId;
        rewrite Hfind, Huser, String.eqb_refl; reflexivity).
  rewrite (route_next _ _ _ _ _ (isValidName_next req db Hname)).
  rewrite (route_next PersonaValidator.isValidHandle)
    by (rewrite isValidHandle_eq; now rewrite Hh).
  assert (Hmw :
    PersonaValidator.isNewHandleNotAlreadyInUse (Some pid) req db
    = if String.eqb (handle p) h then Next
      else match find (fun q => String.eqb (handle q) h) (personas db) with
           | Some _ => Stop (reply 409 ErrorPayload)
           | None => Next
           end).
  { unfold PersonaValidator.isNewHandleNotAlreadyInUse,
      PersonaCollection.findOneByPersonaId.
    rewrite Hfind. fold h. rewrite (findOneByHandle_word h db Hh).
    now destruct (String.eqb (handle p) h),
      (find (fun q => String.eqb (handle q) h) (personas db)). }
  assert (Hok :
    route [] (PersonaRouter.updateHandler (Some pid)) req db
    = mkResult
        (reply 200
           (PersonaPayload
              (mkPersona pid (user p) h (body_name (body req)))))
        (setPersonas db
           (replaceFirst (fun q => persona_id q =? pid)
              (mkPersona pid (user p) h (body_name (body req)))
              (personas db)))
        (session req)).
  { cbn [route]. unfold PersonaRouter.updateHandler,
      PersonaCollection.updateOne.
    rewrite Hfind. cbn [details_name details_handle]. unfold h.
    rewrite !(valid_name_nonempty _ Hname), !(wordToken_nonempty _ Hh).
    cbv zeta iota.
    rewrite ?(valid_name_nonempty _ Hname), ?(wordToken_nonempty _ Hh).
    apply String.eqb_neq in Hune. rewrite Hune, Hpid. reflexivity. }
  assert (Hafter :
    find (fun q => persona_id q =? pid)
      (replaceFirst (fun q => persona_id q =? pid)
         (mkPersona pid (user p) h (body_name (body req))) (personas db))
    = Some (mkPersona pid (user p) h (body_name (body req)))
    /\ forall q, q <> pid ->
         find (fun x => persona_id x =? q)
           (replaceFirst (fun x => persona_id x =? pid)
              (mkPersona pid (user p) h (body_name (body req)))
              (personas db))
         = find (fun x => persona_id x =? q) (personas db)).
  { destruct (find_split _ _ _ Hfind) as (l1 & l2 & Hl & Hp & Hl1).
    rewrite Hl.
    rewrite (replaceFirst_split (fun q => persona_id q =? pid) _ _ p _ Hp
               Hl1).
    split.
    - rewrite (find_app_skip _ _ _ Hl1). cbn. now rewrite Nat.eqb_refl.
    - intros q Hq.
      rewrite !find_middle_skip; [reflexivity | |].
      + rewrite Hpid. now apply Nat.eqb_neq, Nat.neq_sym.
      + cbn. now apply Nat.eqb_neq, Nat.neq_sym. }
  destruct (String.eqb (handle p) h) eqn:Hsame.
  - apply String.eqb_eq in Hsame.
    rewrite (route_next _ _ _ _ _ Hmw), Hok. cbn.
    split; [| split]; [| discriminate | intros _; now split].
    split; [discriminate | intros [Hne _]; now contradiction Hne].
  - apply String.eqb_neq in Hsame.
    destruct (find (fun q => String.eqb (handle q) h) (personas db))
      as [q |] eqn:Htaken.
    + rewrite (route_stop _ _ _ _ _ _ Hmw). cbn.
      apply find_handle_some in Htaken as [Hin Hq].
      split; [| split]; [| reflexivity | intro H; now contradiction H].
      split; [intros _; split; [assumption | now exists q] | reflexivity].
    + rewrite (route_next _ _ _ _ _ Hmw), Hok. cbn.
      split; [| split]; [| discriminate | intros _; now split].
      split; [discriminate |].
      intros [_ (q & Hin & Hq)].
      now contradiction (find_handle_none _ _ Htaken q Hin).
Qed.

Lemma update_conflict_iff_other_handle_taken_witness :
  let req := Fixture.updateRequest Sample.asBob "amy" "bob" "Alice B" in
  userId (session req) <> None
  /\ PersonaCollection.findOneByPersonaId 1 Sample.db2 = Some Sample.alice
  /\ user Sample.alice = body_username (body req)
  /\ user Sample.alice <> EmptyString
  /\ RegExp.test PersonaValidator.nameRegex (body_name (body req)) = true
  /\ wordToken (body_handle (body req)) = true
  /\ (let h := body_handle (body req) in
      let r := PersonaRouter.update (Some 1) req Sample.db2 in
      (statusOf r = Some 409
       <-> handle Sample.alice <> h
           /\ exists q, In q (personas Sample.db2) /\ handle q = h)
      /\ (statusOf r = Some 409 -> db_after r = Sample.db2)
      /\ (statusOf r <> Some 409 ->
          statusOf r = Some 200
          /\ PersonaCollection.findOneByPersonaId 1 (db_after r)
             = Some (mkPersona 1 (user Sample.alice) h
                       (body_name (body req)))
          /\ forall q, q <> 1 ->
               PersonaCollection.findOneByPersonaId q (db_after r)
               = PersonaCollection.findOneByPersonaId q Sample.db2)).
Proof.
  intro req.
  split; [discriminate |]. split; [reflexivity |]. split; [reflexivity |].
  split; [discriminate |]. split; [reflexivity |]. split; [reflexivity |].
  apply (update_conflict_iff_other_handle_taken 1 Sample.alice req
           Sample.db2);
    [discriminate | reflexivity | reflexivity | discriminate
    | reflexivity | reflexivity].
Defined.

(** X8.  Whatever the request, the update route keeps the registry
    sound: stored handles stay word tokens and pairwise different, and
    identifiers stay unique and below the counter. *)
Theorem update_keeps_registry_sound
  (param : option ObjectId) (req : Request) (db : Db) :
  handlesValid db = true ->
  handlesDistinct db = true ->
  idsOk db = true ->
  let db' := db_after (PersonaRouter.update param req db) in
  handlesValid db' = true /\ handlesDistinct db' = true /\ idsOk db' = true.
Proof.
  intros Hvalid Hdist Hids db'. subst db'.
  destruct (update_cases param req db)
    as [(-> & _ & _) | (pid & p & _ & Hfind & _ & Hh & Hfree & ->)];
    [now repeat split |].
  destruct (find_split _ _ _ Hfind) as (l1 & l2 & Hl & Hp & Hl1).
  cbn [db_after].
  split; [| split].
  - unfold handlesValid in *. cbn.
    rewrite Hl.
    rewrite (replaceFirst_split (fun q => persona_id q =? pid) _ _ p _ Hp
               Hl1).
    rewrite Hl in Hvalid. rewrite forallb_app in *. cbn in *.
    apply andb_true_iff in Hvalid as [H1 H2].
    apply andb_true_iff in H2 as [_ H2]. now rewrite H1, Hh, H2.
  - apply handlesDistinct_NoDup in Hdist. apply handlesDistinct_NoDup.
    cbn. rewrite Hl.
    rewrite (replaceFirst_split (fun q => persona_id q =? pid) _ _ p _ Hp
               Hl1).
    rewrite Hl in Hdist. rewrite map_app in *. cbn in *.
    apply (NoDup_replace_middle _ _ (handle p)); [assumption |].
    destruct Hfree as [<- | Hnone]; [now left | right].
    apply find_handle_none_notin in Hnone.
    now rewrite Hl, map_app in Hnone.
  - rewrite <- Hids. apply idsOk_ext; cbn; try reflexivity.
    rewrite Hl.
    rewrite (replaceFirst_split (fun q => persona_id q =? pid) _ _ p _ Hp
               Hl1).
    rewrite !map_app.
    reflexivity.
Qed.

Lemma update_keeps_registry_sound_witness :
  let req := Fixture.updateRequest Sample.asBob "amy" "alicia" "Alice B" in
  handlesValid Sample.db2 = true
  /\ handlesDistinct Sample.db2 = true
  /\ idsOk Sample.db2 = true
  /\ (let db' := db_after (PersonaRouter.update (Some 1) req Sample.db2) in
      handlesValid db' = true /\ handlesDistinct db' = true
      /\ idsOk db' = true).
Proof.
  intro req.
  split; [reflexivity |]. split; [reflexivity |]. split; [reflexivity |].
  apply (update_keeps_registry_sound (Some 1) req Sample.db2); reflexivity.
Defined.

(* ------------------------------------------------------------------ *)
(** * Deleting personas, and routes one after the other                 *)
(* ------------------------------------------------------------------ *)

Module LifecycleFacts.

(** The store a deletion request leaves behind. *)
Lemma delete_db_after (req : Request) (db : Db) :
  db_after (PersonaRouter.delete req db) = db
  \/ exists pid,
       db_after (PersonaRouter.delete req db)
       = setPersonas db
           (removeFirst (fun p => persona_id p =? pid) (personas db)).
Proof.
  unfold PersonaRouter.delete, route.
  destruct (UserValidator.isUserLoggedIn req db); [| now left].
  destruct (PersonaValidator.isPersonaQueryExists req db); [| now left].
  unfold PersonaRouter.deleteHandler.
  destruct (query_personaId req) as [pid |]; [| now left].
  destruct (match personaId (session req) with
            | Some active => query_asStored req && (pid =? active)
            | None => false
            end); [now left |].
  right. now exists pid.
Qed.

(** A creation answered 201: who asked was logged in, the persona was
    appended under the next identifier, its identifier went to
    [personId]. *)
Lemma create_201_inv (req : Request) (db : Db) :
  statusOf (PersonaRouter.create req db) = Some 201 ->
  userId (session req) <> None
  /\ db_after (PersonaRouter.create req db)
     = mkDb (users db)
            (personas db
             ++ [mkPersona (nextId db) (body_username (body req))
                   (body_handle (body req)) (body_name (body req))])
            (follows db) (S (nextId db))
  /\ session_after (PersonaRouter.create req db)
     = setPersonId (session req) (nextId db).
Proof.
  unfold PersonaRouter.create, route, UserValidator.isUserLoggedIn.
  destruct (userId (session req)); [| discriminate].
  unfold PersonaValidator.isValidName, PersonaValidator.nameCheck,
    PersonaValidator.tested.
  destruct (negb (RegExp.test PersonaValidator.nameRegex
                    (body_name (body req)))); [discriminate |].
  unfold PersonaValidator.isValidHandle, PersonaValidator.handleCheck,
    PersonaValidator.tested.
  destruct (negb (RegExp.test PersonaValidator.handleRegex
                    (body_handle (body req)))); [discriminate |].
  unfold PersonaValidator.isHandleNotAlreadyInUse.
  destruct (PersonaCollection.findOneByHandle (body_handle (body req)) db)
    as [[q |] |]; try discriminate.
  unfold PersonaRouter.createHandler, PersonaCollection.addOne.
  destruct (String.eqb (body_username (body req)) EmptyString
            || String.eqb (body_handle (body req)) EmptyString
            || String.eqb (body_name (body req)) EmptyString);
    [discriminate |].
  intros _. repeat split. discriminate.
Qed.

Lemma removeFirst_snoc_fresh (n : ObjectId) (ps : list Persona) (p : Persona) :
  (forall q, In q ps -> persona_id q < n) -> persona_id p = n ->
  removeFirst (fun q => persona_id q =? n) (ps ++ [p]) = ps.
Proof.
  intros Hfresh Hp. induction ps as [| q ps IH]; simpl.
  - now rewrite Hp, Nat.eqb_refl.
  - assert (Hq : persona_id q < n) by (apply Hfresh; now left).
    apply Nat.lt_neq, Nat.eqb_neq in Hq. rewrite Hq. f_equal.
    apply IH. intros x Hx. apply Hfresh. now right.
Qed.

Lemma find_id_in (ps : list Persona) (q : Persona) :
  In q ps -> find (fun p => persona_id p =? persona_id q) ps <> None.
Proof.
  intros Hin Hnone. apply (find_none _ _ Hnone) in Hin.
  now rewrite Nat.eqb_refl in Hin.
Qed.

(** A sign-in answered 200 bound the session to a stored persona. *)
Lemma signIn_200_inv (req : Request) (db : Db) :
  statusOf (PersonaRouter.signIn req db) = Some 200 ->
  userId (session req) <> None
  /\ exists q, In q (personas db)
               /\ session_after (PersonaRouter.signIn req db)
                  = setPersonaId (session req) (persona_id q).
Proof.
  unfold PersonaRouter.signIn, route, UserValidator.isUserLoggedIn.
  destruct (userId (session req)) as [uid |] eqn:Huid; [| discriminate].
  unfold PersonaValidator.isValidHandle, PersonaValidator.handleCheck,
    PersonaValidator.tested.
  destruct (negb (RegExp.test PersonaValidator.handleRegex
                    (body_handle (body req)))); [discriminate |].
  unfold PersonaValidator.isPersonaHandleExistWithUser. rewrite Huid.
  destruct (UserCollection.findOneByUserId uid db) as [u |];
    [| discriminate].
  destruct (PersonaCollection.findOneByUserAndHandle (username u)
              (body_handle (body req)) db) as [[owned |] |];
    try discriminate.
  unfold PersonaRouter.signInHandler, PersonaCollection.findOneByHandle.
  destruct (anchored (body_handle (body req))) as [re |]; [| discriminate].
  destruct (find (fun p => RegExp.test re (handle p)) (personas db))
    as [q |] eqn:Hq; [| discriminate].
  intros _. split; [discriminate |]. exists q.
  apply find_some in Hq as [Hin _]. now split.
Qed.

Lemma filter_owner_other (u v : string) (ps : list Persona) :
  v <> u ->
  filter (fun p => String.eqb (user p) v)
         (filter (fun p => negb (String.eqb (user p) u)) ps)
  = filter (fun p => String.eqb (user p) v) ps.
Proof.
  intro Hvu. induction ps as [| p ps IH]; simpl; [reflexivity |].
  destruct (String.eqb (user p) u) eqn:Hu; simpl.
  - apply String.eqb_eq in Hu.
    destruct (String.eqb (user p) v) eqn:Hv; [| exact IH].
    apply String.eqb_eq in Hv. congruence.
  - now rewrite IH.
Qed.

Lemma filter_owner_same (u : string) (ps : list Persona) :
  filter (fun p => String.eqb (user p) u)
         (filter (fun p => negb (String.eqb (user p) u)) ps) = [].
Proof.
  induction ps as [| p ps IH]; simpl; [reflexivity |].
  destruct (String.eqb (user p) u) eqn:Hu; simpl; [exact IH |].
  now rewrite Hu.
Qed.

Lemma findAllByUsername_word (u : string) (db : Db) :
  wordToken u = true ->
  PersonaCollection.findAllByUsername u db
  = Some (filter (fun p => String.eqb (user p) u) (personas db)).
Proof.
  intro Hu. unfold PersonaCollection.findAllByUsername.
  rewrite (anchored_word u Hu). f_equal.
  apply filter_ext. intro p. apply test_literal.
Qed.

End LifecycleFacts.

Import LifecycleFacts.

(** X9.  Whatever the request, the deletion route keeps the registry
    sound (handles word tokens and pairwise different, identifiers
    unique and below the counter) and never touches the follow
    collection. *)
Theorem delete_keeps_registry_sound (req : Request) (db : Db) :
  handlesValid db = true ->
  handlesDistinct db = true ->
  idsOk db = true ->
  let db' := db_after (PersonaRouter.delete req db) in
  handlesValid db' = true /\ handlesDistinct db' = true /\ idsOk db' = true
  /\ follows db' = follows db.
Proof.
  intros Hvalid Hdist Hids db'. subst db'.
  destruct (delete_db_after req db) as [-> | (pid & ->)];
    [now repeat split |].
  apply handlesDistinct_NoDup in Hdist.
  apply idsOk_spec in Hids as (Hp & Hf & Hpl & Hfl).
  split; [| split; [| split; [| reflexivity]]].
  - unfold handlesValid in *. cbn. rewrite forallb_forall in *.
    intros p Hin. apply Hvalid. now apply In_removeFirst in Hin.
  - apply handlesDistinct_NoDup. cbn. now apply NoDup_map_removeFirst.
  - apply idsOk_spec. cbn.
    split; [now apply NoDup_map_removeFirst |]. split; [assumption |].
    split; [| assumption].
    intros p Hin. apply Hpl. now apply In_removeFirst in Hin.
Qed.

Lemma delete_keeps_registry_sound_witness :
  let req := deletePersonaRequest Sample.asCarol 2 in
  handlesValid Sample.db2 = true
  /\ handlesDistinct Sample.db2 = true
  /\ idsOk Sample.db2 = true
  /\ (let db' := db_after (PersonaRouter.delete req Sample.db2) in
      handlesValid db' = true /\ handlesDistinct db' = true
      /\ idsOk db' = true /\ follows db' = follows Sample.db2).
Proof.
  intro req.
  split; [reflexivity |]. split; [reflexivity |]. split; [reflexivity |].
  apply (delete_keeps_registry_sound req Sample.db2); reflexivity.
Defined.

(** X10.  Creating a persona and deleting it at once, from the same
    session, gives the persona collection back as it was: creation
    binds nothing, so the new persona is not the active one and its
    deletion is answered 200.  The identifiers must be below the counter
    and the active persona, if there is one, a stored persona. *)
Theorem create_then_delete_restores_personas (req : Request) (db : Db) :
  idsOk db = true ->
  (forall a, personaId (session req) = Some a ->
             PersonaCollection.findOneByPersonaId a db <> None) ->
  statusOf (PersonaRouter.create req db) = Some 201 ->
  let r1 := PersonaRouter.create req db in
  let r2 := PersonaRouter.delete
              (deletePersonaRequest (session_after r1) (nextId db))
              (db_after r1) in
  statusOf r2 = Some 200
  /\ personas (db_after r2) = personas db
  /\ follows (db_after r2) = follows db.
Proof.
  intros Hids Hact H201 r1 r2. subst r1 r2.
  destruct (create_201_inv req db H201) as (Hlog & -> & ->).
  apply idsOk_spec in Hids as (_ & _ & Hpl & _).
  set (p := mkPersona (nextId db) (body_username (body req))
              (body_handle (body req)) (body_name (body req))).
  set (db1 := mkDb (users db) (personas db ++ [p]) (follows db)
                  (S (nextId db))).
  set (req2 := deletePersonaRequest (setPersonId (session req) (nextId db))
                 (nextId db)).
  unfold PersonaRouter.delete.
  rewrite (route_next UserValidator.isUserLoggedIn)
    by (apply isUserLoggedIn_next; exact Hlog).
  rewrite (route_next PersonaValidator.isPersonaQueryExists).
  2:{ apply (isPersonaQueryExists_next req2 db1 (nextId db) eq_refl).
      unfold PersonaCollection.findOneByPersonaId. cbn.
      rewrite find_snoc. cbn. rewrite Nat.eqb_refl.
      now destruct (find _ (personas db)). }
  cbn [route]. unfold PersonaRouter.deleteHandler. cbn.
  assert (Hne : match personaId (session req) with
                | Some active => nextId db =? active
                | None => false
                end = false).
  { destruct (personaId (session req)) as [a |] eqn:Ha; [| reflexivity].
    apply Nat.eqb_neq. intros <-.
    specialize (Hact _ eq_refl).
    unfold PersonaCollection.findOneByPersonaId in Hact.
    destruct (find (fun q => persona_id q =? nextId db) (personas db))
      as [q |] eqn:Hq; [| now contradiction Hact].
    apply find_some in Hq as [Hin E]. apply Nat.eqb_eq in E.
    apply Hpl in Hin. lia. }
  rewrite Hne. cbn.
  split; [reflexivity |]. split; [| reflexivity].
  now apply removeFirst_snoc_fresh.
Qed.

Lemma create_then_delete_restores_personas_witness :
  let req := createRequest Sample.asAlice "amy" "dora" "Dora D" in
  idsOk Sample.db2 = true
  /\ (forall a, personaId (session req) = Some a ->
                PersonaCollection.findOneByPersonaId a Sample.db2 <> None)
  /\ statusOf (PersonaRouter.create req Sample.db2) = Some 201
  /\ (let r1 := PersonaRouter.create req Sample.db2 in
      let r2 := PersonaRouter.delete
                  (deletePersonaRequest (session_after r1)
                     (nextId Sample.db2))
                  (db_after r1) in
      statusOf r2 = Some 200
      /\ personas (db_after r2) = personas Sample.db2
      /\ follows (db_after r2) = follows Sample.db2).
Proof.
  intro req.
  assert (Hact : forall a, personaId (session req) = Some a ->
            PersonaCollection.findOneByPersonaId a Sample.db2 <> None).
  { intros a Ha. injection Ha as <-. discriminate. }
  split; [reflexivity |]. split; [exact Hact |]. split; [reflexivity |].
  apply (create_then_delete_restores_personas req Sample.db2);
    [reflexivity | exact Hact | reflexivity].
Defined.

(** X11.  After a sign-in answered 200 the session is bound to a stored
    persona, and a request of that session to delete this persona, its
    identifier written as the session holds it, is answered 401 and
    changes nothing. *)
Theorem signIn_then_delete_is_forbidden (req : Request) (db : Db) :
  statusOf (PersonaRouter.signIn req db) = Some 200 ->
  let s := session_after (PersonaRouter.signIn req db) in
  exists a,
    personaId s = Some a
    /\ PersonaCollection.findOneByPersonaId a db <> None
    /\ query_asStored (deletePersonaRequest s a) = true
    /\ statusOf (PersonaRouter.delete (deletePersonaRequest s a) db)
       = Some 401
    /\ db_after (PersonaRouter.delete (deletePersonaRequest s a) db) = db.
Proof.
  intros H200 s. subst s.
  destruct (signIn_200_inv req db H200) as (Hlog & q & Hin & ->).
  exists (persona_id q).
  pose proof (find_id_in _ _ Hin) as Hex.
  split; [reflexivity |]. split; [exact Hex |]. split; [reflexivity |].
  set (req2 := deletePersonaRequest
                 (setPersonaId (session req) (persona_id q)) (persona_id q)).
  destruct (delete_active_no_mutation req2 db (persona_id q)
              eq_refl eq_refl eq_refl) as [Hdb _].
  split; [| exact Hdb].
  unfold PersonaRouter.delete.
  rewrite (route_next UserValidator.isUserLoggedIn)
    by (apply isUserLoggedIn_next; exact Hlog).
  rewrite (route_next _ _ _ _ _
             (isPersonaQueryExists_next req2 db (persona_id q) eq_refl Hex)).
  cbn [route]. unfold PersonaRouter.deleteHandler. cbn.
  now rewrite Nat.eqb_refl.
Qed.

Lemma signIn_then_delete_is_forbidden_witness :
  let req := signInRequest Sample.amyOnly "carol" in
  statusOf (PersonaRouter.signIn req Sample.db0) = Some 200
  /\ (let s := session_after (PersonaRouter.signIn req Sample.db0) in
      exists a,
        personaId s = Some a
        /\ PersonaCollection.findOneByPersonaId a Sample.db0 <> None
        /\ query_asStored (deletePersonaRequest s a) = true
        /\ statusOf (PersonaRouter.delete (deletePersonaRequest s a)
                       Sample.db0) = Some 401
        /\ db_after (PersonaRouter.delete (deletePersonaRequest s a)
                       Sample.db0) = Sample.db0).
Proof.
  intro req. split; [reflexivity |].
  apply (signIn_then_delete_is_forbidden req Sample.db0). reflexivity.
Defined.

(** X12.  Deleting all the personas of a stored user whose username is a
    word token leaves exactly the personas of the other owners, in
    order: the user's listing is then empty, the listing of any other
    word-token username is as before, and the follow collection is
    untouched, edges of the deleted personas included. *)
Theorem deleteMany_removes_owner_personas
  (uid : ObjectId) (u : User) (db : Db) :
  UserCollection.findOneByUserId uid db = Some u ->
  wordToken (username u) = true ->
  exists db',
    PersonaCollection.deleteMany uid db = Some (true, db')
    /\ (forall p, In p (personas db')
                  <-> In p (personas db) /\ user p <> username u)
    /\ PersonaCollection.findAllByUsername (username u) db' = Some []
    /\ (forall v, wordToken v = true -> v <> username u ->
          PersonaCollection.findAllByUsername v db'
          = PersonaCollection.findAllByUsername v db)
    /\ follows db' = follows db.
Proof.
  intros Hu Hw. unfold PersonaCollection.deleteMany. rewrite Hu.
  eexists. split; [reflexivity |]. cbn.
  split; [| split; [| split; [| reflexivity]]].
  - intro p. rewrite filter_In, negb_true_iff. split.
    + intros [Hin Hne]. split; [assumption |]. now apply String.eqb_neq.
    + intros [Hin Hne]. split; [assumption |]. now apply String.eqb_neq.
  - rewrite (findAllByUsername_word _ _ Hw). cbn. f_equal.
    apply filter_owner_same.
  - intros v Hv Hne. rewrite !(findAllByUsername_word _ _ Hv). cbn.
    f_equal. now apply filter_owner_other.
Qed.

Lemma deleteMany_removes_owner_personas_witness :
  UserCollection.findOneByUserId 100 Sample.db2 = Some Sample.amy
  /\ wordToken (username Sample.amy) = true
  /\ exists db',
       PersonaCollection.deleteMany 100 Sample.db2 = Some (true, db')
       /\ (forall p, In p (personas db')
                     <-> In p (personas Sample.db2)
                         /\ user p <> username Sample.amy)
       /\ PersonaCollection.findAllByUsername (username Sample.amy) db'
          = Some []
       /\ (forall v, wordToken v = true -> v <> username Sample.amy ->
             PersonaCollection.findAllByUsername v db'
             = PersonaCollection.findAllByUsername v Sample.db2)
       /\ follows db' = follows Sample.db2.
Proof.
  split; [reflexivity |]. split; [reflexivity |].
  apply (deleteMany_removes_owner_personas 100 Sample.amy Sample.db2);
    reflexivity.
Defined.

(* ------------------------------------------------------------------ *)
(** * Invariants and round trips of the follow graph                    *)
(* ------------------------------------------------------------------ *)

Module GraphFacts.

Lemma edgesDistinct_NoDup (db : Db) :
  edgesDistinct db = true <-> NoDup (map edgeOf (follows db)).
Proof. apply (distinctBy_NoDup pairEqb pairEqb_eq). Qed.

Lemma answered_iff (r : Result) (n : nat) :
  answered r n = true <-> statusOf r = Some n.
Proof.
  unfold answered. destruct (statusOf r) as [m |].
  - rewrite Nat.eqb_eq. split; [now intros -> | now intros [= ->]].
  - split; discriminate.
Qed.

Lemma no_edge_notin (a b : ObjectId) (db : Db) :
  FollowCollection.findOneByPartyIds a b db = None ->
  ~ In (a, b) (map edgeOf (follows db)).
Proof.
  unfold FollowCollection.findOneByPartyIds. intros H Hin.
  apply in_map_iff in Hin as (f & Hf & Hin).
  apply (find_none _ _ H) in Hin. unfold edgeOf in Hf.
  injection Hf as E1 E2. now rewrite E1, E2, !Nat.eqb_refl in Hin.
Qed.

(** The store a request to follow leaves behind: the same store, or one
    more edge, under the next identifier, for a pair that had none. *)
Lemma follow_cases (req : Request) (db : Db) :
  db_after (FollowRouter.follow req db) = db
  \/ exists a b,
       FollowCollection.findOneByPartyIds a b db = None
       /\ db_after (FollowRouter.follow req db)
          = mkDb (users db) (personas db)
                 (follows db ++ [mkFollow (nextId db) a b (now req)])
                 (S (nextId db)).
Proof.
  rewrite follow_db_after.
  destruct (answered (FollowRouter.follow req db) 201) eqn:E; [| now left].
  destruct (personaId (session req)) as [a |] eqn:Ha; [| now left].
  destruct (body_personaId (body req)) as [b |] eqn:Hb; [| now left].
  apply answered_iff in E.
  destruct (follow_201_inv req db a b Ha Hb E) as (_ & _ & Hfree & _).
  right. now exists a, b.
Qed.

(** The store a request to unfollow leaves behind. *)
Lemma unfollow_cases (req : Request) (db : Db) :
  db_after (FollowRouter.unfollow req db) = db
  \/ exists fid,
       db_after (FollowRouter.unfollow req db)
       = setFollows db
           (removeFirst (fun f => follow_id f =? fid) (follows db)).
Proof.
  unfold FollowRouter.unfollow, route.
  destruct (UserValidator.isUserLoggedIn req db); [| now left].
  destruct (PersonaValidator.isPersonaSignedIn req db); [| now left].
  destruct (PersonaValidator.isPersonaQueryExists req db); [| now left].
  destruct (FollowValidator.isFollowExistUnderSignedInPersona req db);
    [| now left].
  unfold FollowRouter.unfollowHandler.
  destruct (personaId (session req)) as [a |],
    (query_personaId req) as [b |]; try (now left).
  destruct (FollowCollection.findOneByPartyIds a b db) as [f |];
    [| now left].
  right. now exists (follow_id f).
Qed.

Lemma removeFirst_snoc_key {A : Type} (key : A -> nat) (n : nat)
  (l : list A) (x : A) :
  (forall y, In y l -> key y < n) -> key x = n ->
  removeFirst (fun y => key y =? n) (l ++ [x]) = l.
Proof.
  intros Hfresh Hx. induction l as [| y l IH]; simpl.
  - now rewrite Hx, Nat.eqb_refl.
  - assert (Hy : key y < n) by (apply Hfresh; now left).
    apply Nat.lt_neq, Nat.eqb_neq in Hy. rewrite Hy. f_equal.
    apply IH. intros z Hz. apply Hfresh. now right.
Qed.

Lemma forallb_insertDesc {A : Type} (key : A -> nat) (f : A -> bool)
  (x : A) (l : list A) :
  forallb f (insertDesc key x l) = f x && forallb f l.
Proof.
  induction l as [| y l IH]; simpl; [reflexivity |].
  destruct (key y <? key x); simpl; [reflexivity |].
  rewrite IH. now destruct (f x), (f y).
Qed.

Lemma forallb_le_weaken {A : Type} (key : A -> nat) (m n : nat)
  (l : list A) :
  m <= n ->
  forallb (fun y => key y <=? m) l = true ->
  forallb (fun y => key y <=? n) l = true.
Proof.
  intros Hmn. rewrite !forallb_forall. intros H y Hy.
  apply Nat.leb_le. apply H, Nat.leb_le in Hy. lia.
Qed.

Lemma insertDesc_sorted {A : Type} (key : A -> nat) (x : A) (l : list A) :
  sortedDesc key l = true -> sortedDesc key (insertDesc key x l) = true.
Proof.
  induction l as [| y l IH]; simpl; [reflexivity |].
  intro H. apply andb_true_iff in H as [Hall Hs].
  destruct (key y <? key x) eqn:E; simpl.
  - apply Nat.ltb_lt in E. rewrite Hall, Hs, andb_true_r.
    rewrite (forallb_le_weaken key (key y) (key x) l) by (lia || assumption).
    rewrite andb_true_r. apply Nat.leb_le. lia.
  - apply Nat.ltb_ge in E. rewrite forallb_insertDesc, Hall, (IH Hs).
    rewrite !andb_true_r. now apply Nat.leb_le.
Qed.

Lemma insertDesc_perm {A : Type} (key : A -> nat) (x : A) (l : list A) :
  Permutation (insertDesc key x l) (x :: l).
Proof.
  induction l as [| y l IH]; simpl; [reflexivity |].
  destruct (key y <? key x); [reflexivity |].
  rewrite IH. apply perm_swap.
Qed.

Lemma sortDesc_sorted {A : Type} (key : A -> nat) (l : list A) :
  sortedDesc key (sortDesc key l) = true.
Proof.
  induction l as [| x l IH]; [reflexivity |].
  simpl. now apply insertDesc_sorted.
Qed.

Lemma sortDesc_perm {A : Type} (key : A -> nat) (l : list A) :
  Permutation (sortDesc key l) l.
Proof.
  induction l as [| x l IH]; [reflexivity |].
  simpl. rewrite insertDesc_perm. now constructor.
Qed.

Lemma sortByDateDesc_eq (l : list Follow) :
  FollowCollection.sortByDateDesc l = sortDesc dateFollowed l.
Proof.
  unfold FollowCollection.sortByDateDesc, sortDesc.
  induction l as [| f l IH]; [reflexivity |]. simpl. rewrite IH.
  generalize (fold_right (insertDesc dateFollowed) [] l). intro m.
  induction m as [| g m IHm]; simpl; [reflexivity | now rewrite IHm].
Qed.

Lemma newestFirst_eq (l : list Follow) :
  newestFirst l = sortedDesc dateFollowed l.
Proof.
  induction l as [| f l IH]; simpl; [reflexivity | now rewrite IH].
Qed.

Lemma listing_snoc (p : ObjectId) (db : Db) (f : Follow) :
  let db' := mkDb (users db) (personas db) (follows db ++ [f])
                  (S (nextId db)) in
  FollowCollection.findAllInitiatedById p db'
  = FollowCollection.findAllInitiatedById p db
    ++ (if followerId f =? p then [f] else [])
  /\ FollowCollection.findAllReceivedById p db'
     = FollowCollection.findAllReceivedById p db
       ++ (if followingId f =? p then [f] else []).
Proof.
  unfold FollowCollection.findAllInitiatedById,
    FollowCollection.findAllReceivedById. cbn.
  rewrite !filter_app. cbn.
  now destruct (followerId f =? p), (followingId f =? p).
Qed.

End GraphFacts.

Import GraphFacts.

(** X13.  Whatever the request, the route that creates a follow keeps
    the graph sound: if no two stored edges join the same ordered pair
    and the identifiers are unique and below the counter, the same
    holds afterwards, and no persona is touched. *)
Theorem follow_keeps_graph_sound (req : Request) (db : Db) :
  edgesDistinct db = true ->
  idsOk db = true ->
  let db' := db_after (FollowRouter.follow req db) in
  edgesDistinct db' = true /\ idsOk db' = true
  /\ personas db' = personas db.
Proof.
  intros Hdist Hids db'. subst db'.
  destruct (follow_cases req db) as [-> | (a & b & Hfree & ->)];
    [now repeat split |].
  apply edgesDistinct_NoDup in Hdist.
  apply idsOk_spec in Hids as (Hp & Hf & Hpl & Hfl).
  split; [| split; [| reflexivity]].
  - apply edgesDistinct_NoDup. cbn. rewrite map_app. cbn.
    apply NoDup_snoc; [assumption | now apply no_edge_notin].
  - apply idsOk_spec. cbn. rewrite map_app. cbn.
    split; [assumption |]. split.
    + apply NoDup_snoc; [assumption |]. intro Hin.
      apply in_map_iff in Hin as (f & Hid & Hin). apply Hfl in Hin. lia.
    + split.
      * intros p Hin. apply Hpl in Hin. lia.
      * intros f Hin. apply in_app_iff in Hin as [Hin | [<- | []]];
          [apply Hfl in Hin; lia | cbn; lia].
Qed.

Lemma follow_keeps_graph_sound_witness :
  let req := followRequest Sample.asBob 1 30 in
  edgesDistinct Sample.db2 = true
  /\ idsOk Sample.db2 = true
  /\ (let db' := db_after (FollowRouter.follow req Sample.db2) in
      edgesDistinct db' = true /\ idsOk db' = true
      /\ personas db' = personas Sample.db2).
Proof.
  intro req. split; [reflexivity |]. split; [reflexivity |].
  apply (follow_keeps_graph_sound req Sample.db2); reflexivity.
Defined.

(** X14.  Whatever the request, the route that removes a follow keeps
    the graph sound as well, and touches no persona. *)
Theorem unfollow_keeps_graph_sound (req : Request) (db : Db) :
  edgesDistinct db = true ->
  idsOk db = true ->
  let db' := db_after (FollowRouter.unfollow req db) in
  edgesDistinct db' = true /\ idsOk db' = true
  /\ personas db' = personas db.
Proof.
  intros Hdist Hids db'. subst db'.
  destruct (unfollow_cases req db) as [-> | (fid & ->)];
    [now repeat split |].
  apply edgesDistinct_NoDup in Hdist.
  apply idsOk_spec in Hids as (Hp & Hf & Hpl & Hfl).
  split; [| split; [| reflexivity]].
  - apply edgesDistinct_NoDup. cbn. now apply NoDup_map_removeFirst.
  - apply idsOk_spec. cbn. split; [assumption |].
    split; [now apply NoDup_map_removeFirst |]. split; [assumption |].
    intros f Hin. apply Hfl. now apply In_removeFirst in Hin.
Qed.

Lemma unfollow_keeps_graph_sound_witness :
  let req := unfollowRequest Sample.asAlice 2 (Some 2) in
  edgesDistinct Sample.db2 = true
  /\ idsOk Sample.db2 = true
  /\ (let db' := db_after (FollowRouter.unfollow req Sample.db2) in
      edgesDistinct db' = true /\ idsOk db' = true
      /\ personas db' = personas Sample.db2).
Proof.
  intro req. split; [reflexivity |]. split; [reflexivity |].
  apply (unfollow_keeps_graph_sound req Sample.db2); reflexivity.
Defined.

(** X15.  In a sound graph, a logged-in request of the active persona
    [a] to unfollow the stored persona [b], naming [b] in the query and
    in the body, with an edge from [a] to [b] stored, is answered 200;
    afterwards no edge from [a] to [b] is found, none is listed among
    the edges [a] initiated, and every other ordered pair resolves as
    before. *)
Theorem unfollow_removes_the_edge
  (req : Request) (db : Db) (a b : ObjectId) (f : Follow) :
  userId (session req) <> None ->
  personaId (session req) = Some a ->
  query_personaId req = Some b ->
  body_personaId (body req) = Some b ->
  PersonaCollection.findOneByPersonaId b db <> None ->
  FollowCollection.findOneByPartyIds a b db = Some f ->
  edgesDistinct db = true ->
  followIdsUnique db = true ->
  let r := FollowRouter.unfollow req db in
  statusOf r = Some 200
  /\ FollowCollection.findOneByPartyIds a b (db_after r) = None
  /\ forallb (fun g => negb (followingId g =? b))
       (FollowCollection.findAllInitiatedById a (db_after r)) = true
  /\ (forall c d, (c, d) <> (a, b) ->
        FollowCollection.findOneByPartyIds c d (db_after r)
        = FollowCollection.findOneByPartyIds c d db)
  /\ personas (db_after r) = personas db.
Proof.
  intros Hlog Ha Hq Hb Hex Hedge Hdist Hids r. subst r.
  rewrite (unfollow_body_matches_query req db a b Hlog Ha Hq Hb Hex), Hedge.
  apply edgesDistinct_NoDup in Hdist.
  unfold followIdsUnique in Hids. apply distinct_NoDup in Hids.
  unfold FollowCollection.findOneByPartyIds,
    FollowCollection.findAllInitiatedById in *.
  destruct (find_split _ _ _ Hedge) as (l1 & l2 & Hl & Hf & Hl1).
  apply andb_true_iff in Hf as [Hfa Hfb]. apply Nat.eqb_eq in Hfa, Hfb.
  cbn. rewrite Hl in *.
  assert (Hrm : removeFirst (fun g => follow_id g =? follow_id f)
                  (l1 ++ f :: l2) = l1 ++ l2).
  { apply removeFirst_split; [apply Nat.eqb_refl |].
    rewrite map_app in Hids. cbn in Hids.
    apply NoDup_remove_2 in Hids.
    apply forallb_forall. intros g Hg. apply negb_true_iff, Nat.eqb_neq.
    intro E. apply Hids. apply in_app_iff. left.
    rewrite <- E. now apply in_map. }
  rewrite Hrm.
  assert (Hgone : forall g, In g (l1 ++ l2) -> edgeOf g <> (a, b)).
  { intros g Hg E. rewrite map_app in Hdist. cbn in Hdist.
    apply NoDup_remove_2 in Hdist. apply Hdist.
    unfold edgeOf at 1. rewrite Hfa, Hfb, <- E, <- map_app.
    now apply in_map. }
  split; [reflexivity |]. split; [| split; [| split; [| reflexivity]]].
  - destruct (find _ (l1 ++ l2)) as [g |] eqn:Hg; [| reflexivity].
    apply find_some in Hg as [Hin E].
    apply andb_true_iff in E as [E1 E2]. apply Nat.eqb_eq in E1, E2.
    contradiction (Hgone g Hin). unfold edgeOf. now rewrite E1, E2.
  - apply forallb_forall. intros g Hg. apply filter_In in Hg as [Hin E].
    apply Nat.eqb_eq in E. apply negb_true_iff, Nat.eqb_neq. intro E2.
    contradiction (Hgone g Hin). unfold edgeOf. now rewrite E, E2.
  - intros c d Hne. symmetry. apply find_middle_skip.
    apply andb_false_iff.
    destruct (followerId f =? c) eqn:E1; [| now left]. right.
    apply Nat.eqb_eq in E1. apply Nat.eqb_neq. intro E2.
    apply Hne. congruence.
Qed.

Lemma unfollow_removes_the_edge_witness :
  let req := unfollowRequest Sample.asAlice 2 (Some 2) in
  userId (session req) <> None
  /\ personaId (session req) = Some 1
  /\ query_personaId req = Some 2
  /\ body_personaId (body req) = Some 2
  /\ PersonaCollection.findOneByPersonaId 2 Sample.db2 <> None
  /\ FollowCollection.findOneByPartyIds 1 2 Sample.db2
     = Some (mkFollow 4 1 2 10)
  /\ edgesDistinct Sample.db2 = true
  /\ followIdsUnique Sample.db2 = true
  /\ (let r := FollowRouter.unfollow req Sample.db2 in
      statusOf r = Some 200
      /\ FollowCollection.findOneByPartyIds 1 2 (db_after r) = None
      /\ forallb (fun g => negb (followingId g =? 2))
           (FollowCollection.findAllInitiatedById 1 (db_after r)) = true
      /\ (forall c d, (c, d) <> (1, 2) ->
            FollowCollection.findOneByPartyIds c d (db_after r)
            = FollowCollection.findOneByPartyIds c d Sample.db2)
      /\ personas (db_after r) = personas Sample.db2).
Proof.
  intro req.
  split; [discriminate |]. split; [reflexivity |]. split; [reflexivity |].
  split; [reflexivity |]. split; [discriminate |]. split; [reflexivity |].
  split; [reflexivity |]. split; [reflexivity |].
  apply (unfollow_removes_the_edge req Sample.db2 1 2 (mkFollow 4 1 2 10));
    try reflexivity; discriminate.
Defined.

(** X16.  Following and unfollowing at once gives the follow collection
    back as it was: when a request of persona [a] to follow [b] has been
    answered 201 in a store whose identifiers are below the counter, the
    request of the same session to unfollow [b], naming [b] in the
    query and in the body, is answered 200 and removes exactly the new
    edge. *)
Theorem follow_then_unfollow_restores_edges
  (req : Request) (db : Db) (a b : ObjectId) :
  idsOk db = true ->
  personaId (session req) = Some a ->
  body_personaId (body req) = Some b ->
  statusOf (FollowRouter.follow req db) = Some 201 ->
  let db1 := db_after (FollowRouter.follow req db) in
  let r2 := FollowRouter.unfollow
              (unfollowRequest (session req) b (Some b)) db1 in
  statusOf r2 = Some 200
  /\ follows (db_after r2) = follows db
  /\ personas (db_after r2) = personas db.
Proof.
  intros Hids Ha Hb H201 db1 r2. subst db1 r2.
  destruct (follow_201_inv req db a b Ha Hb H201)
    as (Hlog & Hex & Hfree & ->).
  apply idsOk_spec in Hids as (_ & _ & _ & Hfl).
  set (f := mkFollow (nextId db) a b (now req)).
  set (db1 := mkDb (users db) (personas db) (follows db ++ [f])
                  (S (nextId db))).
  rewrite (unfollow_body_matches_query
             (unfollowRequest (session req) b (Some b)) db1 a b
             Hlog Ha eq_refl eq_refl Hex).
  assert (Hedge : FollowCollection.findOneByPartyIds a b db1 = Some f).
  { unfold db1. rewrite findOneByPartyIds_snoc, Hfree. cbn.
    now rewrite !Nat.eqb_refl. }
  rewrite Hedge. cbn.
  split; [reflexivity |]. split; [| reflexivity].
  now apply (removeFirst_snoc_key follow_id).
Qed.

Lemma follow_then_unfollow_restores_edges_witness :
  let req := followRequest Sample.asBob 1 30 in
  idsOk Sample.db2 = true
  /\ personaId (session req) = Some 2
  /\ body_personaId (body req) = Some 1
  /\ statusOf (FollowRouter.follow req Sample.db2) = Some 201
  /\ (let db1 := db_after (FollowRouter.follow req Sample.db2) in
      let r2 := FollowRouter.unfollow
                  (unfollowRequest (session req) 1 (Some 1)) db1 in
      statusOf r2 = Some 200
      /\ follows (db_after r2) = follows Sample.db2
      /\ personas (db_after r2) = personas Sample.db2).
Proof.
  intro req.
  split; [reflexivity |]. split; [reflexivity |]. split; [reflexivity |].
  split; [reflexivity |].
  apply (follow_then_unfollow_restores_edges req Sample.db2 2 1);
    reflexivity.
Defined.

(** X17.  [findAll] returns every stored edge exactly once, a more
    recent edge never after an older one. *)
Theorem follow_findAll_newest_first (db : Db) :
  newestFirst (FollowCollection.findAll db) = true
  /\ Permutation (FollowCollection.findAll db) (follows db).
Proof.
  unfold FollowCollection.findAll.
  rewrite newestFirst_eq, sortByDateDesc_eq. split.
  - apply sortDesc_sorted.
  - apply sortDesc_perm.
Qed.

(** X18.  Once a request of persona [a] to follow [b] has been answered
    201, the following list served to a logged-in session of any persona
    [p] is the one served before, with the new edge appended when
    [p = a]; the followers list is the one served before, with the new
    edge appended when [p = b]. *)
Theorem follow_extends_the_listings
  (req : Request) (db : Db) (a b : ObjectId) :
  personaId (session req) = Some a ->
  body_personaId (body req) = Some b ->
  statusOf (FollowRouter.follow req db) = Some 201 ->
  let db1 := db_after (FollowRouter.follow req db) in
  let edge := mkFollow (nextId db) a b (now req) in
  forall ask p,
    userId (session ask) <> None ->
    personaId (session ask) = Some p ->
    outcome (FollowRouter.following ask db1)
    = reply 200
        (FollowsPayload
           (FollowCollection.findAllInitiatedById p db
            ++ (if a =? p then [edge] else [])))
    /\ outcome (FollowRouter.followers ask db1)
       = reply 200
           (FollowsPayload
              (FollowCollection.findAllReceivedById p db
               ++ (if b =? p then [edge] else []))).
Proof.
  intros Ha Hb H201 db1 edge ask p Hlog Hp. subst db1 edge.
  destruct (follow_201_inv req db a b Ha Hb H201) as (_ & _ & _ & ->).
  destruct (listing_snoc p db (mkFollow (nextId db) a b (now req)))
    as [Hinit Hrecv].
  cbn [followerId followingId] in Hinit, Hrecv.
  unfold FollowRouter.following, FollowRouter.followers.
  rewrite !(route_next UserValidator.isUserLoggedIn)
    by (apply isUserLoggedIn_next; exact Hlog).
  rewrite !(route_next PersonaValidator.isPersonaSignedIn)
    by (apply (isPersonaSignedIn_next _ _ p); exact Hp).
  cbn [route]. unfold FollowRouter.followingHandler,
    FollowRouter.followersHandler.
  rewrite Hp. cbn [outcome]. now rewrite Hinit, Hrecv.
Qed.

Lemma follow_extends_the_listings_witness :
  let req := followRequest Sample.asBob 1 30 in
  personaId (session req) = Some 2
  /\ body_personaId (body req) = Some 1
  /\ statusOf (FollowRouter.follow req Sample.db2) = Some 201
  /\ (let db1 := db_after (FollowRouter.follow req Sample.db2) in
      let edge := mkFollow (nextId Sample.db2) 2 1 (now req) in
      forall ask p,
        userId (session ask) <> None ->
        personaId (session ask) = Some p ->
        outcome (FollowRouter.following ask db1)
        = reply 200
            (FollowsPayload
               (FollowCollection.findAllInitiatedById p Sample.db2
                ++ (if 2 =? p then [edge] else [])))
        /\ outcome (FollowRouter.followers ask db1)
           = reply 200
               (FollowsPayload
                  (FollowCollection.findAllReceivedById p Sample.db2
                   ++ (if 1 =? p then [edge] else [])))).
Proof.
  intro req.
  split; [reflexivity |]. split; [reflexivity |]. split; [reflexivity |].
  apply (follow_extends_the_listings req Sample.db2 2 1); reflexivity.
Defined.

(** X19.  [FollowCollection.deleteMany] of a persona removes the edges
    the persona initiated and no other: afterwards no pair with this
    follower is found and its following list is empty, every pair with
    another follower is found as before, and a followers list loses
    exactly the edges this persona initiated. *)
Theorem follow_deleteMany_follower_side (p a b : ObjectId) (db : Db) :
  let db' := FollowCollection.deleteMany p db in
  FollowCollection.findOneByPartyIds a b db'
  = (if a =? p then None else FollowCollection.findOneByPartyIds a b db)
  /\ FollowCollection.findAllInitiatedById a db'
     = (if a =? p then []
        else FollowCollection.findAllInitiatedById a db)
  /\ FollowCollection.findAllReceivedById b db'
     = filter (fun f => negb (followerId f =? p))
         (FollowCollection.findAllReceivedById b db)
  /\ personas db' = personas db.
Proof.
  intro db'. subst db'.
  destruct (deleteMany_follower_side_only p db) as [Hsame Hother].
  split; [| split; [| split; [| reflexivity]]].
  - destruct (a =? p) eqn:E.
    + apply Nat.eqb_eq in E. subst a. apply Hsame.
    + apply Nat.eqb_neq in E. now apply Hother.
  - unfold FollowCollection.findAllInitiatedById,
      FollowCollection.deleteMany. cbn.
    induction (follows db) as [| f l IH]; cbn.
    + now destruct (a =? p).
    + destruct (followerId f =? p) eqn:Efp; cbn.
      * rewrite IH. destruct (a =? p) eqn:Eap; [reflexivity |].
        apply Nat.eqb_eq in Efp. apply Nat.eqb_neq in Eap.
        destruct (followerId f =? a) eqn:Efa; [| reflexivity].
        apply Nat.eqb_eq in Efa. congruence.
      * rewrite IH. destruct (a =? p) eqn:Eap.
        -- apply Nat.eqb_eq in Eap. subst a. now rewrite Efp.
        -- reflexivity.
  - unfold FollowCollection.findAllReceivedById,
      FollowCollection.deleteMany. cbn.
    induction (follows db) as [| f l IH]; cbn; [reflexivity |].
    destruct (followerId f =? p) eqn:Efp, (followingId f =? b) eqn:Efb;
      cbn; rewrite ?Efp, ?Efb; cbn; now rewrite IH.
Qed.

(** X20.  For a handle that is a word token, the two listings by handle
    are the listings by identifier of the first stored persona with this
    handle; when no persona has the handle they throw. *)
Theorem follow_listings_by_handle (h : string) (db : Db) :
  wordToken h = true ->
  let owner := find (fun p => String.eqb (handle p) h) (personas db) in
  FollowCollection.findAllInitiatedByHandle h db
  = Some (option_map
            (fun p => FollowCollection.findAllInitiatedById (persona_id p) db)
            owner)
  /\ FollowCollection.findAllReceiveddByHandle h db
     = Some (option_map
               (fun p => FollowCollection.findAllReceivedById
                           (persona_id p) db)
               owner).
Proof.
  intros Hh owner. subst owner.
  unfold FollowCollection.findAllInitiatedByHandle,
    FollowCollection.findAllReceiveddByHandle.
  rewrite (findOneByHandle_word h db Hh).
  now destruct (find (fun p => String.eqb (handle p) h) (personas db)).
Qed.

Lemma follow_listings_by_handle_witness :
  wordToken "alice" = true
  /\ (let owner := find (fun p => String.eqb (handle p) "alice")
                        (personas Sample.db2) in
      FollowCollection.findAllInitiatedByHandle "alice" Sample.db2
      = Some (option_map
                (fun p => FollowCollection.findAllInitiatedById
                            (persona_id p) Sample.db2)
                owner)
      /\ FollowCollection.findAllReceiveddByHandle "alice" Sample.db2
         = Some (option_map
                   (fun p => FollowCollection.findAllReceivedById
                               (persona_id p) Sample.db2)
                   owner)).
Proof.
  split; [reflexivity |].
  apply (follow_listings_by_handle "alice" Sample.db2). reflexivity.
Defined.

(* ------------------------------------------------------------------ *)
(** * Freets, and deleting one document by identifier                   *)
(* ------------------------------------------------------------------ *)

Module KeyFacts.

Lemma find_key_fresh {A : Type} (key : A -> nat) (n : nat) (l : list A) :
  (forall y, In y l -> key y < n) -> find (fun y => key y =? n) l = None.
Proof.
  intro H. induction l as [| y l IH]; simpl; [reflexivity |].
  assert (Hy : key y < n) by (apply H; now left).
  apply Nat.lt_neq, Nat.eqb_neq in Hy. rewrite Hy.
  apply IH. intros z Hz. apply H. now right.
Qed.

Lemma find_removeFirst_key_same {A : Type} (key : A -> nat) (i : nat)
  (l : list A) :
  NoDup (map key l) ->
  find (fun y => key y =? i) (removeFirst (fun y => key y =? i) l) = None.
Proof.
  intro Hnd.
  destruct (find (fun y => key y =? i) l) as [x |] eqn:E.
  - destruct (find_split _ _ _ E) as (l1 & l2 & -> & Hx & Hl1).
    rewrite (removeFirst_split (fun y => key y =? i) _ _ x Hx Hl1).
    rewrite (find_app_skip _ _ _ Hl1).
    rewrite map_app in Hnd. cbn in Hnd. apply NoDup_remove_2 in Hnd.
    destruct (find (fun y => key y =? i) l2) as [z |] eqn:Ez;
      [| reflexivity].
    apply find_some in Ez as [Hin Hz].
    apply Nat.eqb_eq in Hx, Hz. contradiction Hnd.
    apply in_app_iff. right. rewrite Hx, <- Hz. now apply in_map.
  - now rewrite (removeFirst_none _ _ E).
Qed.

Lemma find_removeFirst_key_other {A : Type} (key : A -> nat) (i j : nat)
  (l : list A) :
  j <> i ->
  find (fun y => key y =? j) (removeFirst (fun y => key y =? i) l)
  = find (fun y => key y =? j) l.
Proof.
  intro Hji.
  destruct (removeFirst_cases (fun y => key y =? i) l)
    as [-> | (l1 & x & l2 & -> & Hx & _ & ->)]; [reflexivity |].
  symmetry. apply find_middle_skip.
  apply Nat.eqb_eq in Hx. rewrite Hx. now apply Nat.eqb_neq, Nat.neq_sym.
Qed.

Lemma find_replaceFirst_key {A : Type} (key : A -> nat) (i : nat)
  (l : list A) (x y : A) :
  find (fun z => key z =? i) l = Some x -> key y = i ->
  find (fun z => key z =? i) (replaceFirst (fun z => key z =? i) y l)
  = Some y
  /\ (forall j, j <> i ->
        find (fun z => key z =? j)
             (replaceFirst (fun z => key z =? i) y l)
        = find (fun z => key z =? j) l)
  /\ map key (replaceFirst (fun z => key z =? i) y l) = map key l.
Proof.
  intros Hfind Hy.
  destruct (find_split _ _ _ Hfind) as (l1 & l2 & -> & Hx & Hl1).
  rewrite (replaceFirst_split (fun z => key z =? i) _ _ x y Hx Hl1).
  apply Nat.eqb_eq in Hx. split; [| split].
  - rewrite (find_app_skip _ _ _ Hl1). cbn. now rewrite Hy, Nat.eqb_refl.
  - intros j Hj. rewrite !find_middle_skip; [reflexivity | |].
    + rewrite Hx. now apply Nat.eqb_neq, Nat.neq_sym.
    + rewrite Hy. now apply Nat.eqb_neq, Nat.neq_sym.
  - rewrite !map_app. cbn. now rewrite Hx, Hy.
Qed.

Lemma freetIdsOk_spec (fdb : FreetDb) :
  freetIdsOk fdb = true
  <-> NoDup (map freet_id (freets fdb))
      /\ forall f, In f (freets fdb) -> freet_id f < nextFreetId fdb.
Proof.
  unfold freetIdsOk.
  rewrite andb_true_iff, distinct_NoDup, forallb_forall. split.
  - intros [H1 H2]. split; [assumption |].
    intros f Hf. now apply Nat.ltb_lt, H2.
  - intros [H1 H2]. split; [assumption |].
    intros f Hf. now apply Nat.ltb_lt, H2.
Qed.

End KeyFacts.

Import KeyFacts.

(** X21.  Deleting a follow by identifier, identifiers being unique:
    the identifier resolves to nothing afterwards, every other
    identifier resolves as before, and [true] is returned whether or
    not an edge went. *)
Theorem follow_deleteOne_then_findOne (i : ObjectId) (db : Db) :
  followIdsUnique db = true ->
  let r := FollowCollection.deleteOne i db in
  fst r = true
  /\ FollowCollection.findOne i (snd r) = None
  /\ (forall j, j <> i ->
        FollowCollection.findOne j (snd r) = FollowCollection.findOne j db)
  /\ personas (snd r) = personas db.
Proof.
  intros Hnd r. subst r.
  unfold followIdsUnique in Hnd. apply distinct_NoDup in Hnd.
  unfold FollowCollection.findOne. cbn.
  split; [reflexivity |]. split; [| split; [| reflexivity]].
  - now apply (find_removeFirst_key_same follow_id).
  - intros j Hj. now apply (find_removeFirst_key_other follow_id).
Qed.

Lemma follow_deleteOne_then_findOne_witness :
  followIdsUnique Sample.db2 = true
  /\ (let r := FollowCollection.deleteOne 4 Sample.db2 in
      fst r = true
      /\ FollowCollection.findOne 4 (snd r) = None
      /\ (forall j, j <> 4 ->
            FollowCollection.findOne j (snd r)
            = FollowCollection.findOne j Sample.db2)
      /\ personas (snd r) = personas Sample.db2).
Proof.
  split; [reflexivity |].
  apply (follow_deleteOne_then_findOne 4 Sample.db2). reflexivity.
Defined.

(** X22.  Adding a freet the schema accepts to a collection whose
    identifiers are unique and below the counter: the freet is found
    under its new identifier, carries the author and the content given
    and the same date as creation and modification date, every other
    identifier resolves as before, and the identifiers stay unique and
    below the counter. *)
Theorem freet_addOne_then_findOne
  (valid : Freet -> bool) (author : ObjectId) (text : string) (date : nat)
  (fdb : FreetDb) :
  freetIdsOk fdb = true ->
  valid (mkFreet (nextFreetId fdb) author date text date) = true ->
  exists f fdb',
    FreetCollection.addOne valid author text date fdb = Some (f, fdb')
    /\ FreetCollection.findOne (freet_id f) fdb' = Some f
    /\ freet_personaId f = author /\ content f = text
    /\ dateCreated f = date /\ dateModified f = date
    /\ (forall j, j <> freet_id f ->
          FreetCollection.findOne j fdb' = FreetCollection.findOne j fdb)
    /\ freetIdsOk fdb' = true.
Proof.
  intros Hok Hvalid. apply freetIdsOk_spec in Hok as [Hnd Hfresh].
  unfold FreetCollection.addOne. rewrite Hvalid.
  eexists. eexists. split; [reflexivity |].
  unfold FreetCollection.findOne. cbn.
  split; [| repeat split].
  - rewrite find_snoc, (find_key_fresh freet_id _ _ Hfresh). cbn.
    now rewrite Nat.eqb_refl.
  - intros j Hj. rewrite find_snoc. cbn.
    apply Nat.neq_sym, Nat.eqb_neq in Hj. rewrite Hj.
    now destruct (find _ (freets fdb)).
  - apply freetIdsOk_spec. cbn. rewrite map_app. cbn. split.
    + apply NoDup_snoc; [assumption |]. intro Hin.
      apply in_map_iff in Hin as (f & Hid & Hin). apply Hfresh in Hin. lia.
    + intros f Hin. apply in_app_iff in Hin as [Hin | [<- | []]];
        [apply Hfresh in Hin; lia | cbn; lia].
Qed.

Lemma freet_addOne_then_findOne_witness :
  freetIdsOk Fixture.fdb0 = true
  /\ Fixture.someContent
       (mkFreet (nextFreetId Fixture.fdb0) 2 8 "third" 8) = true
  /\ exists f fdb',
       FreetCollection.addOne Fixture.someContent 2 "third" 8 Fixture.fdb0
       = Some (f, fdb')
       /\ FreetCollection.findOne (freet_id f) fdb' = Some f
       /\ freet_personaId f = 2 /\ content f = "third"
       /\ dateCreated f = 8 /\ dateModified f = 8
       /\ (forall j, j <> freet_id f ->
             FreetCollection.findOne j fdb'
             = FreetCollection.findOne j Fixture.fdb0)
       /\ freetIdsOk fdb' = true.
Proof.
  split; [reflexivity |]. split; [reflexivity |].
  apply (freet_addOne_then_findOne Fixture.someContent 2 "third" 8
           Fixture.fdb0); reflexivity.
Defined.

(** X23.  Updating a stored freet with a content the schema accepts
    changes its content and its modification date and nothing else: the
    freet found under the identifier keeps its author and its creation
    date, every other identifier resolves as before, and no identifier
    is added, removed or moved. *)
Theorem freet_updateOne_changes_content_only
  (valid : Freet -> bool) (i : ObjectId) (text : string) (date : nat)
  (fdb : FreetDb) (f0 : Freet) :
  FreetCollection.findOne i fdb = Some f0 ->
  valid (mkFreet (freet_id f0) (freet_personaId f0) (dateCreated f0)
           text date) = true ->
  exists f1 fdb',
    FreetCollection.updateOne valid i text date fdb = Some (f1, fdb')
    /\ FreetCollection.findOne i fdb' = Some f1
    /\ content f1 = text /\ dateModified f1 = date
    /\ dateCreated f1 = dateCreated f0
    /\ freet_personaId f1 = freet_personaId f0
    /\ freet_id f1 = i
    /\ (forall j, j <> i ->
          FreetCollection.findOne j fdb' = FreetCollection.findOne j fdb)
    /\ map freet_id (freets fdb') = map freet_id (freets fdb)
    /\ nextFreetId fdb' = nextFreetId fdb.
Proof.
  unfold FreetCollection.findOne, FreetCollection.updateOne.
  intros Hfind Hvalid. rewrite Hfind, Hvalid.
  assert (Hid : freet_id f0 = i).
  { apply find_some in Hfind as [_ E]. now apply Nat.eqb_eq in E. }
  destruct (find_replaceFirst_key freet_id i (freets fdb) f0
              (mkFreet (freet_id f0) (freet_personaId f0) (dateCreated f0)
                 text date) Hfind Hid) as (Hsame & Hother & Hmap).
  eexists. eexists. split; [reflexivity |]. cbn.
  repeat split; assumption.
Qed.

Lemma freet_updateOne_changes_content_only_witness :
  FreetCollection.findOne 2 Fixture.fdb0 = Some Fixture.again
  /\ Fixture.someContent
       (mkFreet (freet_id Fixture.again) (freet_personaId Fixture.again)
          (dateCreated Fixture.again) "edited" 12) = true
  /\ exists f1 fdb',
       FreetCollection.updateOne Fixture.someContent 2 "edited" 12
         Fixture.fdb0 = Some (f1, fdb')
       /\ FreetCollection.findOne 2 fdb' = Some f1
       /\ content f1 = "edited" /\ dateModified f1 = 12
       /\ dateCreated f1 = dateCreated Fixture.again
       /\ freet_personaId f1 = freet_personaId Fixture.again
       /\ freet_id f1 = 2
       /\ (forall j, j <> 2 ->
             FreetCollection.findOne j fdb'
             = FreetCollection.findOne j Fixture.fdb0)
       /\ map freet_id (freets fdb') = map freet_id (freets Fixture.fdb0)
       /\ nextFreetId fdb' = nextFreetId Fixture.fdb0.
Proof.
  split; [reflexivity |]. split; [reflexivity |].
  apply (freet_updateOne_changes_content_only Fixture.someContent 2
           "edited" 12 Fixture.fdb0 Fixture.again); reflexivity.
Defined.

(** X24.  [FreetCollection.deleteMany] of a persona removes the freets of
    this author and no other: the author's listing is empty afterwards,
    every other listing is as before, and a freet stays exactly when its
    author is another persona. *)
Theorem freet_deleteMany_removes_author (p q : ObjectId) (fdb : FreetDb) :
  let fdb' := FreetCollection.deleteMany p fdb in
  FreetCollection.findAllByPersonaId q fdb'
  = (if q =? p then [] else FreetCollection.findAllByPersonaId q fdb)
  /\ (forall f, In f (freets fdb')
                <-> In f (freets fdb) /\ freet_personaId f <> p)
  /\ nextFreetId fdb' = nextFreetId fdb.
Proof.
  intro fdb'. subst fdb'.
  unfold FreetCollection.findAllByPersonaId, FreetCollection.deleteMany.
  cbn. split; [| split; [| reflexivity]].
  - induction (freets fdb) as [| f l IH]; cbn.
    + now destruct (q =? p).
    + destruct (freet_personaId f =? p) eqn:Efp; cbn.
      * rewrite IH. destruct (q =? p) eqn:Eqp; [reflexivity |].
        apply Nat.eqb_eq in Efp. apply Nat.eqb_neq in Eqp.
        destruct (freet_personaId f =? q) eqn:Efq; [| reflexivity].
        apply Nat.eqb_eq in Efq. congruence.
      * rewrite IH. destruct (q =? p) eqn:Eqp; [| reflexivity].
        apply Nat.eqb_eq in Eqp. subst q. now rewrite Efp.
  - intro f. rewrite filter_In, negb_true_iff, Nat.eqb_neq. reflexivity.
Qed.

(** X25.  [FreetCollection.findAll] returns every stored freet exactly
    once, a more recently modified freet never after an older one. *)
Theorem freet_findAll_newest_first (fdb : FreetDb) :
  sortedDesc dateModified (FreetCollection.findAll fdb) = true
  /\ Permutation (FreetCollection.findAll fdb) (freets fdb).
Proof.
  unfold FreetCollection.findAll. split.
  - apply sortDesc_sorted.
  - apply sortDesc_perm.
Qed.

(** X26.  For a handle that is a word token, the freets listed by owner
    handle are the freets whose author is the first stored persona with
    this handle, in stored order; when no persona has the handle the
    listing throws. *)
Theorem freet_listing_by_owner_handle (h : string) (db : Db) (fdb : FreetDb) :
  wordToken h = true ->
  FreetCollection.findAllByOwnerHandle h db fdb
  = Some (option_map
            (fun p => FreetCollection.findAllByPersonaId (persona_id p) fdb)
            (find (fun p => String.eqb (handle p) h) (personas db))).
Proof.
  intro Hh. unfold FreetCollection.findAllByOwnerHandle.
  rewrite (findOneByHandle_word h db Hh).
  now destruct (find (fun p => String.eqb (handle p) h) (personas db)).
Qed.

Lemma freet_listing_by_owner_handle_witness :
  wordToken "alice" = true
  /\ FreetCollection.findAllByOwnerHandle "alice" Sample.db0 Fixture.fdb0
     = Some (option_map
               (fun p => FreetCollection.findAllByPersonaId (persona_id p)
                           Fixture.fdb0)
               (find (fun p => String.eqb (handle p) "alice")
                     (personas Sample.db0))).
Proof.
  split; [reflexivity |].
  apply (freet_listing_by_owner_handle "alice" Sample.db0 Fixture.fdb0).
  reflexivity.
Defined.

(** X27.  Deleting a freet by identifier, identifiers being unique: the
    identifier resolves to nothing afterwards and every other identifier
    resolves as before. *)
Theorem freet_deleteOne_then_findOne (i : ObjectId) (fdb : FreetDb) :
  freetIdsOk fdb = true ->
  let r := FreetCollection.deleteOne i fdb in
  fst r = true
  /\ FreetCollection.findOne i (snd r) = None
  /\ (forall j, j <> i ->
        FreetCollection.findOne j (snd r) = FreetCollection.findOne j fdb)
  /\ freetIdsOk (snd r) = true.
Proof.
  intros Hok r. subst r. apply freetIdsOk_spec in Hok as [Hnd Hfresh].
  unfold FreetCollection.findOne. cbn.
  split; [reflexivity |]. split; [| split].
  - now apply (find_removeFirst_key_same freet_id).
  - intros j Hj. now apply (find_removeFirst_key_other freet_id).
  - apply freetIdsOk_spec. cbn. split.
    + now apply NoDup_map_removeFirst.
    + intros f Hin. apply Hfresh. now apply In_removeFirst in Hin.
Qed.

Lemma freet_deleteOne_then_findOne_witness :
  freetIdsOk Fixture.fdb0 = true
  /\ (let r := FreetCollection.deleteOne 2 Fixture.fdb0 in
      fst r = true
      /\ FreetCollection.findOne 2 (snd r) = None
      /\ (forall j, j <> 2 ->
            FreetCollection.findOne j (snd r)
            = FreetCollection.findOne j Fixture.fdb0)
      /\ freetIdsOk (snd r) = true).
Proof.
  split; [reflexivity |].
  apply (freet_deleteOne_then_findOne 2 Fixture.fdb0). reflexivity.
Defined.

(* ------------------------------------------------------------------ *)
(** * Who may update, renaming, and signing in after a creation         *)
(* ------------------------------------------------------------------ *)

Module SessionFacts.

(** Two requests that every check of a chain treats alike get the same
    answer and leave the same store, as soon as the handler treats them
    alike. *)
Lemma route_agree (mws : list Middleware) (h : Handler) (req req' : Request)
  (db : Db) :
  Forall (fun m => m req db = m req' db) mws ->
  outcome (h req db) = outcome (h req' db) ->
  db_after (h req db) = db_after (h req' db) ->
  outcome (route mws h req db) = outcome (route mws h req' db)
  /\ db_after (route mws h req db) = db_after (route mws h req' db).
Proof.
  intros Hall Ho Hd. induction Hall as [| m mws Hm _ IH]; cbn [route].
  - now split.
  - rewrite <- Hm. destruct (m req db); [exact IH | now split].
Qed.

(** Running the update route on a request that passes the format and
    ownership checks. *)
Lemma update_run (pid : ObjectId) (p : Persona) (req : Request) (db : Db) :
  userId (session req) <> None ->
  find (fun q => persona_id q =? pid) (personas db) = Some p ->
  user p = body_username (body req) ->
  user p <> EmptyString ->
  RegExp.test PersonaValidator.nameRegex (body_name (body req)) = true ->
  wordToken (body_handle (body req)) = true ->
  (handle p = body_handle (body req)
   \/ find (fun q => String.eqb (handle q) (body_handle (body req)))
        (personas db) = None) ->
  PersonaRouter.update (Some pid) req db
  = mkResult
      (reply 200
         (PersonaPayload
            (mkPersona (persona_id p) (user p) (body_handle (body req))
               (body_name (body req)))))
      (setPersonas db
         (replaceFirst (fun q => persona_id q =? pid)
            (mkPersona (persona_id p) (user p) (body_handle (body req))
               (body_name (body req)))
            (personas db)))
      (session req).
Proof.
  intros Hlog Hfind Huser Hune Hname Hh Hfree.
  unfold PersonaRouter.update.
  rewrite (route_next _ _ _ _ _ (isUserLoggedIn_next req db Hlog)).
  rewrite (route_next (PersonaValidator.isPersonaExistWithUser (Some pid)))
    by (unfold PersonaValidator.isPersonaExistWithUser,
          PersonaCollection.findOneByPersonaId;
        rewrite Hfind, Huser, String.eqb_refl; reflexivity).
  rewrite (route_next _ _ _ _ _ (isValidName_next req db Hname)).
  rewrite (route_next PersonaValidator.isValidHandle)
    by (rewrite isValidHandle_eq; now rewrite Hh).
  rewrite (route_next
             (PersonaValidator.isNewHandleNotAlreadyInUse (Some pid))).
  2:{ unfold PersonaValidator.isNewHandleNotAlreadyInUse,
        PersonaCollection.findOneByPersonaId.
      rewrite Hfind, (findOneByHandle_word _ db Hh).
      destruct Hfree as [-> | ->].
      - now rewrite String.eqb_refl.
      - now destruct (String.eqb (handle p) (body_handle (body req))). }
  cbn [route]. unfold PersonaRouter.updateHandler,
    PersonaCollection.updateOne.
  rewrite Hfind. cbn [details_name details_handle].
  rewrite !(valid_name_nonempty _ Hname), !(wordToken_nonempty _ Hh).
  cbv zeta iota.
  rewrite ?(valid_name_nonempty _ Hname), ?(wordToken_nonempty _ Hh).
  apply String.eqb_neq in Hune. now rewrite Hune.
Qed.

End SessionFacts.

Import SessionFacts.

(** X28.  The update route never consults who is logged in: two
    logged-in requests with the same body and the same route parameter
    get the same answer and leave the same store, whatever their
    sessions.  (Ownership is checked against the username of the
    body.) *)
Theorem update_ignores_the_session
  (param : option ObjectId) (req req' : Request) (db : Db) :
  userId (session req) <> None ->
  userId (session req') <> None ->
  body req = body req' ->
  outcome (PersonaRouter.update param req db)
  = outcome (PersonaRouter.update param req' db)
  /\ db_after (PersonaRouter.update param req db)
     = db_after (PersonaRouter.update param req' db).
Proof.
  intros Hlog Hlog' Hbody. unfold PersonaRouter.update.
  apply route_agree.
  - repeat constructor.
    + now rewrite !isUserLoggedIn_next.
    + unfold PersonaValidator.isPersonaExistWithUser. now rewrite Hbody.
    + unfold PersonaValidator.isValidName, PersonaValidator.nameCheck,
    PersonaValidator.tested. now rewrite Hbody.
    + unfold PersonaValidator.isValidHandle, PersonaValidator.handleCheck,
    PersonaValidator.tested. now rewrite Hbody.
    + unfold PersonaValidator.isNewHandleNotAlreadyInUse. now rewrite Hbody.
  - unfold PersonaRouter.updateHandler. rewrite Hbody.
    destruct param as [pid |]; [| reflexivity].
    now destruct (PersonaCollection.updateOne pid _ db) as [[q db1] |].
  - unfold PersonaRouter.updateHandler. rewrite Hbody.
    destruct param as [pid |]; [| reflexivity].
    now destruct (PersonaCollection.updateOne pid _ db) as [[q db1] |].
Qed.

Lemma update_ignores_the_session_witness :
  let req := Fixture.updateRequest Sample.asAlice "ben" "bobby" "Bob B" in
  let req' := Fixture.updateRequest Sample.asBob "ben" "bobby" "Bob B" in
  userId (session req) <> None
  /\ userId (session req') <> None
  /\ body req = body req'
  /\ outcome (PersonaRouter.update (Some 2) req Sample.db2)
     = outcome (PersonaRouter.update (Some 2) req' Sample.db2)
  /\ db_after (PersonaRouter.update (Some 2) req Sample.db2)
     = db_after (PersonaRouter.update (Some 2) req' Sample.db2).
Proof.
  intros req req'.
  split; [discriminate |]. split; [discriminate |]. split; [reflexivity |].
  apply (update_ignores_the_session (Some 2) req req' Sample.db2);
    [discriminate | discriminate | reflexivity].
Defined.

(** X29.  Renaming moves the handle.  In a registry whose handles are
    word tokens and pairwise different, after the update of the stored
    persona [p] to a new handle that no stored persona carries, a lookup
    by the new handle returns the updated persona and a lookup by the
    old handle returns nothing. *)
Theorem update_moves_the_handle
  (pid : ObjectId) (p : Persona) (req : Request) (db : Db) :
  userId (session req) <> None ->
  PersonaCollection.findOneByPersonaId pid db = Some p ->
  user p = body_username (body req) ->
  user p <> EmptyString ->
  RegExp.test PersonaValidator.nameRegex (body_name (body req)) = true ->
  wordToken (body_handle (body req)) = true ->
  handlesValid db = true ->
  handlesDistinct db = true ->
  (forall q, In q (personas db) -> handle q <> body_handle (body req)) ->
  let r := PersonaRouter.update (Some pid) req db in
  statusOf r = Some 200
  /\ PersonaCollection.findOneByHandle (body_handle (body req)) (db_after r)
     = Some (Some (mkPersona pid (user p) (body_handle (body req))
                     (body_name (body req))))
  /\ PersonaCollection.findOneByHandle (handle p) (db_after r) = Some None.
Proof.
  intros Hlog Hfind Huser Hune Hname Hh Hvalid Hdist Hfree r. subst r.
  unfold PersonaCollection.findOneByPersonaId in Hfind.
  assert (Hnone : find (fun q => String.eqb (handle q)
                                   (body_handle (body req)))
                    (personas db) = None).
  { destruct (find (fun q => String.eqb (handle q)
                                (body_handle (body req)))
                (personas db)) as [q |] eqn:E; [| reflexivity].
    apply find_handle_some in E as [Hin Hq].
    now contradiction (Hfree q Hin). }
  rewrite (update_run pid p req db Hlog Hfind Huser Hune Hname Hh
             (or_intror Hnone)).
  destruct (find_split _ _ _ Hfind) as (l1 & l2 & Hl & Hp & Hl1).
  assert (Hpid : persona_id p = pid) by now apply Nat.eqb_eq.
  assert (Hold : wordToken (handle p) = true).
  { apply (handlesValid_in db p Hvalid). rewrite Hl.
    apply in_app_iff. right. now left. }
  apply handlesDistinct_NoDup in Hdist.
  cbn [statusOf outcome reply status db_after].
  rewrite (findOneByHandle_word _ _ Hh), (findOneByHandle_word _ _ Hold).
  cbn [personas setPersonas].
  rewrite Hl, (replaceFirst_split (fun q => persona_id q =? pid) _ _ p _
                 Hp Hl1), Hpid.
  split; [reflexivity |]. split.
  - f_equal. rewrite find_app_skip.
    + cbn. now rewrite String.eqb_refl.
    + apply forallb_forall. intros q Hq. apply negb_true_iff.
      apply String.eqb_neq. apply Hfree. rewrite Hl.
      apply in_app_iff. now left.
  - f_equal. rewrite find_middle_skip.
    + rewrite Hl, map_app in Hdist. cbn in Hdist.
      apply NoDup_remove_2 in Hdist. rewrite <- map_app in Hdist.
      destruct (find _ (l1 ++ l2)) as [q |] eqn:E; [| reflexivity].
      apply find_handle_some in E as [Hin Hq].
      contradiction Hdist. rewrite <- Hq. now apply in_map.
    + cbn. apply String.eqb_neq. intro E. apply (Hfree p); [| now symmetry].
      rewrite Hl. apply in_app_iff. right. now left.
Qed.

Lemma update_moves_the_handle_witness :
  let req := Fixture.updateRequest Sample.asBob "amy" "alicia" "Alice B" in
  userId (session req) <> None
  /\ PersonaCollection.findOneByPersonaId 1 Sample.db2 = Some Sample.alice
  /\ user Sample.alice = body_username (body req)
  /\ user Sample.alice <> EmptyString
  /\ RegExp.test PersonaValidator.nameRegex (body_name (body req)) = true
  /\ wordToken (body_handle (body req)) = true
  /\ handlesValid Sample.db2 = true
  /\ handlesDistinct Sample.db2 = true
  /\ (forall q, In q (personas Sample.db2) ->
                handle q <> body_handle (body req))
  /\ (let r := PersonaRouter.update (Some 1) req Sample.db2 in
      statusOf r = Some 200
      /\ PersonaCollection.findOneByHandle (body_handle (body req))
           (db_after r)
         = Some (Some (mkPersona 1 (user Sample.alice)
                         (body_handle (body req)) (body_name (body req))))
      /\ PersonaCollection.findOneByHandle (handle Sample.alice) (db_after r)
         = Some None).
Proof.
  intro req.
  assert (Hfree : forall q, In q (personas Sample.db2) ->
                            handle q <> body_handle (body req)).
  { intros q [<- | [<- | [<- | []]]]; discriminate. }
  split; [discriminate |]. split; [reflexivity |]. split; [reflexivity |].
  split; [discriminate |]. split; [reflexivity |]. split; [reflexivity |].
  split; [reflexivity |]. split; [reflexivity |]. split; [exact Hfree |].
  apply (update_moves_the_handle 1 Sample.alice req Sample.db2);
    try reflexivity; try discriminate; exact Hfree.
Defined.

(** X30.  Signing in after a creation.  When a stored user whose
    username is a word token has created a persona under this username
    (201), signing in from the same session with the handle just created
    is answered 200 with the new persona, and binds the session to its
    identifier. *)
Theorem create_then_signIn_binds_new_persona
  (req : Request) (db : Db) (uid : ObjectId) (u : User) :
  userId (session req) = Some uid ->
  UserCollection.findOneByUserId uid db = Some u ->
  username u = body_username (body req) ->
  wordToken (username u) = true ->
  statusOf (PersonaRouter.create req db) = Some 201 ->
  let r1 := PersonaRouter.create req db in
  let created := mkPersona (nextId db) (body_username (body req))
                   (body_handle (body req)) (body_name (body req)) in
  let r2 := PersonaRouter.signIn
              (signInRequest (session_after r1) (body_handle (body req)))
              (db_after r1) in
  outcome r2 = reply 200 (PersonaPayload created)
  /\ personaId (session_after r2) = Some (nextId db)
  /\ db_after r2 = db_after r1.
Proof.
  intros Huid Hu Hname Hw H201 r1 created r2. subst r1 r2 created.
  destruct (create_201_inv req db H201) as (Hlog & Hdb & Hs).
  destruct (create_db_after req db) as [Hsame | (Hh & Hfree & _)].
  { rewrite Hsame in Hdb. apply (f_equal nextId) in Hdb. cbn in Hdb. lia. }
  rewrite Hdb, Hs.
  set (h := body_handle (body req)) in *.
  set (p := mkPersona (nextId db) (body_username (body req)) h
              (body_name (body req))).
  set (db1 := mkDb (users db) (personas db ++ [p]) (follows db)
                  (S (nextId db))).
  set (req2 := signInRequest (setPersonId (session req) (nextId db)) h).
  assert (Hresolved :
    find (fun q => String.eqb (handle q) h) (personas db1) = Some p).
  { unfold db1. cbn. rewrite find_snoc, Hfree. cbn.
    now rewrite String.eqb_refl. }
  unfold PersonaRouter.signIn.
  rewrite (route_next UserValidator.isUserLoggedIn)
    by (apply isUserLoggedIn_next; exact Hlog).
  rewrite (route_next PersonaValidator.isValidHandle)
    by (rewrite isValidHandle_eq; cbn; now rewrite Hh).
  rewrite (route_next PersonaValidator.isPersonaHandleExistWithUser).
  2:{ unfold PersonaValidator.isPersonaHandleExistWithUser.
      change (userId (session req2)) with (userId (session req)).
      rewrite Huid.
      change (UserCollection.findOneByUserId uid db1)
        with (UserCollection.findOneByUserId uid db).
      rewrite Hu. change (body_handle (body req2)) with h.
      rewrite (findOneByUserAndHandle_word _ _ db1 Hw Hh).
      unfold db1. cbn [personas]. rewrite find_snoc.
      destruct (find (fun q => String.eqb (user q) (username u)
                                 && String.eqb (handle q) h)
                  (personas db)); [reflexivity |].
      unfold p. cbn [user handle].
      now rewrite Hname, !String.eqb_refl. }
  cbn [route]. unfold PersonaRouter.signInHandler. cbn.
  rewrite (findOneByHandle_word h db1 Hh), Hresolved.
  now repeat split.
Qed.

Lemma create_then_signIn_binds_new_persona_witness :
  let req := createRequest Sample.amyOnly "amy" "dora" "Dora D" in
  userId (session req) = Some 100
  /\ UserCollection.findOneByUserId 100 Sample.db2 = Some Sample.amy
  /\ username Sample.amy = body_username (body req)
  /\ wordToken (username Sample.amy) = true
  /\ statusOf (PersonaRouter.create req Sample.db2) = Some 201
  /\ (let r1 := PersonaRouter.create req Sample.db2 in
      let created := mkPersona (nextId Sample.db2)
                       (body_username (body req))
                       (body_handle (body req)) (body_name (body req)) in
      let r2 := PersonaRouter.signIn
                  (signInRequest (session_after r1)
                     (body_handle (body req)))
                  (db_after r1) in
      outcome r2 = reply 200 (PersonaPayload created)
      /\ personaId (session_after r2) = Some (nextId Sample.db2)
      /\ db_after r2 = db_after r1).
Proof.
  intro req.
  split; [reflexivity |]. split; [reflexivity |]. split; [reflexivity |].
  split; [reflexivity |]. split; [reflexivity |].
  apply (create_then_signIn_binds_new_persona req Sample.db2 100 Sample.amy);
    reflexivity.
Defined.
